(** * Dorothy's Mind Games: the Stockfish analysis subsystem

    A shallow embedding of [src/engine/analyzer.py] (the result record, the
    UCI info-line parser, the move classifier, the result queue and the
    start-up handshake) and of the slice of [src/states/game_state.py] that
    classifies a player move, followed by the properties proved about them.

    Conventions.
    - Python [int] is unbounded: it is [Z].
    - A Python [str] is a [string]; a character is read as the code point of
      the same number, so the model covers text in the range U+0000..U+00FF
      (the engine writes ASCII).
    - A Python exception is the [Raise] case of [res]. *)

From Stdlib Require Import ZArith List String Ascii Bool Lia.
From Stdlib Require DecimalString QArith.
Import ListNotations.
Local Open Scope string_scope.
Local Open Scope list_scope.
Local Open Scope Z_scope.

(** ** Exceptions *)

Inductive exn : Type :=
| ValueError          (* int() on a token that is not an integer literal *)
| FileNotFoundError   (* Popen on a path that does not exist *)
| OtherException.     (* anything else caught by [except Exception] *)

Inductive res (A : Type) : Type :=
| Ok (a : A)
| Raise (e : exn).

Arguments Ok {A} a.
Arguments Raise {A} e.

(** ** Python string primitives used by the analyzer *)

Module PyStr.

(** [str.isspace] on one character, for code points below 256: TAB..CR,
    FS..US, the space, NEL and the no-break space. *)
Definition isspace (c : ascii) : bool :=
  let n := nat_of_ascii c in
  ((9 <=? n) && (n <=? 13) || (28 <=? n) && (n <=? 32)
   || (n =? 133) || (n =? 160))%nat.

(** [str.split()] with no argument: the maximal runs of characters that
    are not whitespace, in order; no empty token. *)
Fixpoint split (s : string) : list string :=
  match s with
  | EmptyString => []
  | String c s' =>
      if isspace c then split s'
      else match s' with
           | EmptyString => [String c EmptyString]
           | String c' _ =>
               if isspace c' then String c EmptyString :: split s'
               else match split s' with
                    | t :: ts => String c t :: ts
                    | [] => [String c EmptyString]
                    end
           end
  end.

Fixpoint lstrip (s : string) : string :=
  match s with
  | EmptyString => EmptyString
  | String c s' => if isspace c then lstrip s' else s
  end.

Fixpoint rstrip (s : string) : string :=
  match s with
  | EmptyString => EmptyString
  | String c s' =>
      match rstrip s' with
      | EmptyString => if isspace c then EmptyString else String c EmptyString
      | t => String c t
      end
  end.

(** [str.strip()] with no argument. *)
Definition strip (s : string) : string := rstrip (lstrip s).

Definition is_digit (c : ascii) : bool :=
  let n := nat_of_ascii c in ((48 <=? n) && (n <=? 57))%nat.

Definition digit_value (c : ascii) : Z := Z.of_nat (nat_of_ascii c) - 48.

(** CPython's default [sys.int_max_str_digits]: a decimal literal with more
    digit characters than this is refused by [int]. *)
Definition int_max_str_digits : nat := 4300.

(** The digit part of a decimal literal: digits, with single underscores
    allowed between two digits.  [prev_us] records that the previous
    character was an underscore; the scan starts with [prev_us = true], which
    refuses both the empty string and a leading underscore.  Returns the
    value and the number of digit characters. *)
Fixpoint scan_digits (s : string) (prev_us : bool) (acc : Z) (count : nat)
  : option (Z * nat) :=
  match s with
  | EmptyString => if prev_us then None else Some (acc, count)
  | String c s' =>
      if is_digit c then scan_digits s' false (10 * acc + digit_value c) (S count)
      else if Ascii.eqb c "_"%char then
             if prev_us then None else scan_digits s' true acc count
           else None
  end.

Definition unsigned_literal (s : string) : option Z :=
  match scan_digits s true 0 0%nat with
  | Some (v, count) => if (count <=? int_max_str_digits)%nat then Some v else None
  | None => None
  end.

(** [int(s)] for a string argument, base 10: surrounding whitespace is
    dropped, then an optional sign, then the digit part.  [None] stands for
    [ValueError]. *)
Definition int (s : string) : option Z :=
  match strip s with
  | String c body =>
      if Ascii.eqb c "-"%char then option_map Z.opp (unsigned_literal body)
      else if Ascii.eqb c "+"%char then unsigned_literal body
      else unsigned_literal (String c body)
  | EmptyString => None
  end.

End PyStr.

(** ** Constants ([src/core/constants.py]) *)

Definition BLUNDER_THRESHOLD_CP : Z := 200.
Definition MISTAKE_THRESHOLD_CP : Z := 100.
Definition INACCURACY_THRESHOLD_CP : Z := 50.
Definition STOCKFISH_DEFAULT_DEPTH : Z := 18.

(** ** Data structures *)

(** [AnalysisResult]: the dataclass, field for field. *)
Record AnalysisResult : Type := mkAnalysisResult {
  depth : Z;
  score_cp : Z;
  score_mate : option Z;
  best_move : string;
  pv : list string;
  nodes : Z;
  nps : Z;
  is_mate : bool
}.

(** [AnalysisResult()]: every field at its default. *)
Definition AnalysisResult_default : AnalysisResult :=
  {| depth := 0; score_cp := 0; score_mate := None; best_move := "";
     pv := []; nodes := 0; nps := 0; is_mate := false |}.

Definition set_depth (v : Z) (r : AnalysisResult) : AnalysisResult :=
  {| depth := v; score_cp := score_cp r; score_mate := score_mate r;
     best_move := best_move r; pv := pv r; nodes := nodes r; nps := nps r;
     is_mate := is_mate r |}.

Definition set_nodes (v : Z) (r : AnalysisResult) : AnalysisResult :=
  {| depth := depth r; score_cp := score_cp r; score_mate := score_mate r;
     best_move := best_move r; pv := pv r; nodes := v; nps := nps r;
     is_mate := is_mate r |}.

Definition set_nps (v : Z) (r : AnalysisResult) : AnalysisResult :=
  {| depth := depth r; score_cp := score_cp r; score_mate := score_mate r;
     best_move := best_move r; pv := pv r; nodes := nodes r; nps := v;
     is_mate := is_mate r |}.

Definition set_best_move (m : string) (r : AnalysisResult) : AnalysisResult :=
  {| depth := depth r; score_cp := score_cp r; score_mate := score_mate r;
     best_move := m; pv := pv r; nodes := nodes r; nps := nps r;
     is_mate := is_mate r |}.

Definition set_pv (l : list string) (r : AnalysisResult) : AnalysisResult :=
  {| depth := depth r; score_cp := score_cp r; score_mate := score_mate r;
     best_move := best_move r; pv := l; nodes := nodes r; nps := nps r;
     is_mate := is_mate r |}.

(** [result.score_cp = val; result.is_mate = False] *)
Definition set_score_cp (val : Z) (r : AnalysisResult) : AnalysisResult :=
  {| depth := depth r; score_cp := val; score_mate := score_mate r;
     best_move := best_move r; pv := pv r; nodes := nodes r; nps := nps r;
     is_mate := false |}.

(** [result.score_mate = val; result.is_mate = True;
     result.score_cp = 30000 if val > 0 else -30000] *)
Definition set_score_mate (val : Z) (r : AnalysisResult) : AnalysisResult :=
  {| depth := depth r; score_cp := if val >? 0 then 30000 else -30000;
     score_mate := Some val;
     best_move := best_move r; pv := pv r; nodes := nodes r; nps := nps r;
     is_mate := true |}.

(** ** The info-line parser ([StockfishAnalyzer._parse_info]) *)

Module Parser.

Import PyStr.
Local Open Scope string_scope.
Local Open Scope list_scope.

(** The body of the [score] branch once [val] has been read. *)
Definition apply_score (kind : string) (val : Z) (r : AnalysisResult)
  : AnalysisResult :=
  if kind =? "cp" then set_score_cp val r
  else if kind =? "mate" then set_score_mate val r
  else r.

(** The body of the [pv] branch: [rest] is [tokens[i + 1:]]. *)
Definition apply_pv (rest : list string) (r : AnalysisResult) : AnalysisResult :=
  let r' := set_pv rest r in
  match rest with
  | m :: _ => set_best_move m r'
  | [] => r'
  end.

Definition token (tokens : list string) (i : nat) : string := nth i tokens "".

(** The [while i < len(tokens)] loop, transcribed with its index.  Every
    iteration either leaves the loop or advances [i], so [List.length tokens]
    iterations are enough; [fuel] counts them. *)
Fixpoint parse_loop (fuel : nat) (tokens : list string) (i : nat)
    (result : AnalysisResult) : res AnalysisResult :=
  match fuel with
  | O => Ok result
  | S fuel' =>
      if (i <? List.length tokens)%nat then
        let tok := token tokens i in
        if (tok =? "depth") && (i + 1 <? List.length tokens)%nat then
          match int (token tokens (i + 1)) with
          | Some v => parse_loop fuel' tokens (i + 2) (set_depth v result)
          | None => Raise ValueError
          end
        else if (tok =? "score") && (i + 2 <? List.length tokens)%nat then
          let kind := token tokens (i + 1) in
          match int (token tokens (i + 2)) with
          | Some val => parse_loop fuel' tokens (i + 3) (apply_score kind val result)
          | None => Raise ValueError
          end
        else if (tok =? "nodes") && (i + 1 <? List.length tokens)%nat then
          match int (token tokens (i + 1)) with
          | Some v => parse_loop fuel' tokens (i + 2) (set_nodes v result)
          | None => Raise ValueError
          end
        else if (tok =? "nps") && (i + 1 <? List.length tokens)%nat then
          match int (token tokens (i + 1)) with
          | Some v => parse_loop fuel' tokens (i + 2) (set_nps v result)
          | None => Raise ValueError
          end
        else if tok =? "pv" then
          Ok (apply_pv (skipn (i + 1) tokens) result)
        else parse_loop fuel' tokens (i + 1) result
      else Ok result
  end.

(** [_parse_info(line)] *)
Definition _parse_info (line : string) : res AnalysisResult :=
  let tokens := split line in
  parse_loop (List.length tokens) tokens 0 AnalysisResult_default.

(** The same loop seen from the tokens still to be read, [tokens[i:]]:
    the form the proofs work on (see [parse_loop_tokens]). *)
Fixpoint parse_tokens (rest : list string) (result : AnalysisResult)
  : res AnalysisResult :=
  match rest with
  | [] => Ok result
  | tok :: rest1 =>
      if tok =? "depth" then
        match rest1 with
        | v :: rest2 =>
            match int v with
            | Some n => parse_tokens rest2 (set_depth n result)
            | None => Raise ValueError
            end
        | [] => parse_tokens rest1 result
        end
      else if tok =? "score" then
        match rest1 with
        | kind :: v :: rest3 =>
            match int v with
            | Some val => parse_tokens rest3 (apply_score kind val result)
            | None => Raise ValueError
            end
        | _ => parse_tokens rest1 result
        end
      else if tok =? "nodes" then
        match rest1 with
        | v :: rest2 =>
            match int v with
            | Some n => parse_tokens rest2 (set_nodes n result)
            | None => Raise ValueError
            end
        | [] => parse_tokens rest1 result
        end
      else if tok =? "nps" then
        match rest1 with
        | v :: rest2 =>
            match int v with
            | Some n => parse_tokens rest2 (set_nps n result)
            | None => Raise ValueError
            end
        | [] => parse_tokens rest1 result
        end
      else if tok =? "pv" then Ok (apply_pv rest1 result)
      else parse_tokens rest1 result
  end.

End Parser.

(** ** Move classification ([MoveClassification], [classify_move]) *)

Record MoveClassification : Type := mkMoveClassification {
  uci_move : string;
  eval_before : Z;
  eval_after : Z;
  cp_loss : Z;
  label : string;
  is_blunder : bool
}.

(** [MoveClassification.classify(cp_loss)] *)
Definition classify (cp_loss : Z) : string :=
  if cp_loss <=? 0 then "brilliant"
  else if cp_loss <=? 10 then "best"
  else if cp_loss <? INACCURACY_THRESHOLD_CP then "good"
  else if cp_loss <? MISTAKE_THRESHOLD_CP then "inaccuracy"
  else if cp_loss <? BLUNDER_THRESHOLD_CP then "mistake"
  else "blunder".

(** [StockfishAnalyzer.classify_move]; it reads nothing of [self]. *)
Definition classify_move (eval_before_cp eval_after_cp : Z) (uci_move : string)
    (player_is_white : bool) : MoveClassification :=
  let loss := if player_is_white then eval_before_cp - eval_after_cp
              else eval_after_cp - eval_before_cp in
  let loss := Z.max 0 loss in
  let label := classify loss in
  {| uci_move := uci_move;
     eval_before := eval_before_cp;
     eval_after := eval_after_cp;
     cp_loss := loss;
     label := label;
     is_blunder := (loss >=? BLUNDER_THRESHOLD_CP) |}.

(** ** The result queue ([queue.Queue(maxsize=64)]) *)

Module PyQueue.

Definition maxsize : nat := 64.

(** The items queued, front first.  The queue holds references to
    [AnalysisResult] objects and [get_latest] only moves them; the record
    stands for the object as it is when it is read. *)
Definition t : Type := list AnalysisResult.

(** [Queue.full()] *)
Definition full (q : t) : bool := (maxsize <=? List.length q)%nat.

(** [Queue.put(x)] on a queue that is not full: [x] goes to the back. *)
Definition put (x : AnalysisResult) (q : t) : t := q ++ [x].

(** [Queue.get_nowait()]: the front item, or [None] for [Empty]. *)
Definition get_nowait (q : t) : option (AnalysisResult * t) :=
  match q with
  | [] => None
  | x :: q' => Some (x, q')
  end.

End PyQueue.

(** ** The engine process, as the handshake sees it *)

(** What [stdout.readline()] does once the lines are used up: the engine has
    exited ([Eof]: every further read returns the empty string at once) or
    it is alive and silent ([Silent]: the read never returns). *)
Inductive stream_end : Type := Eof | Silent.

(** A spawned engine.  [stdout] lists the lines still to be read, each with
    the time, in milliseconds, that [readline] blocks before it returns the
    line; [stdin] lists the commands written so far, oldest first;
    [stdin_broken] says that a write raises (the pipe is closed). *)
Record Process : Type := mkProcess {
  stdout : list (Z * string);
  stdout_end : stream_end;
  stdin : list string;
  stdin_broken : bool
}.

(** A call either returns or blocks for ever. *)
Inductive outcome (A : Type) : Type :=
| Returns (a : A)
| Blocks.

Arguments Returns {A} a.
Arguments Blocks {A}.

(** ** The analyzer ([StockfishAnalyzer]) *)

Definition STARTING_FEN : string :=
  "rnbqkbnr/pppppppp/8/8/8/8/PPPPPPPP/RNBQKBNR w KQkq - 0 1".

Record StockfishAnalyzer : Type := mkAnalyzer {
  _path : string;
  _depth : Z;
  _process : option Process;
  _thread : bool;                 (* the worker thread has been started *)
  _queue : PyQueue.t;
  _running : bool;                (* threading.Event *)
  _new_position : bool;           (* threading.Event *)
  _current_fen : string;
  _latest : AnalysisResult;
  _available : bool
}.

(** [StockfishAnalyzer.__init__(path, depth)] *)
Definition init (path : string) (depth : Z) : StockfishAnalyzer :=
  {| _path := path; _depth := depth; _process := None; _thread := false;
     _queue := []; _running := false; _new_position := false;
     _current_fen := STARTING_FEN; _latest := AnalysisResult_default;
     _available := false |}.

Definition with_process (p : option Process) (a : StockfishAnalyzer) :=
  {| _path := _path a; _depth := _depth a; _process := p; _thread := _thread a;
     _queue := _queue a; _running := _running a;
     _new_position := _new_position a; _current_fen := _current_fen a;
     _latest := _latest a; _available := _available a |}.

Definition with_queue (q : PyQueue.t) (a : StockfishAnalyzer) :=
  {| _path := _path a; _depth := _depth a; _process := _process a;
     _thread := _thread a; _queue := q; _running := _running a;
     _new_position := _new_position a; _current_fen := _current_fen a;
     _latest := _latest a; _available := _available a |}.

Definition with_latest (r : AnalysisResult) (a : StockfishAnalyzer) :=
  {| _path := _path a; _depth := _depth a; _process := _process a;
     _thread := _thread a; _queue := _queue a; _running := _running a;
     _new_position := _new_position a; _current_fen := _current_fen a;
     _latest := r; _available := _available a |}.

Definition with_available (b : bool) (a : StockfishAnalyzer) :=
  {| _path := _path a; _depth := _depth a; _process := _process a;
     _thread := _thread a; _queue := _queue a; _running := _running a;
     _new_position := _new_position a; _current_fen := _current_fen a;
     _latest := _latest a; _available := b |}.

(** [self._current_fen = fen; self._new_position.set()] *)
Definition with_position (fen : string) (a : StockfishAnalyzer) :=
  {| _path := _path a; _depth := _depth a; _process := _process a;
     _thread := _thread a; _queue := _queue a; _running := _running a;
     _new_position := true; _current_fen := fen;
     _latest := _latest a; _available := _available a |}.

(** [self._available = True; self._running.set(); self._thread = ...;
     self._thread.start()] *)
Definition with_worker_started (a : StockfishAnalyzer) :=
  {| _path := _path a; _depth := _depth a; _process := _process a;
     _thread := true; _queue := _queue a; _running := true;
     _new_position := _new_position a; _current_fen := _current_fen a;
     _latest := _latest a; _available := true |}.

(** [is_available] *)
Definition is_available (a : StockfishAnalyzer) : bool := _available a.

(** [set_position(fen)] *)
Definition set_position (fen : string) (a : StockfishAnalyzer) : StockfishAnalyzer :=
  with_position fen a.

(** The loop of [get_latest]: [latest = self._queue.get_nowait()] until
    [Empty] is raised.  Returns the last value of [latest]. *)
Fixpoint drain (q : PyQueue.t) (latest : AnalysisResult) : AnalysisResult :=
  match q with
  | [] => latest
  | x :: q' => drain q' x
  end.

(** [get_latest()]: the result returned and the analyzer afterwards (the
    queue has been emptied by the loop). *)
Definition get_latest (a : StockfishAnalyzer) : AnalysisResult * StockfishAnalyzer :=
  let latest := drain (_queue a) (_latest a) in
  (latest, with_latest latest (with_queue [] a)).

(** The worker's push ([_analysis_loop]):
    [if not self._queue.full(): self._queue.put(result)]. *)
Definition push_result (result : AnalysisResult) (a : StockfishAnalyzer)
  : StockfishAnalyzer :=
  if negb (PyQueue.full (_queue a)) then with_queue (PyQueue.put result (_queue a)) a
  else a.

(** The worker pushing a sequence of results, oldest first. *)
Definition push_results (rs : list AnalysisResult) (a : StockfishAnalyzer)
  : StockfishAnalyzer :=
  fold_left (fun acc r => push_result r acc) rs a.

(** ** Start-up handshake ([_send], [_kill], [start]) *)

(** The handshake timeout, [5.0] seconds, in milliseconds. *)
Definition HANDSHAKE_TIMEOUT : Z := 5000.

(** [_send(command)]: one line written to the engine's standard input (kept
    without its terminator).  Nothing is written when there is no process; a
    write on a broken pipe raises. *)
Definition _send (command : string) (a : StockfishAnalyzer) : res StockfishAnalyzer :=
  match _process a with
  | Some p =>
      if stdin_broken p then Raise OtherException
      else Ok (with_process
                 (Some {| stdout := stdout p; stdout_end := stdout_end p;
                          stdin := stdin p ++ [command];
                          stdin_broken := stdin_broken p |}) a)
  | None => Ok a
  end.

(** [_kill()] *)
Definition _kill (a : StockfishAnalyzer) : StockfishAnalyzer :=
  match _process a with
  | Some _ => with_process None a
  | None => a
  end.

Inductive wait_outcome : Type :=
| Found (now : Z) (rest : list (Z * string))      (* left by [break] *)
| TimedOut (now : Z) (rest : list (Z * string))   (* the loop condition failed *)
| Stuck                                           (* a read that never returns *)
| NoProcess.                                      (* [self._process] is [None]: the read raises *)

(** A handshake loop,
      [while time.time() < deadline:
           line = stdout.readline().strip()
           if line == expected: break]
    read from the clock value [now].  Only a read takes time.  At end of
    file every read returns the empty string at once, which is never the
    expected line: the loop then spins until the clock reaches the deadline. *)
Fixpoint wait_for (expected : string) (deadline now : Z)
    (lines : list (Z * string)) (e : stream_end) : wait_outcome :=
  match lines with
  | [] =>
      if now <? deadline then
        match e with
        | Eof => TimedOut deadline []
        | Silent => Stuck
        end
      else TimedOut now []
  | (dt, line) :: rest =>
      if now <? deadline then
        if (PyStr.strip line =? expected)%string then Found (now + dt) rest
        else wait_for expected deadline (now + dt) rest e
      else TimedOut now lines
  end.

Definition with_stdout (rest : list (Z * string)) (a : StockfishAnalyzer)
  : StockfishAnalyzer :=
  match _process a with
  | Some p =>
      with_process (Some {| stdout := rest; stdout_end := stdout_end p;
                            stdin := stdin p; stdin_broken := stdin_broken p |}) a
  | None => a
  end.

(** The handshake loop run on the analyzer's process, from clock value [now]
    with [deadline = now + 5.0]. *)
Definition await (expected : string) (now : Z) (a : StockfishAnalyzer)
  : wait_outcome :=
  match _process a with
  | Some p => wait_for expected (now + HANDSHAKE_TIMEOUT) now (stdout p) (stdout_end p)
  | None => NoProcess
  end.

(** [start()], given what [subprocess.Popen([path], ...)] does on each path
    (a process, or an exception) and the clock value at the call.  The result
    is the value returned and the analyzer afterwards.  The two [except]
    clauses do the same to the analyzer. *)
Definition start (popen : string -> res Process) (now : Z) (a : StockfishAnalyzer)
  : outcome (bool * StockfishAnalyzer) :=
  match popen (_path a) with
  | Raise FileNotFoundError => Returns (false, with_available false a)
  | Raise _ => Returns (false, with_available false a)
  | Ok p =>
      let a0 := with_process (Some p) a in
      match _send "uci" a0 with
      | Raise _ => Returns (false, with_available false a0)
      | Ok a1 =>
          match await "uciok" now a1 with
          | Stuck => Blocks
          | NoProcess => Returns (false, with_available false a1)
          | TimedOut _ rest => Returns (false, _kill (with_stdout rest a1))
          | Found now1 rest1 =>
              let a2 := with_stdout rest1 a1 in
              match _send "isready" a2 with
              | Raise _ => Returns (false, with_available false a2)
              | Ok a3 =>
                  match await "readyok" now1 a3 with
                  | Stuck => Blocks
                  | NoProcess => Returns (false, with_available false a3)
                  | TimedOut _ rest2 | Found _ rest2 =>
                      Returns (true, with_worker_started (with_stdout rest2 a3))
                  end
              end
          end
      end
  end.

(** ** The game layer ([GameState], the slice that classifies a move) *)

Module Game.

(** The fields of [GameState] that the classification of a player move
    reads or writes.  The board belongs to the rules library: what the
    function takes from it ([move.uci()], [board.fen()] after the push) is
    an argument. *)
Record GameState : Type := mkGameState {
  _analyzer : StockfishAnalyzer;
  _analysis : AnalysisResult;
  _player_is_white : bool;
  _prev_eval_cp : Z
}.

(** [GameState.__init__]: the fields above. *)
Definition init (path : string) : GameState :=
  {| _analyzer := init path STOCKFISH_DEFAULT_DEPTH;
     _analysis := AnalysisResult_default;
     _player_is_white := true;
     _prev_eval_cp := 0 |}.

(** [update(dt)], the poll:
    [if self._analyzer.is_available: self._analysis = self._analyzer.get_latest()] *)
Definition poll_analysis (g : GameState) : GameState :=
  if is_available (_analyzer g) then
    let (r, a') := get_latest (_analyzer g) in
    {| _analyzer := a'; _analysis := r;
       _player_is_white := _player_is_white g;
       _prev_eval_cp := _prev_eval_cp g |}
  else g.

(** [_make_player_move(move)]: the classification computed and the state
    afterwards.  [uci] is [move.uci()], [fen] is [self._board.fen()] once
    the move is pushed. *)
Definition _make_player_move (uci fen : string) (g : GameState)
  : MoveClassification * GameState :=
  let eval_before := score_cp (_analysis g) in
  let analyzer :=
    if is_available (_analyzer g) then set_position fen (_analyzer g)
    else _analyzer g in
  let eval_after := - eval_before in
  let classification :=
    classify_move eval_before eval_after uci (_player_is_white g) in
  (classification,
   {| _analyzer := analyzer; _analysis := _analysis g;
      _player_is_white := _player_is_white g;
      _prev_eval_cp := eval_after |}).

End Game.

(** ** Vocabulary for UCI info lines *)

Module InfoLine.

Import PyStr.
Local Open Scope string_scope.
Local Open Scope list_scope.

(** The tokens the parser treats as keys. *)
Definition is_key (tok : string) : bool :=
  (tok =? "depth") || (tok =? "score") || (tok =? "nodes") || (tok =? "nps")
  || (tok =? "pv").

(** The keys that carry one integer. *)
Definition is_counter (tok : string) : bool :=
  (tok =? "depth") || (tok =? "nodes") || (tok =? "nps").

(** [s] is an integer literal for [int]. *)
Definition is_int (s : string) : bool :=
  match int s with Some _ => true | None => false end.

(** A run of fields other than the score and the principal variation:
    each of [depth], [nodes], [nps] with an integer literal after it, and
    any token that is not a key ([seldepth 24], [multipv 1], [time 37],
    [lowerbound], ...). *)
Fixpoint counter_fields (toks : list string) : bool :=
  match toks with
  | [] => true
  | tok :: rest =>
      if is_counter tok then
        match rest with
        | v :: rest' => is_int v && counter_fields rest'
        | [] => false
        end
      else if (tok =? "score") || (tok =? "pv") then false
      else counter_fields rest
  end.

(** A run of counter fields without a [depth] field. *)
Definition other_fields (toks : list string) : bool :=
  counter_fields toks && forallb (fun t => negb (t =? "depth")) toks.

(** No token is a key. *)
Definition no_key (toks : list string) : bool :=
  forallb (fun t => negb (is_key t)) toks.

(** The end of an info line: nothing, or [pv] and its moves. *)
Definition pv_field (moves : option (list string)) : list string :=
  match moves with
  | Some ms => "pv" :: ms
  | None => []
  end.

(** The tokens the parser hands to [int], in order: the token after a
    [depth], [nodes] or [nps] key and the second token after a [score] key,
    the keys being read from left to right up to the first [pv]. *)
Fixpoint value_tokens (toks : list string) : list string :=
  match toks with
  | [] => []
  | tok :: rest =>
      if is_counter tok then
        match rest with
        | v :: rest' => v :: value_tokens rest'
        | [] => []
        end
      else if tok =? "score" then
        match rest with
        | _ :: v :: rest' => v :: value_tokens rest'
        | _ => value_tokens rest
        end
      else if tok =? "pv" then []
      else value_tokens rest
  end.

(** Every token in the value position of a key is an integer literal: the
    token after [depth], [nodes] or [nps], and the second token after
    [score]. *)
Fixpoint values_numeric (toks : list string) : bool :=
  match toks with
  | [] => true
  | tok :: rest =>
      (if is_counter tok then
         match rest with
         | v :: _ => is_int v
         | [] => true
         end
       else true)
      && (if tok =? "score" then
            match rest with
            | _ :: v :: _ => is_int v
            | _ => true
            end
          else true)
      && values_numeric rest
  end.

(** The fields a run of counter fields leaves alone. *)
Definition same_score (r r' : AnalysisResult) : Prop :=
  score_cp r' = score_cp r /\ score_mate r' = score_mate r
  /\ is_mate r' = is_mate r /\ best_move r' = best_move r /\ pv r' = pv r.


(** What a result with [is_mate] set carries. *)
Definition mate_sentinel (r : AnalysisResult) : Prop :=
  is_mate r = true ->
  exists n, score_mate r = Some n
            /\ (0 < n -> score_cp r = 30000)
            /\ (n <= 0 -> score_cp r = -30000).

(** The score field that decides the result, as kind and value token: the
    last [score cp] or [score mate] field the parser reads, [seen] being the
    one read so far.  The keys are read from left to right up to the first
    [pv]; a [score] key is read as one when two tokens follow it, and a kind
    other than [cp] and [mate] changes nothing. *)
Fixpoint score_read (seen : option (string * string)) (toks : list string)
  : option (string * string) :=
  match toks with
  | [] => seen
  | tok :: rest =>
      if is_counter tok then
        match rest with
        | _ :: rest' => score_read seen rest'
        | [] => seen
        end
      else if tok =? "score" then
        match rest with
        | kind :: v :: rest' =>
            score_read
              (if (kind =? "cp") || (kind =? "mate") then Some (kind, v)
               else seen)
              rest'
        | _ => score_read seen rest
        end
      else if tok =? "pv" then seen
      else score_read seen rest
  end.

Definition last_score (toks : list string) : option (string * string) :=
  score_read None toks.

(** What a result carries once [seen] is the last score field read. *)
Definition carries (seen : option (string * string)) (r : AnalysisResult)
  : Prop :=
  match seen with
  | None => is_mate r = false /\ score_cp r = 0
  | Some (kind, v) =>
      exists val,
        int v = Some val
        /\ ((kind = "cp" /\ is_mate r = false /\ score_cp r = val)
            \/ (kind = "mate" /\ is_mate r = true /\ score_mate r = Some val
                /\ score_cp r = if val >? 0 then 30000 else -30000))
  end.

End InfoLine.

(** ** Python [str] of an integer *)

Module PyFormat.

(** [str(n)], which is also what [f"{n}"] writes: the decimal digits, with
    a minus sign in front of a negative number.  [None] stands for the
    [ValueError] raised when there are more digits than
    [sys.int_max_str_digits]. *)
Definition str_int (n : Z) : option string :=
  let digits := DecimalString.NilZero.string_of_int (Z.to_int (Z.abs n)) in
  if (String.length digits <=? PyStr.int_max_str_digits)%nat
  then Some (DecimalString.NilZero.string_of_int (Z.to_int n))
  else None.

End PyFormat.

(** ** The worker thread ([StockfishAnalyzer._analysis_loop]) *)

Module Worker.

Import PyStr.
Local Open Scope string_scope.
Local Open Scope list_scope.

(** The [AnalysisResult] objects the worker has created, by address.  The
    worker mutates a result after it has queued it, so the queue is kept as a
    list of addresses into this heap. *)
Definition heap : Type := list AnalysisResult.

Definition deref (h : heap) (p : nat) : AnalysisResult :=
  nth p h AnalysisResult_default.

(** A new object: its address and the heap that holds it. *)
Definition alloc (r : AnalysisResult) (h : heap) : nat * heap :=
  (List.length h, h ++ [r]).

(** [obj.best_move = m] on the object at address [p]. *)
Fixpoint assign_best_move (p : nat) (m : string) (h : heap) : heap :=
  match h, p with
  | [], _ => []
  | r :: h', O => set_best_move m r :: h'
  | r :: h', S p' => r :: assign_best_move p' m h'
  end.

(** The analyzer as the worker has it: the record, the heap, and the queue
    as addresses, front first.  The [_queue] field of the record is not read
    here; [observe] fills it with the objects as they are now. *)
Record Loop : Type := mkLoop {
  analyzer : StockfishAnalyzer;
  objects : heap;
  queued : list nat
}.

(** What a caller of [get_latest] finds at this instant. *)
Definition observe (s : Loop) : StockfishAnalyzer :=
  with_queue (map (deref (objects s)) (queued s)) (analyzer s).

(** [if not self._queue.full(): self._queue.put(result)] *)
Definition push (p : nat) (s : Loop) : Loop :=
  if (PyQueue.maxsize <=? List.length (queued s))%nat then s
  else {| analyzer := analyzer s; objects := objects s;
          queued := queued s ++ [p] |}.

Definition with_objects (h : heap) (s : Loop) : Loop :=
  {| analyzer := analyzer s; objects := h; queued := queued s |}.

Definition with_analyzer (a : StockfishAnalyzer) (s : Loop) : Loop :=
  {| analyzer := a; objects := objects s; queued := queued s |}.

(** [self._new_position.clear()] *)
Definition clear_new_position (a : StockfishAnalyzer) : StockfishAnalyzer :=
  {| _path := _path a; _depth := _depth a; _process := _process a;
     _thread := _thread a; _queue := _queue a; _running := _running a;
     _new_position := false; _current_fen := _current_fen a;
     _latest := _latest a; _available := _available a |}.

(** How the read loop of one search ends. *)
Inductive search : Type :=
| Finished (s : Loop)               (* left by [break] on a [bestmove] line *)
| Starved (s : Loop) (result : nat) (* the output is used up: still reading *)
| Died (e : exn) (s : Loop).        (* an exception left the loop: the thread ends *)

(** The read loop, on the lines still to come from the engine; [result] is
    the address the local variable [result] holds.  What is left of the output
    is written back to the process. *)
Fixpoint read_search (lines : list (Z * string)) (result : nat) (s : Loop)
  : search :=
  match lines with
  | [] => Starved (with_analyzer (with_stdout [] (analyzer s)) s) result
  | (_, raw) :: rest =>
      let line := strip raw in
      if line =? "" then read_search rest result s
      else if String.prefix "info depth" line then
        match Parser._parse_info line with
        | Raise e => Died e (with_analyzer (with_stdout rest (analyzer s)) s)
        | Ok r =>
            let (p, h) := alloc r (objects s) in
            read_search rest p (push p (with_objects h s))
        end
      else if String.prefix "bestmove" line then
        let tokens := split line in
        let s1 :=
          if (2 <=? List.length tokens)%nat
          then with_objects (assign_best_move result (nth 1 tokens "") (objects s)) s
          else s in
        Finished (with_analyzer (with_stdout rest (analyzer s1)) (push result s1))
      else read_search rest result s
  end.

(** How one turn of the outer loop ends. *)
Inductive iteration : Type :=
| Exited (s : Loop)                   (* [_running] is clear: the loop is left *)
| Completed (s : Loop)                (* back at the top of the loop *)
| Reading (s : Loop) (result : nat)   (* in the read loop, the output used up *)
| Crashed (e : exn) (s : Loop).       (* an exception ended the thread *)

(** One turn of [while self._running.is_set()], with no call from the other
    thread in between: the wait and the clear, the three commands, the read
    loop. *)
Definition analysis_iteration (s : Loop) : iteration :=
  if negb (_running (analyzer s)) then Exited s
  else
    let a0 := clear_new_position (analyzer s) in
    let fen := _current_fen a0 in
    match _send "stop" a0 with
    | Raise e => Crashed e (with_analyzer a0 s)
    | Ok a1 =>
        match _send ("position fen " ++ fen) a1 with
        | Raise e => Crashed e (with_analyzer a1 s)
        | Ok a2 =>
            match PyFormat.str_int (_depth a2) with
            | None => Crashed ValueError (with_analyzer a2 s)
            | Some d =>
                match _send ("go depth " ++ d) a2 with
                | Raise e => Crashed e (with_analyzer a2 s)
                | Ok a3 =>
                    let (result, h) := alloc AnalysisResult_default (objects s) in
                    let s3 := with_objects h (with_analyzer a3 s) in
                    match _process a3 with
                    | None => Completed s3
                    | Some p =>
                        match read_search (stdout p) result s3 with
                        | Finished s' => Completed s'
                        | Starved s' result' => Reading s' result'
                        | Died e s' => Crashed e s'
                        end
                    end
                end
            end
        end
    end.

(** The worker freshly started on an analyzer: no object yet. *)
Definition fresh (a : StockfishAnalyzer) : Loop :=
  {| analyzer := a; objects := []; queued := [] |}.

End Worker.

(** ** Shutdown ([StockfishAnalyzer.stop]) *)

(** [self._running.clear(); self._new_position.set()] *)
Definition with_stop_signalled (a : StockfishAnalyzer) : StockfishAnalyzer :=
  {| _path := _path a; _depth := _depth a; _process := _process a;
     _thread := _thread a; _queue := _queue a; _running := false;
     _new_position := true; _current_fen := _current_fen a;
     _latest := _latest a; _available := _available a |}.

(** [stop()], given whether the process exits within the three seconds of
    [wait(timeout=3)].  A write that raises is not caught: the exception
    leaves [stop].  The join of the worker thread changes no field. *)
Definition stop (exits_in_time : bool) (a : StockfishAnalyzer)
  : res StockfishAnalyzer :=
  let a0 := with_stop_signalled a in
  match _process a0 with
  | Some _ =>
      match _send "quit" a0 with
      | Raise e => Raise e
      | Ok a1 => Ok (if exits_in_time then a1 else _kill a1)
      end
  | None => Ok a0
  end.

(** ** Player resources ([src/core/resource_manager.py]) *)

Module Resources.

Definition MAX_SANITY : Z := 100.
Definition MAX_SOUL : Z := 100.
Definition MAX_FOCUS : Z := 100.
Definition FOCUS_REGEN_PER_TURN : Z := 8.
Definition FOCUS_COST_GENIUS_VISION : Z := 15.
Definition SANITY_COST_LIMBO : Z := 20.
Definition SOUL_COST_REWIND : Z := 25.
Definition FLOW_STATE_STREAK : Z := 3.

(** A Python [float] that is finite, as the rational number it denotes. *)
Definition float : Type := QArith_base.Q.

(** [FLOW_STATE_DURATION = 15.0] and the literal [0.0]. *)
Definition FLOW_STATE_DURATION : float := QArith_base.Qmake 15 1.
Definition float_zero : float := QArith_base.Qmake 0 1.

(** [PlayerResources]: the dataclass, field for field. *)
Record PlayerResources : Type := mkPlayerResources {
  sanity : Z;
  sanity_max : Z;
  soul : Z;
  soul_max : Z;
  focus : Z;
  focus_max : Z;
  best_move_streak : Z;
  flow_state_active : bool;
  flow_state_timer : float;
  limbo_entries : Z;
  trauma_stacks : Z;
  total_moves : Z;
  brilliant_moves : Z;
  best_moves : Z;
  good_moves : Z;
  inaccuracies : Z;
  mistakes : Z;
  blunders : Z
}.

(** [PlayerResources()] *)
Definition fresh : PlayerResources :=
  {| sanity := MAX_SANITY; sanity_max := MAX_SANITY;
     soul := MAX_SOUL; soul_max := MAX_SOUL;
     focus := MAX_FOCUS; focus_max := MAX_FOCUS;
     best_move_streak := 0; flow_state_active := false;
     flow_state_timer := float_zero;
     limbo_entries := 0; trauma_stacks := 0;
     total_moves := 0; brilliant_moves := 0; best_moves := 0; good_moves := 0;
     inaccuracies := 0; mistakes := 0; blunders := 0 |}.

(** The three gauges, [sanity], [soul], [focus], and [sanity_max]. *)
Definition with_gauges (sanity' sanity_max' soul' focus' : Z) (r : PlayerResources)
  : PlayerResources :=
  {| sanity := sanity'; sanity_max := sanity_max';
     soul := soul'; soul_max := soul_max r;
     focus := focus'; focus_max := focus_max r;
     best_move_streak := best_move_streak r;
     flow_state_active := flow_state_active r;
     flow_state_timer := flow_state_timer r;
     limbo_entries := limbo_entries r; trauma_stacks := trauma_stacks r;
     total_moves := total_moves r; brilliant_moves := brilliant_moves r;
     best_moves := best_moves r; good_moves := good_moves r;
     inaccuracies := inaccuracies r; mistakes := mistakes r;
     blunders := blunders r |}.

(** The streak and the flow state. *)
Definition with_flow (streak : Z) (active : bool) (timer : float)
    (r : PlayerResources) : PlayerResources :=
  {| sanity := sanity r; sanity_max := sanity_max r;
     soul := soul r; soul_max := soul_max r;
     focus := focus r; focus_max := focus_max r;
     best_move_streak := streak;
     flow_state_active := active;
     flow_state_timer := timer;
     limbo_entries := limbo_entries r; trauma_stacks := trauma_stacks r;
     total_moves := total_moves r; brilliant_moves := brilliant_moves r;
     best_moves := best_moves r; good_moves := good_moves r;
     inaccuracies := inaccuracies r; mistakes := mistakes r;
     blunders := blunders r |}.

(** The Limbo statistics. *)
Definition with_limbo_stats (entries stacks : Z) (r : PlayerResources)
  : PlayerResources :=
  {| sanity := sanity r; sanity_max := sanity_max r;
     soul := soul r; soul_max := soul_max r;
     focus := focus r; focus_max := focus_max r;
     best_move_streak := best_move_streak r;
     flow_state_active := flow_state_active r;
     flow_state_timer := flow_state_timer r;
     limbo_entries := entries; trauma_stacks := stacks;
     total_moves := total_moves r; brilliant_moves := brilliant_moves r;
     best_moves := best_moves r; good_moves := good_moves r;
     inaccuracies := inaccuracies r; mistakes := mistakes r;
     blunders := blunders r |}.

(** The move counters other than [brilliant_moves], which nothing writes. *)
Definition with_counters (total best good inacc mist blund : Z)
    (r : PlayerResources) : PlayerResources :=
  {| sanity := sanity r; sanity_max := sanity_max r;
     soul := soul r; soul_max := soul_max r;
     focus := focus r; focus_max := focus_max r;
     best_move_streak := best_move_streak r;
     flow_state_active := flow_state_active r;
     flow_state_timer := flow_state_timer r;
     limbo_entries := limbo_entries r; trauma_stacks := trauma_stacks r;
     total_moves := total; brilliant_moves := brilliant_moves r;
     best_moves := best; good_moves := good;
     inaccuracies := inacc; mistakes := mist;
     blunders := blund |}.

Definition with_sanity (v : Z) (r : PlayerResources) : PlayerResources :=
  with_gauges v (sanity_max r) (soul r) (focus r) r.

Definition with_soul (v : Z) (r : PlayerResources) : PlayerResources :=
  with_gauges (sanity r) (sanity_max r) v (focus r) r.

Definition with_focus (v : Z) (r : PlayerResources) : PlayerResources :=
  with_gauges (sanity r) (sanity_max r) (soul r) v r.

(** [drain_sanity(amount)] *)
Definition drain_sanity (amount : Z) (r : PlayerResources) : PlayerResources :=
  with_sanity (Z.max 0 (sanity r - amount)) r.

(** [restore_sanity(amount)] *)
Definition restore_sanity (amount : Z) (r : PlayerResources) : PlayerResources :=
  with_sanity (Z.min (sanity_max r) (sanity r + amount)) r.

(** [apply_limbo_trauma()] *)
Definition apply_limbo_trauma (r : PlayerResources) : PlayerResources :=
  let r1 := with_limbo_stats (limbo_entries r + 1) (trauma_stacks r + 1) r in
  let new_max := Z.max 20 (sanity_max r1 - SANITY_COST_LIMBO) in
  with_gauges (Z.min (sanity r1) new_max) new_max (soul r1) (focus r1) r1.

(** [is_insane] *)
Definition is_insane (r : PlayerResources) : bool := sanity r <=? 0.

(** [drain_soul(amount)] *)
Definition drain_soul (amount : Z) (r : PlayerResources) : PlayerResources :=
  with_soul (Z.max 0 (soul r - amount)) r.

(** [restore_soul(amount)] *)
Definition restore_soul (amount : Z) (r : PlayerResources) : PlayerResources :=
  with_soul (Z.min (soul_max r) (soul r + amount)) r.

(** [spend_soul_for_rewind()]: the value returned and the resources
    afterwards. *)
Definition spend_soul_for_rewind (r : PlayerResources) : bool * PlayerResources :=
  if soul r >=? SOUL_COST_REWIND then (true, with_soul (soul r - SOUL_COST_REWIND) r)
  else (false, r).

(** [is_dead] *)
Definition is_dead (r : PlayerResources) : bool := soul r <=? 0.

(** [spend_focus(amount)] *)
Definition spend_focus (amount : Z) (r : PlayerResources) : bool * PlayerResources :=
  if focus r >=? amount then (true, with_focus (focus r - amount) r)
  else (false, r).

(** A call that converts a float: it returns, or [int] raises
    [OverflowError] on a float that is infinite. *)
Inductive raising (A : Type) : Type :=
| Returned (a : A)
| OverflowError.

Arguments Returned {A} a.
Arguments OverflowError {A}.

(** Every finite float is below [2 ^ 1024] in magnitude. *)
Definition float_limit : Z := 2 ^ 1024.

(** [FOCUS_REGEN_PER_TURN * multiplier] is infinite.  Multiplying a finite
    float by 8, a power of two, changes its exponent alone: the product is
    exact when its magnitude is below [float_limit] and an infinity
    otherwise. *)
Definition regen_overflows (multiplier : float) : bool :=
  float_limit * Z.pos (QArith_base.Qden multiplier)
  <=? Z.abs (FOCUS_REGEN_PER_TURN * QArith_base.Qnum multiplier).

(** [int(FOCUS_REGEN_PER_TURN * multiplier)]: [int] drops the fraction of a
    finite float, towards zero, and refuses an infinity with
    [OverflowError]. *)
Definition regen_amount (multiplier : float) : raising Z :=
  if regen_overflows multiplier then OverflowError
  else
    Returned (Z.quot (FOCUS_REGEN_PER_TURN * QArith_base.Qnum multiplier)
                     (Z.pos (QArith_base.Qden multiplier))).

(** [regen_focus(multiplier)]: when [int] raises nothing has been written. *)
Definition regen_focus (multiplier : float) (r : PlayerResources)
  : raising PlayerResources :=
  match regen_amount multiplier with
  | Returned regen =>
      Returned (with_focus (Z.min (focus_max r) (focus r + regen)) r)
  | OverflowError => OverflowError
  end.

(** [register_best_move()] *)
Definition register_best_move (r : PlayerResources) : PlayerResources :=
  let r1 :=
    with_counters (total_moves r + 1) (best_moves r + 1) (good_moves r)
      (inaccuracies r) (mistakes r) (blunders r)
      (with_flow (best_move_streak r + 1) (flow_state_active r)
         (flow_state_timer r) r) in
  if (best_move_streak r1 >=? FLOW_STATE_STREAK) && negb (flow_state_active r1)
  then with_flow (best_move_streak r1) true FLOW_STATE_DURATION r1
  else r1.

(** [break_streak()] *)
Definition break_streak (r : PlayerResources) : PlayerResources :=
  with_flow 0 false float_zero r.

(** [self.resources.good_moves += 1] and its like, in the game layer. *)
Definition count_good (r : PlayerResources) : PlayerResources :=
  with_counters (total_moves r) (best_moves r) (good_moves r + 1)
    (inaccuracies r) (mistakes r) (blunders r) r.

Definition count_inaccuracy (r : PlayerResources) : PlayerResources :=
  with_counters (total_moves r) (best_moves r) (good_moves r)
    (inaccuracies r + 1) (mistakes r) (blunders r) r.

Definition count_mistake (r : PlayerResources) : PlayerResources :=
  with_counters (total_moves r) (best_moves r) (good_moves r)
    (inaccuracies r) (mistakes r + 1) (blunders r) r.

Definition count_blunder (r : PlayerResources) : PlayerResources :=
  with_counters (total_moves r) (best_moves r) (good_moves r)
    (inaccuracies r) (mistakes r) (blunders r + 1) r.

Definition count_move (r : PlayerResources) : PlayerResources :=
  with_counters (total_moves r + 1) (best_moves r) (good_moves r)
    (inaccuracies r) (mistakes r) (blunders r) r.

(** The gauges are within their bounds. *)
Definition within_bounds (r : PlayerResources) : Prop :=
  0 <= sanity r <= sanity_max r /\ 20 <= sanity_max r <= MAX_SANITY
  /\ 0 <= soul r <= soul_max r /\ 0 <= focus r <= focus_max r.

(** The gauges are within their bounds and the two fixed maxima are the
    constants: what holds of [PlayerResources()]. *)
Definition gauges_in_range (r : PlayerResources) : Prop :=
  within_bounds r /\ soul_max r = MAX_SOUL /\ focus_max r = MAX_FOCUS.

End Resources.

(** ** The state stack ([src/core/state_manager.py]) *)

Module StateMachine.

Section WithState.

(** The state objects: what the stack holds and what [enter] and [exit] are
    called on. *)
Context {S : Type}.

(** A call made on a state object. *)
Inductive call : Type :=
| Enter (s : S)
| Exit (s : S).

(** [StateManager]: [_stack] is the Python list, bottom first. *)
Record StateManager : Type := mkStateManager {
  _stack : list S;
  _pending_push : option S;
  _pending_pop : bool;
  _pending_switch : option S
}.

(** [StateManager()] *)
Definition empty : StateManager :=
  {| _stack := []; _pending_push := None; _pending_pop := false;
     _pending_switch := None |}.

(** [stack[-1]] when the list is not empty. *)
Fixpoint top (stack : list S) : option S :=
  match stack with
  | [] => None
  | [s] => Some s
  | _ :: rest => top rest
  end.

(** [current] *)
Definition current (sm : StateManager) : option S := top (_stack sm).

(** [is_empty] *)
Definition is_empty (sm : StateManager) : bool :=
  match _stack sm with [] => true | _ :: _ => false end.

(** [push(state)] *)
Definition push (state : S) (sm : StateManager) : StateManager :=
  {| _stack := _stack sm; _pending_push := Some state;
     _pending_pop := _pending_pop sm; _pending_switch := _pending_switch sm |}.

(** [pop()] *)
Definition pop (sm : StateManager) : StateManager :=
  {| _stack := _stack sm; _pending_push := _pending_push sm;
     _pending_pop := true; _pending_switch := _pending_switch sm |}.

(** [switch(state)] *)
Definition switch (state : S) (sm : StateManager) : StateManager :=
  {| _stack := _stack sm; _pending_push := _pending_push sm;
     _pending_pop := _pending_pop sm; _pending_switch := Some state |}.

(** [self._stack[-1].exit(); self._stack.pop()] when the stack is not
    empty: the calls made and the stack afterwards. *)
Definition exit_top (stack : list S) : list call * list S :=
  match top stack with
  | Some t => ([Exit t], removelast stack)
  | None => ([], stack)
  end.

(** [process_pending()]: the calls made on state objects, in order, and
    the manager afterwards. *)
Definition process_pending (sm : StateManager) : list call * StateManager :=
  match _pending_switch sm with
  | Some s =>
      let (calls, stack) := exit_top (_stack sm) in
      (calls ++ [Enter s],
       {| _stack := stack ++ [s]; _pending_push := _pending_push sm;
          _pending_pop := _pending_pop sm; _pending_switch := None |})
  | None =>
      let (calls1, stack1) :=
        if _pending_pop sm then
          match top (_stack sm) with
          | Some t =>
              let below := removelast (_stack sm) in
              (Exit t :: match top below with
                         | Some u => [Enter u]
                         | None => []
                         end,
               below)
          | None => ([], _stack sm)
          end
        else ([], _stack sm) in
      match _pending_push sm with
      | Some s =>
          (calls1 ++ [Enter s],
           {| _stack := stack1 ++ [s]; _pending_push := None;
              _pending_pop := false; _pending_switch := None |})
      | None =>
          (calls1,
           {| _stack := stack1; _pending_push := None;
              _pending_pop := false; _pending_switch := None |})
      end
  end.

(** Nothing is scheduled. *)
Definition settled (sm : StateManager) : Prop :=
  _pending_push sm = None /\ _pending_pop sm = false /\ _pending_switch sm = None.

End WithState.

Arguments StateManager S : clear implicits.
Arguments call S : clear implicits.

End StateMachine.

(** ** The game layer: resources, Limbo and rewind *)

Module GameFlow.

Import Resources StateMachine.
Local Open Scope string_scope.
Local Open Scope list_scope.

(** The state objects the game layer creates: [LimboState(sm, game, fen)];
    the others stand under a name. *)
Inductive Screen : Type :=
| LimboState (fen : string)
| OtherState (name : string).

(** The fields of [ChessGameState] that the bookkeeping of a move reads or
    writes.  [_move_history] holds the moves as UCI strings.  Calls on the
    dialogue box, the renderer and the board are left out: they write none of
    these fields. *)
Record Play : Type := mkPlay {
  resources : PlayerResources;
  _sm : StateManager Screen;
  _analyzer : StockfishAnalyzer;
  _move_history : list string;
  _move_log : list (string * string * string);
  _waiting_for_ai : bool;
  _game_over : bool;
  _game_result : string
}.

Definition with_resources (r : PlayerResources) (p : Play) : Play :=
  {| resources := r; _sm := _sm p; _analyzer := _analyzer p;
     _move_history := _move_history p; _move_log := _move_log p;
     _waiting_for_ai := _waiting_for_ai p; _game_over := _game_over p;
     _game_result := _game_result p |}.

(** [_trigger_limbo()]; [fen] is [self._board.fen()]. *)
Definition _trigger_limbo (fen : string) (p : Play) : Play :=
  {| resources := resources p; _sm := push (LimboState fen) (_sm p);
     _analyzer := _analyzer p;
     _move_history := _move_history p; _move_log := _move_log p;
     _waiting_for_ai := _waiting_for_ai p; _game_over := _game_over p;
     _game_result := _game_result p |}.

(** [_apply_move_classification(classification)]; [fen] is
    [self._board.fen()]. *)
Definition _apply_move_classification (c : MoveClassification) (fen : string)
    (p : Play) : Play :=
  let l := label c in
  let r := resources p in
  if (l =? "brilliant") || (l =? "best") then
    with_resources (restore_soul 3 (restore_sanity 5 (register_best_move r))) p
  else if l =? "good" then
    with_resources (break_streak (count_good r)) p
  else if l =? "inaccuracy" then
    with_resources (drain_sanity 5 (break_streak (count_inaccuracy r))) p
  else if l =? "mistake" then
    with_resources
      (drain_soul 5 (drain_sanity 15 (break_streak (count_mistake r)))) p
  else if l =? "blunder" then
    _trigger_limbo fen (with_resources (break_streak (count_blunder r)) p)
  else p.

(** [_make_player_move], its last steps, on the resources: the
    classification is applied, focus is regenerated (twice as fast in flow
    state) and the move is counted. *)
Definition record_player_move (c : MoveClassification) (fen : string) (p : Play)
  : raising Play :=
  let p1 := _apply_move_classification c fen p in
  let multiplier :=
    if flow_state_active (resources p1)
    then QArith_base.Qmake 2 1 else QArith_base.Qmake 1 1 in
  match regen_focus multiplier (resources p1) with
  | Returned r => Returned (with_resources (count_move r) p1)
  | OverflowError => OverflowError
  end.

(** [_attempt_rewind()]; [fen] is [self._board.fen()] once the two moves
    are taken back. *)
Definition _attempt_rewind (fen : string) (p : Play) : Play :=
  if (List.length (_move_history p) <? 2)%nat then p
  else
    let (ok, r) := spend_soul_for_rewind (resources p) in
    if ok then
      {| resources := r; _sm := _sm p;
         _analyzer := if is_available (_analyzer p)
                      then set_position fen (_analyzer p)
                      else _analyzer p;
         _move_history := removelast (removelast (_move_history p));
         _move_log := if (2 <=? List.length (_move_log p))%nat
                      then removelast (removelast (_move_log p))
                      else _move_log p;
         _waiting_for_ai := false; _game_over := _game_over p;
         _game_result := _game_result p |}
    else with_resources r p.

(** [on_limbo_escaped()] *)
Definition on_limbo_escaped (p : Play) : Play :=
  with_resources (apply_limbo_trauma (resources p)) p.

(** [on_limbo_failed()] *)
Definition on_limbo_failed (p : Play) : Play :=
  {| resources := resources p; _sm := _sm p; _analyzer := _analyzer p;
     _move_history := _move_history p; _move_log := _move_log p;
     _waiting_for_ai := _waiting_for_ai p; _game_over := true;
     _game_result := "HELL - Lost in Limbo. The Void claims you." |}.

End GameFlow.

(** ** Vocabulary for the properties of the rest of the code *)

(** The quality tiers in order, best first. *)
Definition tier (label : string) : nat :=
  if (label =? "brilliant")%string then 0
  else if (label =? "best")%string then 1
  else if (label =? "good")%string then 2
  else if (label =? "inaccuracy")%string then 3
  else if (label =? "mistake")%string then 4
  else 5.

(** The time a run of reads takes. *)
Definition elapsed (lines : list (Z * string)) : Z :=
  fold_right (fun l acc => fst l + acc) 0 lines.

(** No read takes a negative time. *)
Definition causal (lines : list (Z * string)) : bool :=
  forallb (fun l => 0 <=? fst l) lines.

(** No line of the run is the expected one. *)
Definition without_line (expected : string) (lines : list (Z * string)) : bool :=
  forallb (fun l => negb (PyStr.strip (snd l) =? expected)%string) lines.

Module WorkerLines.

Import PyStr Worker.
Local Open Scope string_scope.
Local Open Scope list_scope.

(** The branch of the read loop a line takes. *)
Inductive line_kind : Type := Blank | Info | Bestmove | Other.

Definition kind (raw : string) : line_kind :=
  let line := strip raw in
  if line =? "" then Blank
  else if String.prefix "info depth" line then Info
  else if String.prefix "bestmove" line then Bestmove
  else Other.

(** A run of output before the [bestmove] line: no [bestmove] line, and
    every [info depth] line parses. *)
Definition readable (lines : list (Z * string)) : bool :=
  forallb (fun l => match kind (snd l) with
                    | Bestmove => false
                    | Info => match Parser._parse_info (strip (snd l)) with
                              | Ok _ => true
                              | Raise _ => false
                              end
                    | _ => true
                    end) lines.

(** No line of the run is a [bestmove] line. *)
Definition no_bestmove (lines : list (Z * string)) : bool :=
  forallb (fun l => match kind (snd l) with Bestmove => false | _ => true end)
    lines.

(** The number of [info depth] lines in a run. *)
Definition count_info (lines : list (Z * string)) : nat :=
  List.length (filter (fun l => match kind (snd l) with Info => true | _ => false end)
                 lines).

(** What the last [info depth] line of a run parses to, or [current] when
    the run has none. *)
Fixpoint last_info (lines : list (Z * string)) (current : AnalysisResult)
  : AnalysisResult :=
  match lines with
  | [] => current
  | (_, raw) :: rest =>
      match kind raw with
      | Info =>
          match Parser._parse_info (strip raw) with
          | Ok r => last_info rest r
          | Raise _ => last_info rest current
          end
      | _ => last_info rest current
      end
  end.

(** The state the read loop ends in. *)
Definition search_state (r : search) : Loop :=
  match r with
  | Finished s | Starved s _ | Died _ s => s
  end.

(** The state a turn of the loop ends in. *)
Definition state_of (i : iteration) : Loop :=
  match i with
  | Exited s | Completed s | Reading s _ | Crashed _ s => s
  end.

(** The commands written to the engine so far. *)
Definition written (a : StockfishAnalyzer) : list string :=
  match _process a with
  | Some p => stdin p
  | None => []
  end.

(** The output the engine still holds. *)
Definition unread (a : StockfishAnalyzer) : list (Z * string) :=
  match _process a with
  | Some p => stdout p
  | None => []
  end.

End WorkerLines.

Module GameVocabulary.

Import Resources GameFlow.

(** The move counters add up: a move labelled brilliant or best is counted
    twice in [total_moves], every other move once, and [brilliant_moves]
    stays at zero. *)
Definition counted (r : PlayerResources) : Prop :=
  total_moves r
  = 2 * best_moves r + good_moves r + inaccuracies r + mistakes r + blunders r
  /\ brilliant_moves r = 0.

(** A player move as the bookkeeping sees it: the two evaluations, the
    move, the side, and the position after it. *)
Definition played : Type := (Z * Z * string * bool * string)%type.

Definition record_played (p : Play) (m : played) : raising Play :=
  match m with
  | (eval_before_cp, eval_after_cp, uci, white, fen) =>
      record_player_move (classify_move eval_before_cp eval_after_cp uci white)
        fen p
  end.

(** A run of player moves, oldest first; a move that raises ends the run. *)
Fixpoint record_all (moves : list played) (p : Play) : raising Play :=
  match moves with
  | [] => Returned p
  | m :: rest =>
      match record_played p m with
      | Returned p' => record_all rest p'
      | OverflowError => OverflowError
      end
  end.

End GameVocabulary.

(** Sample data: the result an info line of depth [n] parses to, and the
    first [k] of them, oldest first. *)
Definition result_at_depth (n : nat) : AnalysisResult :=
  set_depth (Z.of_nat n) AnalysisResult_default.

Definition results_upto (k : nat) : list AnalysisResult :=
  map result_at_depth (seq 1 k).

(** A stub engine that answers [uci] and then reports that it is still
    loading, every three seconds, without ever printing [readyok]. *)
Definition engine_never_ready : Process :=
  {| stdout := [(10, "id name Stub"); (10, "uciok");
                (3000, "info string loading"); (3000, "info string loading");
                (3000, "info string loading")];
     stdout_end := Eof; stdin := []; stdin_broken := false |}.

(** * Properties *)

(** ** The model at work *)

Section Samples.

Import PyStr Parser.
Local Open Scope string_scope.
Local Open Scope list_scope.

Example split_runs_of_whitespace :
  split "  info depth 10   score cp 34 pv e2e4 e7e5 "
  = ["info"; "depth"; "10"; "score"; "cp"; "34"; "pv"; "e2e4"; "e7e5"].
Proof. reflexivity. Qed.

Example int_literals :
  int "34" = Some 34%Z /\ int "-3" = Some (-3)%Z /\ int "+007" = Some 7%Z
  /\ int "1_000" = Some 1000%Z /\ int "1__0" = None /\ int "_1" = None
  /\ int "-" = None /\ int "" = None /\ int "12a" = None /\ int "1.5" = None.
Proof. repeat split; reflexivity. Qed.

Example parse_info_stub_engine_line :
  _parse_info "info depth 10 score cp 34 pv e2e4 e7e5"
  = Ok {| depth := 10; score_cp := 34; score_mate := None; best_move := "e2e4";
          pv := ["e2e4"; "e7e5"]; nodes := 0; nps := 0; is_mate := false |}.
Proof. reflexivity. Qed.

Example parse_info_truncated_line :
  _parse_info "info depth" = Ok AnalysisResult_default
  /\ _parse_info "info score cp" = Ok AnalysisResult_default
  /\ _parse_info "info nodes 12 pv"
     = Ok (set_nodes 12 AnalysisResult_default).
Proof. repeat split; reflexivity. Qed.

Example classify_move_level :
  classify_move 0 0 "e2e4" true
  = {| uci_move := "e2e4"; eval_before := 0; eval_after := 0; cp_loss := 0;
       label := "brilliant"; is_blunder := false |}.
Proof. reflexivity. Qed.

Example classify_move_white_blunder :
  classify_move 100 (-150) "d1h5" true
  = {| uci_move := "d1h5"; eval_before := 100; eval_after := -150;
       cp_loss := 250; label := "blunder"; is_blunder := true |}.
Proof. reflexivity. Qed.

End Samples.

(** ** List and string helpers *)

Section ListFacts.

Context {A : Type}.

Lemma list_strong_ind (P : list A -> Prop) :
  (forall l, (forall l', (List.length l' < List.length l)%nat -> P l') -> P l) ->
  forall l, P l.
Proof.
  intros step l.
  assert (H : forall n l', (List.length l' < n)%nat -> P l').
  { induction n as [|n IHn]; intros l' Hl'; [lia|].
    apply step. intros l'' Hl''. apply IHn. lia. }
  apply step. intros l' _. apply (H (S (List.length l'))). lia.
Qed.

Lemma skipn_cons_inv (d : A) :
  forall i l x r, skipn i l = x :: r ->
    (i < List.length l)%nat /\ nth i l d = x /\ skipn (S i) l = r.
Proof.
  induction i as [|i IHi]; intros [|y l] x r H; simpl in H; try discriminate.
  - inversion H; subst. simpl. repeat split. lia.
  - destruct (IHi _ _ _ H) as (Hlt & Hnth & Hskip).
    simpl List.length. simpl nth. repeat split; try assumption. lia.
Qed.

Lemma skipn_nil_inv :
  forall i (l : list A), skipn i l = [] -> (List.length l <= i)%nat.
Proof.
  induction i as [|i IHi]; intros [|y l] H; simpl in *; try discriminate; try lia.
  apply IHi in H. lia.
Qed.

Lemma last_app_nonempty (d1 d2 : A) :
  forall l l', l' <> [] -> last (l ++ l') d1 = last l' d2.
Proof.
  intros l l' Hne. destruct l' as [|x l'] using rev_ind; [congruence|].
  rewrite app_assoc, !last_last. reflexivity.
Qed.

End ListFacts.

(** ** The parser: the index loop and the token view agree *)

Module ParserFacts.

Import PyStr Parser InfoLine.
Local Open Scope string_scope.
Local Open Scope list_scope.

Lemma parse_loop_tokens :
  forall fuel tokens i r,
    (List.length tokens - i <= fuel)%nat ->
    parse_loop fuel tokens i r = parse_tokens (skipn i tokens) r.
Proof.
  induction fuel as [|fuel IH]; intros tokens i r Hfuel.
  - rewrite skipn_all2 by lia. reflexivity.
  - cbn [parse_loop].
    destruct (skipn i tokens) as [|tok rest1] eqn:E.
    + apply skipn_nil_inv in E.
      rewrite (proj2 (Nat.ltb_ge _ _) E). reflexivity.
    + destruct (skipn_cons_inv "" _ _ _ _ E) as (Hi & Htok & E1).
      rewrite (proj2 (Nat.ltb_lt _ _) Hi).
      unfold token. rewrite Htok. clear Htok.
      replace (i + 1)%nat with (S i) by lia.
      replace (i + 2)%nat with (S (S i)) by lia.
      replace (i + 3)%nat with (S (S (S i))) by lia.
      rewrite E1. cbn [parse_tokens].
      assert (Hnext : parse_loop fuel tokens (S i) r = parse_tokens rest1 r).
      { rewrite IH by lia. rewrite E1. reflexivity. }
      rewrite Hnext. clear Hnext.
      remember (parse_tokens rest1 r) as skipped eqn:Hskipped. clear Hskipped.
      destruct rest1 as [|v rest2].
      * (* [tok] is the last token *)
        apply skipn_nil_inv in E1.
        rewrite (proj2 (Nat.ltb_ge (S i) _) E1).
        rewrite (proj2 (Nat.ltb_ge (S (S i)) _)) by lia.
        rewrite !andb_false_r. cbv beta iota.
        repeat match goal with
               | |- context [?a =? ?b] =>
                   destruct (String.eqb_spec a b); [subst; reflexivity|]
               end.
        reflexivity.
      * destruct (skipn_cons_inv "" _ _ _ _ E1) as (Hi1 & Hv & E2).
        rewrite (proj2 (Nat.ltb_lt (S i) _) Hi1), Hv. clear Hv.
        rewrite !andb_true_r.
        assert (Hnext2 : forall r', parse_loop fuel tokens (S (S i)) r'
                                    = parse_tokens rest2 r').
        { intro r'. rewrite IH by lia. rewrite E2. reflexivity. }
        destruct rest2 as [|w rest3].
        -- (* two tokens left: no room for a score *)
           apply skipn_nil_inv in E2.
           rewrite (proj2 (Nat.ltb_ge (S (S i)) _) E2).
           rewrite !andb_false_r.
           destruct (int v) as [nv|]; cbv beta iota;
             rewrite ?Hnext2;
             repeat match goal with
                    | |- context [?a =? ?b] =>
                        destruct (String.eqb_spec a b); [subst; reflexivity|]
                    end; reflexivity.
        -- destruct (skipn_cons_inv "" _ _ _ _ E2) as (Hi2 & Hw & E3).
           rewrite (proj2 (Nat.ltb_lt (S (S i)) _) Hi2), Hw. clear Hw.
           rewrite !andb_true_r.
           assert (Hnext3 : forall r', parse_loop fuel tokens (S (S (S i))) r'
                                       = parse_tokens rest3 r').
           { intro r'. rewrite IH by lia. rewrite E3. reflexivity. }
           destruct (int v) as [nv|]; destruct (int w) as [nw|]; cbv beta iota;
             rewrite ?Hnext3, ?Hnext2;
             repeat match goal with
                    | |- context [?a =? ?b] =>
                        destruct (String.eqb_spec a b); [subst; reflexivity|]
                    end; reflexivity.
Qed.

(** [_parse_info] is the token view run on the split line. *)
Lemma parse_info_tokens :
  forall line, _parse_info line = parse_tokens (split line) AnalysisResult_default.
Proof.
  intro line. unfold _parse_info.
  rewrite parse_loop_tokens by lia. reflexivity.
Qed.

(** A token that is not a key is skipped. *)
Lemma parse_tokens_skip :
  forall tok rest r,
    is_key tok = false -> parse_tokens (tok :: rest) r = parse_tokens rest r.
Proof.
  intros tok rest r H. unfold is_key in H.
  repeat (apply orb_false_iff in H; destruct H as [H ?]).
  cbn [parse_tokens].
  repeat match goal with E : (_ =? _) = false |- _ => rewrite E; clear E end.
  reflexivity.
Qed.

Lemma is_int_some : forall s, is_int s = true -> exists n, int s = Some n.
Proof.
  intros s H. unfold is_int in H. destruct (int s) as [n|]; [eauto|discriminate].
Qed.

Lemma same_score_refl : forall r, same_score r r.
Proof. intro r. repeat split. Qed.

(** Reading a run of counter fields: the parser goes on with what follows
    it, the score and the variation untouched, and the depth too when the
    run has no [depth] field. *)
Lemma parse_counter_fields :
  forall pre rest r,
    counter_fields pre = true ->
    exists r',
      parse_tokens (pre ++ rest) r = parse_tokens rest r'
      /\ same_score r r'
      /\ (~ In "depth" pre -> depth r' = depth r).
Proof.
  induction pre as [pre IH] using list_strong_ind. intros rest r Hcf.
  destruct pre as [|tok pre1].
  - exists r. split; [reflexivity|]. split; [apply same_score_refl|reflexivity].
  - cbn [counter_fields] in Hcf.
    destruct (is_counter tok) eqn:Hcounter.
    + destruct pre1 as [|v pre2]; [discriminate|].
      apply andb_true_iff in Hcf. destruct Hcf as [Hv Hcf].
      destruct (is_int_some _ Hv) as [n Hn].
      assert (Hlen : (List.length pre2 < List.length (tok :: v :: pre2))%nat)
        by (simpl; lia).
      unfold is_counter in Hcounter.
      cbn [app parse_tokens]. rewrite Hn.
      destruct (String.eqb_spec tok "depth") as [->|Hd].
      { destruct (IH pre2 Hlen rest (set_depth n r) Hcf) as (r' & Hp & Hs & _).
        exists r'. split; [exact Hp|]. split; [exact Hs|].
        intros Hnot. exfalso. apply Hnot. left. reflexivity. }
      destruct (String.eqb_spec tok "score") as [->|_]; [discriminate|].
      destruct (String.eqb_spec tok "nodes") as [->|Hn'].
      { destruct (IH pre2 Hlen rest (set_nodes n r) Hcf) as (r' & Hp & Hs & Hdep).
        exists r'. split; [exact Hp|]. split; [exact Hs|].
        intros Hnot. rewrite Hdep; [reflexivity|].
        intro Hin. apply Hnot. right. right. exact Hin. }
      destruct (String.eqb_spec tok "nps") as [->|Hn''].
      { destruct (IH pre2 Hlen rest (set_nps n r) Hcf) as (r' & Hp & Hs & Hdep).
        exists r'. split; [exact Hp|]. split; [exact Hs|].
        intros Hnot. rewrite Hdep; [reflexivity|].
        intro Hin. apply Hnot. right. right. exact Hin. }
      discriminate.
    + destruct ((tok =? "score") || (tok =? "pv")) eqn:Hsp; [discriminate|].
      assert (Hkey : is_key tok = false).
      { unfold is_key. unfold is_counter in Hcounter.
        repeat (apply orb_false_iff in Hcounter; destruct Hcounter as [Hcounter ?]).
        apply orb_false_iff in Hsp. destruct Hsp as [Hs Hp].
        rewrite Hcounter, Hs, Hp.
        repeat match goal with E : (_ =? _) = false |- _ => rewrite E; clear E end.
        reflexivity. }
      cbn [app]. rewrite (parse_tokens_skip tok (pre1 ++ rest) r Hkey).
      assert (Hlen : (List.length pre1 < List.length (tok :: pre1))%nat)
        by (simpl; lia).
      destruct (IH pre1 Hlen rest r Hcf) as (r' & Hp & Hs & Hdep).
      exists r'. split; [exact Hp|]. split; [exact Hs|].
      intros Hnot. apply Hdep. intro Hin. apply Hnot. right. exact Hin.
Qed.

Lemma mate_sentinel_score :
  forall kind val r, mate_sentinel r -> mate_sentinel (apply_score kind val r).
Proof.
  intros kind val r Hr. unfold apply_score.
  destruct (kind =? "cp").
  - intro H. discriminate H.
  - destruct (kind =? "mate"); [|exact Hr].
    intros _. exists val. cbn.
    split; [reflexivity|].
    split; intro; destruct (Z.gtb_spec val 0); lia || reflexivity.
Qed.

(** The parser keeps [mate_sentinel]. *)
Lemma parse_tokens_mate_sentinel :
  forall toks r out,
    mate_sentinel r -> parse_tokens toks r = Ok out -> mate_sentinel out.
Proof.
  induction toks as [toks IH] using list_strong_ind. intros r out Hr Hp.
  destruct toks as [|tok rest1]; cbn [parse_tokens] in Hp.
  - inversion Hp; subst. exact Hr.
  - destruct (tok =? "depth").
    { destruct rest1 as [|v rest2]; [inversion Hp; subst; exact Hr|].
      destruct (int v); [|discriminate].
      eapply (IH rest2); [simpl; lia| |exact Hp]. exact Hr. }
    destruct (tok =? "score").
    { destruct rest1 as [|k [|v rest3]].
      - inversion Hp; subst; exact Hr.
      - eapply (IH [k]); [simpl; lia|exact Hr|exact Hp].
      - destruct (int v); [|discriminate].
        eapply (IH rest3); [simpl; lia| |exact Hp].
        apply mate_sentinel_score. exact Hr. }
    destruct (tok =? "nodes").
    { destruct rest1 as [|v rest2]; [inversion Hp; subst; exact Hr|].
      destruct (int v); [|discriminate].
      eapply (IH rest2); [simpl; lia| |exact Hp]. exact Hr. }
    destruct (tok =? "nps").
    { destruct rest1 as [|v rest2]; [inversion Hp; subst; exact Hr|].
      destruct (int v); [|discriminate].
      eapply (IH rest2); [simpl; lia| |exact Hp]. exact Hr. }
    destruct (tok =? "pv").
    { inversion Hp; subst. unfold apply_pv.
      destruct rest1; exact Hr. }
    eapply (IH rest1); [simpl; lia|exact Hr|exact Hp].
Qed.

(** Nothing but [ValueError] leaves the parser. *)
Lemma parse_tokens_raises :
  forall toks r e, parse_tokens toks r = Raise e -> e = ValueError.
Proof.
  induction toks as [toks IH] using list_strong_ind. intros r e Hp.
  destruct toks as [|tok rest1]; cbn [parse_tokens] in Hp; [discriminate|].
  destruct (tok =? "depth").
  { destruct rest1 as [|v rest2]; [discriminate|].
    destruct (int v); [|congruence].
    eapply (IH rest2); [simpl; lia|exact Hp]. }
  destruct (tok =? "score").
  { destruct rest1 as [|k [|v rest3]]; [discriminate| |].
    - eapply (IH [k]); [simpl; lia|exact Hp].
    - destruct (int v); [|congruence].
      eapply (IH rest3); [simpl; lia|exact Hp]. }
  destruct (tok =? "nodes").
  { destruct rest1 as [|v rest2]; [discriminate|].
    destruct (int v); [|congruence].
    eapply (IH rest2); [simpl; lia|exact Hp]. }
  destruct (tok =? "nps").
  { destruct rest1 as [|v rest2]; [discriminate|].
    destruct (int v); [|congruence].
    eapply (IH rest2); [simpl; lia|exact Hp]. }
  destruct (tok =? "pv"); [discriminate|].
  eapply (IH rest1); [simpl; lia|exact Hp].
Qed.

Lemma values_numeric_tail :
  forall tok rest, values_numeric (tok :: rest) = true -> values_numeric rest = true.
Proof.
  intros tok rest H. cbn [values_numeric] in H.
  apply andb_true_iff in H. destruct H as [_ H]. exact H.
Qed.

(** With an integer literal in every value position the parser returns. *)
Lemma parse_tokens_numeric :
  forall toks r,
    values_numeric toks = true -> exists out, parse_tokens toks r = Ok out.
Proof.
  induction toks as [toks IH] using list_strong_ind. intros r Hnum.
  destruct toks as [|tok rest1]; cbn [parse_tokens]; [eauto|].
  pose proof (values_numeric_tail _ _ Hnum) as Hrest1.
  cbn [values_numeric] in Hnum.
  apply andb_true_iff in Hnum. destruct Hnum as [Hnum _].
  apply andb_true_iff in Hnum. destruct Hnum as [Hcounter Hscore].
  unfold is_counter in Hcounter.
  destruct (String.eqb_spec tok "depth") as [->|_].
  { destruct rest1 as [|v rest2]; [eauto|].
    cbn in Hcounter. destruct (is_int_some _ Hcounter) as [n ->].
    apply IH; [simpl; lia|]. eapply values_numeric_tail; eassumption. }
  destruct (String.eqb_spec tok "score") as [->|_].
  { destruct rest1 as [|k [|v rest3]]; [eauto| |].
    - apply IH; [simpl; lia|exact Hrest1].
    - cbn in Hscore. destruct (is_int_some _ Hscore) as [n ->].
      apply IH; [simpl; lia|].
      eapply values_numeric_tail, values_numeric_tail; eassumption. }
  destruct (String.eqb_spec tok "nodes") as [->|_].
  { destruct rest1 as [|v rest2]; [eauto|].
    cbn in Hcounter. destruct (is_int_some _ Hcounter) as [n ->].
    apply IH; [simpl; lia|]. eapply values_numeric_tail; eassumption. }
  destruct (String.eqb_spec tok "nps") as [->|_].
  { destruct rest1 as [|v rest2]; [eauto|].
    cbn in Hcounter. destruct (is_int_some _ Hcounter) as [n ->].
    apply IH; [simpl; lia|]. eapply values_numeric_tail; eassumption. }
  destruct (tok =? "pv"); [eauto|].
  apply IH; [simpl; lia|exact Hrest1].
Qed.

(** The parser returns exactly when every token it hands to [int] is an
    integer literal. *)
Lemma parse_tokens_returns_iff :
  forall toks r,
    (exists out, parse_tokens toks r = Ok out)
    <-> forallb is_int (value_tokens toks) = true.
Proof.
  induction toks as [toks IH] using list_strong_ind. intro r.
  destruct toks as [|tok rest1]; cbn [parse_tokens value_tokens].
  { split; [reflexivity|intros _; eexists; reflexivity]. }
  unfold is_counter.
  destruct (String.eqb_spec tok "depth") as [->|_]; cbn [orb].
  { destruct rest1 as [|v rest2]; [split; [reflexivity|intros _; eexists; reflexivity]|].
    cbn [forallb]. unfold is_int at 1.
    destruct (int v) as [n|]; cbn [andb].
    - apply IH. simpl. lia.
    - split; [intros [out H]; discriminate H|discriminate]. }
  destruct (String.eqb_spec tok "nodes") as [->|_]; cbn [orb].
  { cbn [String.eqb Ascii.eqb Bool.eqb].
    destruct rest1 as [|v rest2]; [split; [reflexivity|intros _; eexists; reflexivity]|].
    cbn [forallb]. unfold is_int at 1.
    destruct (int v) as [n|]; cbn [andb].
    - apply IH. simpl. lia.
    - split; [intros [out H]; discriminate H|discriminate]. }
  destruct (String.eqb_spec tok "nps") as [->|_].
  { cbn [String.eqb Ascii.eqb Bool.eqb].
    destruct rest1 as [|v rest2]; [split; [reflexivity|intros _; eexists; reflexivity]|].
    cbn [forallb]. unfold is_int at 1.
    destruct (int v) as [n|]; cbn [andb].
    - apply IH. simpl. lia.
    - split; [intros [out H]; discriminate H|discriminate]. }
  destruct (String.eqb_spec tok "score") as [->|_].
  { destruct rest1 as [|k [|v rest3]].
    - split; [reflexivity|intros _; eexists; reflexivity].
    - apply IH. simpl. lia.
    - cbn [forallb]. unfold is_int at 1.
      destruct (int v) as [n|]; cbn [andb].
      + apply IH. simpl. lia.
      + split; [intros [out H]; discriminate H|discriminate]. }
  destruct (tok =? "pv"); [split; [reflexivity|intros _; eexists; reflexivity]|].
  apply IH. simpl. lia.
Qed.

(** A line without any key parses to the default result. *)
Lemma parse_tokens_no_key :
  forall toks r, no_key toks = true -> parse_tokens toks r = Ok r.
Proof.
  unfold no_key. induction toks as [|tok rest IH]; intros r H; [reflexivity|].
  cbn [forallb] in H. apply andb_true_iff in H. destruct H as [Hk Hrest].
  apply negb_true_iff in Hk.
  rewrite parse_tokens_skip by exact Hk. apply IH. exact Hrest.
Qed.

(** [carries] looks at the score alone. *)
Lemma carries_same :
  forall seen r r',
    is_mate r' = is_mate r -> score_cp r' = score_cp r ->
    score_mate r' = score_mate r ->
    carries seen r -> carries seen r'.
Proof.
  intros seen r r' Hm Hc Hs H. unfold carries in *.
  rewrite Hm, Hc, Hs. exact H.
Qed.

(** A score field that is read decides the score when its kind is [cp] or
    [mate], and changes nothing otherwise. *)
Lemma carries_score :
  forall kind v val seen r,
    int v = Some val ->
    carries seen r ->
    carries (if (kind =? "cp") || (kind =? "mate") then Some (kind, v) else seen)
      (apply_score kind val r).
Proof.
  intros kind v val seen r Hv Hr. unfold apply_score.
  destruct (String.eqb_spec kind "cp") as [->|_]; cbn [orb].
  { exists val. split; [exact Hv|]. left. repeat split. }
  destruct (String.eqb_spec kind "mate") as [->|_]; [|exact Hr].
  exists val. split; [exact Hv|]. right. repeat split.
Qed.

(** The parser leaves the result with the score of the last score field it
    read. *)
Lemma parse_tokens_carries :
  forall toks r out seen,
    carries seen r -> parse_tokens toks r = Ok out ->
    carries (score_read seen toks) out.
Proof.
  induction toks as [toks IH] using list_strong_ind. intros r out seen Hr Hp.
  destruct toks as [|tok rest1]; cbn [parse_tokens score_read] in *.
  { inversion Hp; subst. exact Hr. }
  unfold is_counter.
  destruct (String.eqb_spec tok "depth") as [->|_]; cbn [orb].
  { destruct rest1 as [|v rest2]; [inversion Hp; subst; exact Hr|].
    destruct (int v); [|discriminate].
    eapply (IH rest2); [simpl; lia| |exact Hp].
    eapply carries_same; [| | |exact Hr]; reflexivity. }
  destruct (String.eqb_spec tok "nodes") as [->|_]; cbn [orb].
  { cbn [String.eqb Ascii.eqb Bool.eqb] in Hp.
    destruct rest1 as [|v rest2]; [inversion Hp; subst; exact Hr|].
    destruct (int v); [|discriminate].
    eapply (IH rest2); [simpl; lia| |exact Hp].
    eapply carries_same; [| | |exact Hr]; reflexivity. }
  destruct (String.eqb_spec tok "nps") as [->|_].
  { cbn [String.eqb Ascii.eqb Bool.eqb] in Hp.
    destruct rest1 as [|v rest2]; [inversion Hp; subst; exact Hr|].
    destruct (int v); [|discriminate].
    eapply (IH rest2); [simpl; lia| |exact Hp].
    eapply carries_same; [| | |exact Hr]; reflexivity. }
  destruct (String.eqb_spec tok "score") as [->|_].
  { destruct rest1 as [|k [|v rest3]].
    - inversion Hp; subst. exact Hr.
    - eapply (IH [k]); [simpl; lia|exact Hr|exact Hp].
    - destruct (int v) as [val|] eqn:Hv; [|discriminate].
      eapply (IH rest3); [simpl; lia| |exact Hp].
      apply carries_score; assumption. }
  destruct (tok =? "pv").
  { inversion Hp; subst. unfold apply_pv.
    destruct rest1; (eapply carries_same; [| | |exact Hr]; reflexivity). }
  eapply (IH rest1); [simpl; lia|exact Hr|exact Hp].
Qed.

(** The same for a line: the result carries the score of [last_score]. *)
Lemma parse_info_carries :
  forall line r,
    _parse_info line = Ok r -> carries (last_score (split line)) r.
Proof.
  intros line r Hp. rewrite parse_info_tokens in Hp.
  apply (parse_tokens_carries (split line) AnalysisResult_default r None);
    [|exact Hp].
  split; reflexivity.
Qed.

Lemma other_fields_inv :
  forall toks,
    other_fields toks = true -> counter_fields toks = true /\ ~ In "depth" toks.
Proof.
  intros toks H. unfold other_fields in H.
  apply andb_true_iff in H. destruct H as [Hcf Hnd]. split; [exact Hcf|].
  intro Hin. rewrite forallb_forall in Hnd. specialize (Hnd _ Hin).
  rewrite String.eqb_refl in Hnd. discriminate.
Qed.

End ParserFacts.

(** ** The info-line parser: the claims *)

Section ParserClaims.

Import PyStr Parser InfoLine ParserFacts.
Local Open Scope string_scope.
Local Open Scope list_scope.

(** C2.  A centipawn line [info depth D ... score cp C ... pv M1 M2 ...],
    where each [...] is a run of fields other than depth, score and pv,
    parses to a result with [depth = D], [score_cp = C], [is_mate = false],
    [best_move = M1] and [pv = [M1; M2; ...]]: everything after the [pv] token
    is the principal variation, and the best move is its first entry. *)
Theorem parse_info_centipawn_line :
  forall line d c mid1 mid2 m1 moves D C,
    split line
    = "info" :: "depth" :: d :: mid1
        ++ "score" :: "cp" :: c :: mid2 ++ "pv" :: m1 :: moves ->
    int d = Some D ->
    int c = Some C ->
    other_fields mid1 = true ->
    other_fields mid2 = true ->
    exists r,
      _parse_info line = Ok r
      /\ depth r = D /\ score_cp r = C /\ is_mate r = false
      /\ best_move r = m1 /\ pv r = m1 :: moves.
Proof.
  intros line d c mid1 mid2 m1 moves D C Hsplit Hd Hc Hmid1 Hmid2.
  apply other_fields_inv in Hmid1. destruct Hmid1 as [Hcf1 Hnd1].
  apply other_fields_inv in Hmid2. destruct Hmid2 as [Hcf2 Hnd2].
  rewrite parse_info_tokens, Hsplit.
  rewrite parse_tokens_skip by reflexivity.
  cbn [parse_tokens String.eqb Ascii.eqb Bool.eqb]. rewrite Hd.
  destruct (parse_counter_fields mid1
              ("score" :: "cp" :: c :: mid2 ++ "pv" :: m1 :: moves)
              (set_depth D AnalysisResult_default) Hcf1)
    as (r1 & Hp1 & Hs1 & Hdep1).
  rewrite Hp1. cbn [parse_tokens String.eqb Ascii.eqb Bool.eqb]. rewrite Hc.
  unfold apply_score. cbn [String.eqb Ascii.eqb Bool.eqb].
  destruct (parse_counter_fields mid2 ("pv" :: m1 :: moves)
              (set_score_cp C r1) Hcf2)
    as (r2 & Hp2 & Hs2 & Hdep2).
  rewrite Hp2. cbn [parse_tokens String.eqb Ascii.eqb Bool.eqb].
  eexists. split; [reflexivity|].
  destruct Hs2 as (Hcp & _ & Hmate & _ & _).
  cbn. repeat split.
  - rewrite (Hdep2 Hnd2). cbn. rewrite (Hdep1 Hnd1). reflexivity.
  - exact Hcp.
  - exact Hmate.
Qed.

Lemma parse_info_centipawn_line_witness :
  exists r,
    _parse_info
      "info depth 18 seldepth 24 multipv 1 score cp 34 nodes 1520000 nps 987000 hashfull 12 tbhits 0 time 1540 pv e2e4 e7e5 g1f3"
    = Ok r
    /\ depth r = 18 /\ score_cp r = 34 /\ is_mate r = false
    /\ best_move r = "e2e4" /\ pv r = ["e2e4"; "e7e5"; "g1f3"].
Proof.
  apply (parse_info_centipawn_line
           "info depth 18 seldepth 24 multipv 1 score cp 34 nodes 1520000 nps 987000 hashfull 12 tbhits 0 time 1540 pv e2e4 e7e5 g1f3"
           "18" "34" ["seldepth"; "24"; "multipv"; "1"]
           ["nodes"; "1520000"; "nps"; "987000"; "hashfull"; "12"; "tbhits";
            "0"; "time"; "1540"]
           "e2e4" ["e7e5"; "g1f3"]); vm_compute; reflexivity.
Defined.

(** C3, as the code has it.  On an info line whose values are integer
    literals, so that the parser returns, and whose last [score cp] or
    [score mate] field read is [score mate N], the result has
    [is_mate = true], [score_mate = N] and [score_cp = 30000] when [N > 0],
    [score_cp = -30000] when [N <= 0]; so the sign of the sentinel is the sign
    of [N] for every [N] other than zero.  In particular this holds of a line
    with one [score mate N] field, the fields before it and after it (up to
    an optional final pv) being counter fields.  Every result the parser
    returns with [is_mate = true] carries the mate distance of that field and
    the sentinel that goes with it; a result with [is_mate = false] has
    [score_cp = 0] or the number of the last [score cp] field.  So [is_mate]
    tells the sentinel from a centipawn value, and the value alone does
    whenever that centipawn number is strictly between -30000 and 30000. *)
Theorem parse_info_mate_line :
  (forall line n,
     forallb is_int (value_tokens (split line)) = true ->
     last_score (split line) = Some ("mate", n) ->
     exists r N,
       _parse_info line = Ok r /\ int n = Some N
       /\ is_mate r = true /\ score_mate r = Some N
       /\ (0 < N -> score_cp r = 30000)
       /\ (N <= 0 -> score_cp r = -30000)
       /\ (N <> 0 -> Z.sgn (score_cp r) = Z.sgn N))
  /\ (forall line pre n N mid ending,
        split line = pre ++ "score" :: "mate" :: n :: mid ++ pv_field ending ->
        counter_fields pre = true ->
        int n = Some N ->
        counter_fields mid = true ->
        exists r,
          _parse_info line = Ok r
          /\ is_mate r = true /\ score_mate r = Some N
          /\ (0 < N -> score_cp r = 30000)
          /\ (N <= 0 -> score_cp r = -30000)
          /\ (N <> 0 -> Z.sgn (score_cp r) = Z.sgn N))
  /\ (forall line r,
        _parse_info line = Ok r ->
        is_mate r = true ->
        exists n N,
          last_score (split line) = Some ("mate", n) /\ int n = Some N
          /\ score_mate r = Some N
          /\ Z.abs (score_cp r) = 30000
          /\ (0 < N -> score_cp r = 30000)
          /\ (N <= 0 -> score_cp r = -30000))
  /\ (forall line r,
        _parse_info line = Ok r ->
        is_mate r = false ->
        (last_score (split line) = None /\ score_cp r = 0)
        \/ (exists c,
              last_score (split line) = Some ("cp", c)
              /\ int c = Some (score_cp r)))
  /\ (forall line r,
        _parse_info line = Ok r ->
        (forall c C,
            last_score (split line) = Some ("cp", c) -> int c = Some C ->
            -30000 < C < 30000) ->
        (is_mate r = true <-> Z.abs (score_cp r) = 30000)).
Proof.
  split; [|split; [|split; [|split]]].
  - intros line n Hnum Hlast.
    destruct (proj2 (parse_tokens_returns_iff (split line)
                       AnalysisResult_default) Hnum) as [r Hr].
    rewrite <- parse_info_tokens in Hr.
    pose proof (parse_info_carries line r Hr) as Hc.
    rewrite Hlast in Hc. destruct Hc as (N & HN & [(Hk & _)|(_ & Hm & Hs & Hcp)]);
      [discriminate Hk|].
    exists r, N. split; [exact Hr|]. split; [exact HN|].
    split; [exact Hm|]. split; [exact Hs|]. rewrite Hcp.
    repeat split; intros; destruct (Z.gtb_spec N 0); try lia; try reflexivity;
      destruct N; try lia; reflexivity.
  - intros line pre n N mid ending Hsplit Hpre Hn Hmid.
    rewrite parse_info_tokens, Hsplit.
    destruct (parse_counter_fields pre
                ("score" :: "mate" :: n :: mid ++ pv_field ending)
                AnalysisResult_default Hpre) as (r1 & Hp1 & _ & _).
    rewrite Hp1. cbn [parse_tokens String.eqb Ascii.eqb Bool.eqb]. rewrite Hn.
    unfold apply_score. cbn [String.eqb Ascii.eqb Bool.eqb].
    destruct (parse_counter_fields mid (pv_field ending)
                (set_score_mate N r1) Hmid) as (r2 & Hp2 & Hs2 & _).
    rewrite Hp2. destruct Hs2 as (Hcp & Hsm & Hmate & _ & _).
    cbn in Hcp, Hsm, Hmate.
    assert (Hfinal : exists r,
               parse_tokens (pv_field ending) r2 = Ok r
               /\ is_mate r = is_mate r2 /\ score_mate r = score_mate r2
               /\ score_cp r = score_cp r2).
    { destruct ending as [[|m ms]|]; cbn; eexists; (split; [reflexivity|]);
        cbn; repeat split. }
    destruct Hfinal as (r & Hr & Hm & Hs & Hc).
    exists r. split; [exact Hr|].
    rewrite Hm, Hs, Hc, Hcp, Hsm, Hmate.
    repeat split; intros; destruct (Z.gtb_spec N 0); try lia; try reflexivity;
      destruct N; try lia; reflexivity.
  - intros line r Hp Hmate.
    pose proof (parse_info_carries line r Hp) as Hc.
    destruct (last_score (split line)) as [[kind v]|]; cbn [carries] in Hc.
    + destruct Hc as (N & HN & [(_ & Hm & _)|(-> & _ & Hs & Hcp)]);
        [congruence|].
      exists v, N. split; [reflexivity|]. split; [exact HN|].
      split; [exact Hs|]. rewrite Hcp.
      destruct (Z.gtb_spec N 0); repeat split; intros; try lia; reflexivity.
    + destruct Hc as [Hm _]. congruence.
  - intros line r Hp Hmate.
    pose proof (parse_info_carries line r Hp) as Hc.
    destruct (last_score (split line)) as [[kind v]|]; cbn [carries] in Hc.
    + destruct Hc as (N & HN & [(-> & _ & Hcp)|(_ & Hm & _)]); [|congruence].
      right. exists v. split; [reflexivity|]. rewrite Hcp. exact HN.
    + left. split; [reflexivity|apply Hc].
  - intros line r Hp Hrange.
    pose proof (parse_info_carries line r Hp) as Hc.
    destruct (last_score (split line)) as [[kind v]|]; cbn [carries] in Hc.
    + destruct Hc as (N & HN & [(-> & Hm & Hcp)|(_ & Hm & _ & Hcp)]).
      * specialize (Hrange v N eq_refl HN). rewrite Hm, Hcp.
        split; [discriminate|lia].
      * rewrite Hm, Hcp. destruct (Z.gtb_spec N 0); split; reflexivity.
    + destruct Hc as [Hm Hcp]. rewrite Hm, Hcp. split; discriminate.
Qed.

Lemma parse_info_mate_line_witness :
  (exists r N,
      _parse_info "info depth 12 seldepth 14 score mate -3 nodes 4821 nps 96000 pv h7h8 g8h8"
      = Ok r
      /\ int "-3" = Some N
      /\ is_mate r = true /\ score_mate r = Some N
      /\ (0 < N -> score_cp r = 30000)
      /\ (N <= 0 -> score_cp r = -30000)
      /\ (N <> 0 -> Z.sgn (score_cp r) = Z.sgn N))
  /\ (exists r,
        _parse_info "info depth 12 seldepth 14 score mate -3 nodes 4821 nps 96000 pv h7h8 g8h8"
        = Ok r
        /\ is_mate r = true /\ score_mate r = Some (-3)
        /\ (0 < -3 -> score_cp r = 30000)
        /\ (-3 <= 0 -> score_cp r = -30000)
        /\ (-3 <> 0 -> Z.sgn (score_cp r) = Z.sgn (-3))).
Proof.
  split.
  - apply (proj1 parse_info_mate_line
             "info depth 12 seldepth 14 score mate -3 nodes 4821 nps 96000 pv h7h8 g8h8"
             "-3"); vm_compute; reflexivity.
  - apply (proj1 (proj2 parse_info_mate_line)
             "info depth 12 seldepth 14 score mate -3 nodes 4821 nps 96000 pv h7h8 g8h8"
             ["info"; "depth"; "12"; "seldepth"; "14"] "-3" (-3)
             ["nodes"; "4821"; "nps"; "96000"] (Some ["h7h8"; "g8h8"]));
      vm_compute; reflexivity.
Defined.

(** C3, as stated, fails in three places.  On [mate 0] (what the engine
    prints for a side that is checkmated) the sentinel is [-30000], whose
    sign is not that of 0.  A line that contains [score mate 3] and a later
    [score cp 10] parses to a centipawn result: the last score field read
    decides.  And a line with [score cp 30000] parses to a centipawn result
    whose value is the sentinel: only [is_mate] tells the two apart there. *)
Lemma parse_info_mate_line_fails_as_stated :
  (exists r,
      _parse_info "info depth 0 score mate 0" = Ok r
      /\ is_mate r = true /\ score_mate r = Some 0
      /\ score_cp r = -30000
      /\ Z.sgn (score_cp r) <> Z.sgn 0)
  /\ (exists r,
        _parse_info "info depth 9 score mate 3 score cp 10" = Ok r
        /\ is_mate r = false /\ score_cp r = 10)
  /\ (exists r,
        _parse_info "info depth 20 score cp 30000" = Ok r
        /\ is_mate r = false /\ score_cp r = 30000).
Proof.
  split; [|split].
  - eexists. split; [vm_compute; reflexivity|].
    cbn. repeat split. discriminate.
  - eexists. split; [vm_compute; reflexivity|]. split; reflexivity.
  - eexists. split; [vm_compute; reflexivity|]. split; reflexivity.
Qed.

(** C9, as the code has it.  The parser returns a result exactly when every
    token it hands to [int] is an integer literal, and raises [ValueError],
    nothing else, when one is not.  So it returns for every line in which each
    token after [depth], [nodes] or [nps] and each second token after [score]
    is an integer literal; and a line without any key parses to the default
    result: tokens that are not keys are skipped. *)
Theorem parse_info_returns_on_numeric_values :
  forall line,
    ((exists r, _parse_info line = Ok r)
     <-> forallb is_int (value_tokens (split line)) = true)
    /\ (forall e, _parse_info line = Raise e -> e = ValueError)
    /\ (values_numeric (split line) = true -> exists r, _parse_info line = Ok r)
    /\ (no_key (split line) = true -> _parse_info line = Ok AnalysisResult_default).
Proof.
  intro line. rewrite parse_info_tokens.
  split; [apply parse_tokens_returns_iff|].
  split; [intros e H; eapply parse_tokens_raises; exact H|].
  split.
  - intro H. apply parse_tokens_numeric. exact H.
  - intro H. apply parse_tokens_no_key. exact H.
Qed.

Lemma parse_info_returns_on_numeric_values_witness :
  (exists r,
      _parse_info "info depth 20 currmove e2e4 currmovenumber 1 score cp 12 upperbound nodes 900"
      = Ok r)
  /\ _parse_info "info string NNUE evaluation enabled" = Ok AnalysisResult_default.
Proof.
  split.
  - apply (proj1 (proj2 (proj2 (parse_info_returns_on_numeric_values
                    "info depth 20 currmove e2e4 currmovenumber 1 score cp 12 upperbound nodes 900")))).
    vm_compute. reflexivity.
  - apply (proj2 (proj2 (proj2 (parse_info_returns_on_numeric_values
                           "info string NNUE evaluation enabled")))).
    vm_compute. reflexivity.
Defined.

(** C9, as stated, fails: a token that is not an integer literal in the value
    position of [depth], [score], [nodes] or [nps] makes the parser raise
    [ValueError]. *)
Lemma parse_info_raises_on_non_numeric_value :
  _parse_info "info depth abc" = Raise ValueError
  /\ _parse_info "info depth 5 score cp none" = Raise ValueError
  /\ _parse_info "info depth 5 nodes 1.5e6" = Raise ValueError
  /\ _parse_info "info depth 5 nps fast" = Raise ValueError.
Proof. repeat split; vm_compute; reflexivity. Qed.

End ParserClaims.

(** ** The move classifier *)

Section ClassifierClaims.

Local Open Scope string_scope.
Local Open Scope Z_scope.

Lemma classify_cases :
  forall loss,
    (loss <= 0 /\ classify loss = "brilliant")
    \/ (1 <= loss <= 10 /\ classify loss = "best")
    \/ (11 <= loss <= 49 /\ classify loss = "good")
    \/ (50 <= loss <= 99 /\ classify loss = "inaccuracy")
    \/ (100 <= loss <= 199 /\ classify loss = "mistake")
    \/ (200 <= loss /\ classify loss = "blunder").
Proof.
  intro loss. unfold classify, INACCURACY_THRESHOLD_CP, MISTAKE_THRESHOLD_CP,
    BLUNDER_THRESHOLD_CP.
  destruct (Z.leb_spec loss 0); [left; split; [lia|reflexivity]|right].
  destruct (Z.leb_spec loss 10); [left; split; [lia|reflexivity]|right].
  destruct (Z.ltb_spec loss 50); [left; split; [lia|reflexivity]|right].
  destruct (Z.ltb_spec loss 100); [left; split; [lia|reflexivity]|right].
  destruct (Z.ltb_spec loss 200); [left; split; [lia|reflexivity]|].
  right. split; [lia|reflexivity].
Qed.

(** C4.  [classify_move] takes the loss from the mover's side,
    [eval_before - eval_after] for White and [eval_after - eval_before] for
    Black, and floors it at zero: [cp_loss] is never negative.  For Black,
    [eval_before = -100] and [eval_after = 150] give a loss of 250. *)
Theorem classify_move_loss :
  forall eval_before_cp eval_after_cp uci player_is_white,
    cp_loss (classify_move eval_before_cp eval_after_cp uci true)
    = Z.max 0 (eval_before_cp - eval_after_cp)
    /\ cp_loss (classify_move eval_before_cp eval_after_cp uci false)
       = Z.max 0 (eval_after_cp - eval_before_cp)
    /\ 0 <= cp_loss (classify_move eval_before_cp eval_after_cp uci player_is_white)
    /\ cp_loss (classify_move (-100) 150 uci false) = 250.
Proof.
  intros b a uci w. repeat split.
  unfold classify_move. cbn [cp_loss]. apply Z.le_max_l.
Qed.

(** C5.  The label follows the fixed centipawn boundaries (at most 0:
    brilliant, 1 to 10: best, 11 to 49: good, 50 to 99: inaccuracy, 100 to 199:
    mistake, 200 and more: blunder), and [is_blunder] holds exactly when the
    label is "blunder", that is when [cp_loss] reaches the blunder threshold
    of 200. *)
Theorem classify_boundaries :
  forall loss eval_before_cp eval_after_cp uci player_is_white,
    let c := classify_move eval_before_cp eval_after_cp uci player_is_white in
    (classify loss = "brilliant" <-> loss <= 0)
    /\ (classify loss = "best" <-> 1 <= loss <= 10)
    /\ (classify loss = "good" <-> 11 <= loss <= 49)
    /\ (classify loss = "inaccuracy" <-> 50 <= loss <= 99)
    /\ (classify loss = "mistake" <-> 100 <= loss <= 199)
    /\ (classify loss = "blunder" <-> 200 <= loss)
    /\ label c = classify (cp_loss c)
    /\ (is_blunder c = true <-> label c = "blunder")
    /\ (is_blunder c = true <-> BLUNDER_THRESHOLD_CP <= cp_loss c)
    /\ BLUNDER_THRESHOLD_CP = 200.
Proof.
  intros loss b a uci w c.
  assert (Hblunder : forall x, classify x = "blunder" <-> 200 <= x).
  { intro x.
    destruct (classify_cases x) as [[H E]|[[H E]|[[H E]|[[H E]|[[H E]|[H E]]]]]];
      rewrite E; split; intro H'; try discriminate H'; try lia; reflexivity. }
  split; [|split; [|split; [|split; [|split; [|split; [exact (Hblunder loss)|]]]]]].
  1-5: destruct (classify_cases loss)
         as [[H E]|[[H E]|[[H E]|[[H E]|[[H E]|[H E]]]]]];
       rewrite E; split; intro H'; try discriminate H'; try lia; reflexivity.
  split; [reflexivity|].
  subst c. unfold classify_move. cbn [is_blunder label cp_loss].
  unfold BLUNDER_THRESHOLD_CP. rewrite Hblunder, Z.geb_le.
  repeat split; intro; assumption.
Qed.

End ClassifierClaims.

(** ** The result queue and [get_latest] *)

Section QueueClaims.

Local Open Scope list_scope.
Local Open Scope nat_scope.

Lemma last_cons_default :
  forall (q : list AnalysisResult) x d, last (x :: q) d = last q x.
Proof.
  induction q as [|y q IH]; intros x d; [reflexivity|].
  change (last (x :: y :: q) d) with (last (y :: q) d).
  rewrite !IH. reflexivity.
Qed.

(** One turn of the drain loop is one [get_nowait]. *)
Lemma drain_get_nowait :
  forall q latest,
    drain q latest
    = match PyQueue.get_nowait q with
      | Some (x, q') => drain q' x
      | None => latest
      end.
Proof. intros [|x q] latest; reflexivity. Qed.

(** The drain loop ends on the item at the back of the queue, or on the
    cached value when the queue is empty. *)
Lemma drain_last : forall q latest, drain q latest = last q latest.
Proof.
  induction q as [|x q IH]; intro latest; [reflexivity|].
  cbn [drain]. rewrite IH, last_cons_default. reflexivity.
Qed.

Lemma push_result_latest :
  forall r a, _latest (push_result r a) = _latest a.
Proof.
  intros r a. unfold push_result. destruct (negb _); reflexivity.
Qed.

Lemma push_results_latest :
  forall rs a, _latest (push_results rs a) = _latest a.
Proof.
  unfold push_results.
  induction rs as [|r rs IH]; intro a; [reflexivity|].
  cbn [fold_left]. rewrite IH. apply push_result_latest.
Qed.

(** The queue after a run of pushes: the results pushed while there was room
    are at the back, in order; the others are dropped. *)
Lemma push_results_queue :
  forall rs a,
    _queue (push_results rs a)
    = _queue a ++ firstn (PyQueue.maxsize - List.length (_queue a)) rs.
Proof.
  unfold push_results.
  induction rs as [|r rs IH]; intro a.
  - cbn [fold_left]. rewrite firstn_nil, app_nil_r. reflexivity.
  - cbn [fold_left]. rewrite IH. unfold push_result, PyQueue.full, PyQueue.put.
    destruct (Nat.leb_spec PyQueue.maxsize (List.length (_queue a))) as [Hfull|Hroom];
      cbn [negb].
    + replace (PyQueue.maxsize - List.length (_queue a)) with 0 by lia.
      reflexivity.
    + cbn [_queue with_queue]. rewrite length_app. cbn [List.length].
      replace (PyQueue.maxsize - List.length (_queue a))
        with (S (PyQueue.maxsize - (List.length (_queue a) + 1))) by lia.
      cbn [firstn]. rewrite <- app_assoc. reflexivity.
Qed.

(** What [get_latest] returns after any run of pushes. *)
Lemma get_latest_after_pushes :
  forall rs a,
    fst (get_latest (push_results rs a))
    = last (_queue a ++ firstn (PyQueue.maxsize - List.length (_queue a)) rs)
        (_latest a).
Proof.
  intros rs a. unfold get_latest. cbn [fst].
  rewrite drain_last, push_results_queue, push_results_latest. reflexivity.
Qed.

(** Within the capacity of the queue [get_latest] does what C1 says.
    After [N] results are pushed, with [N >= 1] and
    room in the queue for all of them (at most 64 results buffered),
    [get_latest] returns the [N]th and leaves the queue empty; a second call
    with no push in between returns the same value and changes nothing.
    Before any analysis a fresh analyzer returns the default result, all
    fields zero. *)
Theorem get_latest_returns_newest :
  forall path depth rs a,
    rs <> [] ->
    List.length (_queue a) + List.length rs <= PyQueue.maxsize ->
    let polled := get_latest (push_results rs a) in
    fst polled = last rs AnalysisResult_default
    /\ _queue (snd polled) = []
    /\ get_latest (snd polled) = (fst polled, snd polled)
    /\ get_latest (init path depth) = (AnalysisResult_default, init path depth).
Proof.
  intros path depth rs a Hne Hroom polled. subst polled.
  split; [|split; [reflexivity|split; reflexivity]].
  rewrite get_latest_after_pushes.
  rewrite firstn_all2 by lia.
  apply last_app_nonempty. exact Hne.
Qed.

Lemma get_latest_returns_newest_witness :
  let polled :=
    get_latest (push_results (results_upto 64) (init "stockfish" 18%Z)) in
  results_upto 64 <> []
  /\ fst polled = result_at_depth 64
  /\ _queue (snd polled) = []
  /\ get_latest (snd polled) = (fst polled, snd polled).
Proof.
  assert (Hne : results_upto 64 <> []) by (vm_compute; discriminate).
  assert (Hroom : List.length (_queue (init "stockfish" 18%Z))
                  + List.length (results_upto 64) <= PyQueue.maxsize)
    by (vm_compute; lia).
  destruct (get_latest_returns_newest "stockfish" 18%Z (results_upto 64)
              (init "stockfish" 18%Z) Hne Hroom) as (H1 & H2 & H3 & _).
  split; [exact Hne|]. split; [|split; assumption].
  rewrite H1. vm_compute. reflexivity.
Defined.

(** C1.  The code at the failing input.  [get_latest] is documented to
    return the most recent analysis result, and C1 says so of every run of
    pushes; but the worker puts a result only when the queue is not full.
    With 65 results pushed and no poll in between, the 65th, the newest, is
    dropped, and [get_latest] returns the 64th. *)
Lemma get_latest_misses_result_pushed_on_full_queue :
  fst (get_latest (push_results (results_upto 65) (init "stockfish" 18%Z)))
  = result_at_depth 64
  /\ last (results_upto 65) AnalysisResult_default = result_at_depth 65
  /\ result_at_depth 64 <> result_at_depth 65.
Proof.
  split; [vm_compute; reflexivity|].
  split; [vm_compute; reflexivity|].
  vm_compute. discriminate.
Qed.

End QueueClaims.

(** ** Start-up *)

Section StartClaims.

Local Open Scope string_scope.
Local Open Scope list_scope.
Local Open Scope Z_scope.

(** C10.  [start] on a path where there is no binary returns [False] and
    leaves the analyzer unavailable; [get_latest] then still returns the
    default result, all fields zero, and goes on doing so. *)
Theorem start_missing_binary :
  forall popen now path depth,
    popen path = Raise FileNotFoundError ->
    exists a',
      start popen now (init path depth) = Returns (false, a')
      /\ is_available a' = false
      /\ get_latest a' = (AnalysisResult_default, a').
Proof.
  intros popen now path depth Hpopen.
  exists (with_available false (init path depth)).
  unfold start. cbn [init _path]. rewrite Hpopen.
  repeat split.
Qed.

Lemma start_missing_binary_witness :
  exists a',
    start (fun _ => Raise FileNotFoundError) 0 (init "/no/such/stockfish" 18)
    = Returns (false, a')
    /\ is_available a' = false
    /\ get_latest a' = (AnalysisResult_default, a').
Proof.
  apply (start_missing_binary (fun _ => Raise FileNotFoundError) 0 "/no/such/stockfish" 18).
  reflexivity.
Defined.

(** C8: the code departs from the claim.  Once [uciok] has been read,
    [start] sends [isready] and waits for [readyok] with a deadline of five
    seconds; but when that wait times out, [start] still makes the analyzer
    available, starts the worker and returns [True]. *)
Theorem start_ignores_readyok_timeout :
  forall popen now a p now1 rest1 now2 rest2,
    popen (_path a) = Ok p ->
    stdin_broken p = false ->
    wait_for "uciok" (now + HANDSHAKE_TIMEOUT) now (stdout p) (stdout_end p)
    = Found now1 rest1 ->
    wait_for "readyok" (now1 + HANDSHAKE_TIMEOUT) now1 rest1 (stdout_end p)
    = TimedOut now2 rest2 ->
    exists a' p',
      start popen now a = Returns (true, a')
      /\ is_available a' = true
      /\ _running a' = true
      /\ _process a' = Some p'
      /\ stdin p' = stdin p ++ ["uci"; "isready"].
Proof.
  intros popen now a p now1 rest1 now2 rest2 Hpopen Hpipe Huci Hready.
  unfold start. rewrite Hpopen.
  unfold _send. cbn [_process with_process]. rewrite Hpipe.
  unfold await. cbn [_process with_process stdout stdout_end]. rewrite Huci.
  unfold with_stdout. cbn [_process with_process stdout stdout_end stdin stdin_broken].
  rewrite Hready.
  cbn [_process with_process stdout stdout_end stdin stdin_broken].
  eexists. eexists. split; [reflexivity|].
  cbn. repeat split. rewrite <- app_assoc. reflexivity.
Qed.

Lemma start_ignores_readyok_timeout_witness :
  exists a' p',
    start (fun _ => Ok engine_never_ready) 0 (init "stub-engine" 18)
    = Returns (true, a')
    /\ is_available a' = true
    /\ _running a' = true
    /\ _process a' = Some p'
    /\ stdin p' = stdin engine_never_ready ++ ["uci"; "isready"].
Proof.
  apply (start_ignores_readyok_timeout
           (fun _ => Ok engine_never_ready) 0 (init "stub-engine" 18)
           engine_never_ready 20
           [(3000, "info string loading"); (3000, "info string loading");
            (3000, "info string loading")]
           6020 [(3000, "info string loading")]);
    vm_compute; reflexivity.
Defined.

End StartClaims.

(** ** The game layer *)

Section GameClaims.

Import Game.
Local Open Scope Z_scope.

(** C7.  When the game layer classifies the move just played, the
    evaluation before the move is the centipawn score of the cached analysis
    result (what [get_latest] returned at the last poll, when the analyzer is
    available), and the evaluation after it is the negation of that value;
    the classification is [classify_move] on these two.  No fresh evaluation is
    awaited: the cached result is left as it was, and whatever the engine has
    queued in the meantime has no part in the classification. *)
Theorem make_player_move_negates_eval :
  forall uci fen g queued,
    let c := fst (_make_player_move uci fen g) in
    eval_before c = score_cp (_analysis g)
    /\ eval_before (fst (_make_player_move uci fen (poll_analysis g)))
       = score_cp (if is_available (_analyzer g)
                   then fst (get_latest (_analyzer g))
                   else _analysis g)
    /\ eval_after c = - eval_before c
    /\ c = classify_move (score_cp (_analysis g)) (- score_cp (_analysis g)) uci
             (_player_is_white g)
    /\ _analysis (snd (_make_player_move uci fen g)) = _analysis g
    /\ _prev_eval_cp (snd (_make_player_move uci fen g)) = - score_cp (_analysis g)
    /\ fst (_make_player_move uci fen
              {| _analyzer := with_queue queued (_analyzer g);
                 _analysis := _analysis g;
                 _player_is_white := _player_is_white g;
                 _prev_eval_cp := _prev_eval_cp g |}) = c.
Proof.
  intros uci fen g queued c. subst c.
  split; [reflexivity|]. split; [|repeat split].
  unfold poll_analysis. destruct (is_available (_analyzer g)); reflexivity.
Qed.

End GameClaims.

(** * Further properties of the analyzer *)

(** ** The parser *)

Section ParserInvariants.

Import PyStr Parser InfoLine ParserFacts.
Local Open Scope string_scope.
Local Open Scope list_scope.

(** Until the [pv] key is read the variation and the best move are empty;
    the [pv] branch sets both and ends the loop. *)
Lemma parse_tokens_best_move :
  forall toks r out,
    pv r = [] /\ best_move r = "" ->
    parse_tokens toks r = Ok out ->
    best_move out = hd "" (pv out).
Proof.
  induction toks as [toks IH] using list_strong_ind. intros r out Hr Hp.
  destruct toks as [|tok rest1]; cbn [parse_tokens] in Hp.
  - inversion Hp; subst. destruct Hr as [-> ->]. reflexivity.
  - assert (Hstop : Ok r = Ok out -> best_move out = hd "" (pv out)).
    { intro H. inversion H; subst. destruct Hr as [-> ->]. reflexivity. }
    destruct (tok =? "depth").
    { destruct rest1 as [|v rest2]; [exact (Hstop Hp)|].
      destruct (int v); [|discriminate].
      eapply (IH rest2); [simpl; lia| |exact Hp]. exact Hr. }
    destruct (tok =? "score").
    { destruct rest1 as [|k [|v rest3]].
      - exact (Hstop Hp).
      - eapply (IH [k]); [simpl; lia|exact Hr|exact Hp].
      - destruct (int v); [|discriminate].
        eapply (IH rest3); [simpl; lia| |exact Hp].
        unfold apply_score.
        destruct (k =? "cp"); [exact Hr|]. destruct (k =? "mate"); exact Hr. }
    destruct (tok =? "nodes").
    { destruct rest1 as [|v rest2]; [exact (Hstop Hp)|].
      destruct (int v); [|discriminate].
      eapply (IH rest2); [simpl; lia| |exact Hp]. exact Hr. }
    destruct (tok =? "nps").
    { destruct rest1 as [|v rest2]; [exact (Hstop Hp)|].
      destruct (int v); [|discriminate].
      eapply (IH rest2); [simpl; lia| |exact Hp]. exact Hr. }
    destruct (tok =? "pv").
    { inversion Hp; subst. unfold apply_pv.
      destruct rest1; cbn; [apply Hr|reflexivity]. }
    eapply (IH rest1); [simpl; lia|exact Hr|exact Hp].
Qed.

Lemma parse_tokens_without_pv :
  forall toks r out,
    forallb (fun t => negb (t =? "pv")) toks = true ->
    parse_tokens toks r = Ok out ->
    pv out = pv r /\ best_move out = best_move r.
Proof.
  induction toks as [toks IH] using list_strong_ind. intros r out Hno Hp.
  destruct toks as [|tok rest1]; cbn [parse_tokens] in Hp.
  - inversion Hp; subst. split; reflexivity.
  - cbn [forallb] in Hno. apply andb_true_iff in Hno. destruct Hno as [Htok Hrest1].
    apply negb_true_iff in Htok.
    assert (Htail : forall x l, forallb (fun t => negb (t =? "pv")) (x :: l) = true ->
                                forallb (fun t => negb (t =? "pv")) l = true).
    { intros x l H. cbn [forallb] in H. apply andb_true_iff in H. apply H. }
    destruct (tok =? "depth").
    { destruct rest1 as [|v rest2]; [inversion Hp; subst; split; reflexivity|].
      destruct (int v); [|discriminate].
      apply (IH rest2) in Hp; [exact Hp|simpl; lia|eapply Htail; eassumption]. }
    destruct (tok =? "score").
    { destruct rest1 as [|k [|v rest3]].
      - inversion Hp; subst; split; reflexivity.
      - apply (IH [k]) in Hp; [exact Hp|simpl; lia|exact Hrest1].
      - destruct (int v); [|discriminate].
        apply (IH rest3) in Hp;
          [|simpl; lia|eapply Htail, Htail; eassumption].
        unfold apply_score in Hp.
        destruct (k =? "cp"); [exact Hp|]. destruct (k =? "mate"); exact Hp. }
    destruct (tok =? "nodes").
    { destruct rest1 as [|v rest2]; [inversion Hp; subst; split; reflexivity|].
      destruct (int v); [|discriminate].
      apply (IH rest2) in Hp; [exact Hp|simpl; lia|eapply Htail; eassumption]. }
    destruct (tok =? "nps").
    { destruct rest1 as [|v rest2]; [inversion Hp; subst; split; reflexivity|].
      destruct (int v); [|discriminate].
      apply (IH rest2) in Hp; [exact Hp|simpl; lia|eapply Htail; eassumption]. }
    rewrite Htok in Hp.
    apply (IH rest1) in Hp; [exact Hp|simpl; lia|exact Hrest1].
Qed.

(** X1.  In every result the parser returns, the best move is the first
    move of the principal variation, or empty when the variation is empty;
    and a line with no [pv] token leaves both empty. *)
Theorem parse_info_best_move_heads_pv :
  forall line r,
    _parse_info line = Ok r ->
    best_move r = hd "" (pv r)
    /\ (forallb (fun t => negb (t =? "pv")) (split line) = true ->
        pv r = [] /\ best_move r = "").
Proof.
  intros line r Hp. rewrite parse_info_tokens in Hp. split.
  - eapply parse_tokens_best_move; [|exact Hp]. split; reflexivity.
  - intro Hno. eapply parse_tokens_without_pv in Hp; [exact Hp|exact Hno].
Qed.

Lemma parse_info_best_move_heads_pv_witness :
  exists r,
    _parse_info "info depth 12 score cp 31 nodes 5000 nps 250000" = Ok r
    /\ best_move r = hd "" (pv r)
    /\ pv r = [] /\ best_move r = "".
Proof.
  eexists. split; [vm_compute; reflexivity|].
  destruct (parse_info_best_move_heads_pv
              "info depth 12 score cp 31 nodes 5000 nps 250000" _ eq_refl)
    as [H1 H2].
  split; [exact H1|]. apply H2. vm_compute. reflexivity.
Defined.

End ParserInvariants.

(** ** The result queue *)

Section QueueInvariants.

Local Open Scope list_scope.
Local Open Scope nat_scope.

Lemma last_in_cons :
  forall (q : list AnalysisResult) d, In (last q d) (d :: q).
Proof.
  induction q as [|x q IH]; intro d; [left; reflexivity|].
  rewrite last_cons_default. right. apply IH.
Qed.

(** X2.  Whatever the analyzer holds, [get_latest] returns the cached
    result or one of the queued ones, leaves the queue empty and caches what
    it returned, so that the next call returns the same value and changes
    nothing; it writes no other field. *)
Theorem get_latest_settles :
  forall a,
    In (fst (get_latest a)) (_latest a :: _queue a)
    /\ _queue (snd (get_latest a)) = []
    /\ _latest (snd (get_latest a)) = fst (get_latest a)
    /\ get_latest (snd (get_latest a)) = get_latest a
    /\ with_latest (_latest a) (with_queue (_queue a) (snd (get_latest a))) = a.
Proof.
  intro a. unfold get_latest. cbn [fst snd].
  rewrite drain_last. split; [apply last_in_cons|].
  destruct a. repeat split.
Qed.

(** X3.  The worker's pushes never make the queue longer than its 64
    slots, and it is the newest results that are lost: the queue keeps what it
    held and takes the pushed results in order for as long as there is room. *)
Theorem push_results_keeps_oldest :
  forall rs a,
    List.length (_queue a) <= PyQueue.maxsize ->
    List.length (_queue (push_results rs a))
    = Nat.min PyQueue.maxsize (List.length (_queue a) + List.length rs)
    /\ _queue (push_results rs a)
       = _queue a ++ firstn (PyQueue.maxsize - List.length (_queue a)) rs.
Proof.
  intros rs a Hle. rewrite push_results_queue. split; [|reflexivity].
  rewrite length_app, length_firstn. lia.
Qed.

Lemma push_results_keeps_oldest_witness :
  List.length (_queue (init "stockfish" 18%Z)) <= PyQueue.maxsize
  /\ List.length (_queue (push_results (results_upto 70) (init "stockfish" 18%Z)))
     = 64
  /\ _queue (push_results (results_upto 70) (init "stockfish" 18%Z))
     = results_upto 64.
Proof.
  assert (H : List.length (_queue (init "stockfish" 18%Z)) <= PyQueue.maxsize)
    by (vm_compute; lia).
  destruct (push_results_keeps_oldest (results_upto 70) (init "stockfish" 18%Z) H)
    as [H1 H2].
  split; [exact H|]. split.
  - rewrite H1. vm_compute. reflexivity.
  - rewrite H2. vm_compute. reflexivity.
Defined.

End QueueInvariants.

(** ** The classifier *)

Section ClassifierInvariants.

Local Open Scope string_scope.
Local Open Scope Z_scope.

Lemma tier_classify :
  forall loss,
    (loss <= 0 /\ tier (classify loss) = 0%nat)
    \/ (1 <= loss <= 10 /\ tier (classify loss) = 1%nat)
    \/ (11 <= loss <= 49 /\ tier (classify loss) = 2%nat)
    \/ (50 <= loss <= 99 /\ tier (classify loss) = 3%nat)
    \/ (100 <= loss <= 199 /\ tier (classify loss) = 4%nat)
    \/ (200 <= loss /\ tier (classify loss) = 5%nat).
Proof.
  intro loss.
  destruct (classify_cases loss) as [[H E]|[[H E]|[[H E]|[[H E]|[[H E]|[H E]]]]]];
    rewrite E;
    [left|right; left|right; right; left|right; right; right; left
     |right; right; right; right; left|right; right; right; right; right];
    (split; [exact H|reflexivity]).
Qed.

(** X4.  The label never gets better as the loss grows: a move that loses
    at least as much as another is in the same tier or a worse one. *)
Theorem classify_monotone :
  forall loss1 loss2,
    loss1 <= loss2 ->
    (tier (classify loss1) <= tier (classify loss2))%nat.
Proof.
  intros loss1 loss2 Hle.
  destruct (tier_classify loss1) as [[H1 E1]|[[H1 E1]|[[H1 E1]|[[H1 E1]|[[H1 E1]|[H1 E1]]]]]];
    destruct (tier_classify loss2) as [[H2 E2]|[[H2 E2]|[[H2 E2]|[[H2 E2]|[[H2 E2]|[H2 E2]]]]]];
    rewrite E1, E2; lia.
Qed.

Lemma classify_monotone_witness :
  49 <= 50 /\ (tier (classify 49) <= tier (classify 50))%nat.
Proof.
  split; [lia|]. apply classify_monotone. lia.
Defined.

(** X5.  The two sides are treated alike: negating both evaluations and
    giving the move to the other side yields the same loss, the same label and
    the same blunder flag. *)
Theorem classify_move_mirror :
  forall eval_before_cp eval_after_cp uci player_is_white,
    let c := classify_move eval_before_cp eval_after_cp uci player_is_white in
    let c' := classify_move (- eval_before_cp) (- eval_after_cp) uci
                (negb player_is_white) in
    cp_loss c' = cp_loss c /\ label c' = label c /\ is_blunder c' = is_blunder c.
Proof.
  intros b a uci w c c'. subst c c'. unfold classify_move. cbn.
  assert (E : (if negb w then - b - - a else - a - - b)
              = (if w then b - a else a - b)) by (destruct w; cbn; lia).
  rewrite E. repeat split.
Qed.

(** X6.  In the game layer the label of a player's move is fixed by the
    cached evaluation alone: the loss is twice that evaluation seen from the
    mover's side, floored at zero, so the move is a blunder exactly when the
    cached evaluation favours the mover by 100 centipawns or more, it is
    brilliant exactly when the evaluation does not favour the mover, and the
    move that was played has no part in it. *)
Theorem make_player_move_label_from_cache :
  forall uci uci' fen fen' g,
    let c := fst (Game._make_player_move uci fen g) in
    let s := score_cp (Game._analysis g) in
    let ahead := if Game._player_is_white g then s else - s in
    cp_loss c = Z.max 0 (2 * ahead)
    /\ (is_blunder c = true <-> 100 <= ahead)
    /\ (label c = "brilliant" <-> ahead <= 0)
    /\ label (fst (Game._make_player_move uci' fen' g)) = label c
    /\ cp_loss (fst (Game._make_player_move uci' fen' g)) = cp_loss c.
Proof.
  intros uci uci' fen fen' g c s ahead. subst c s ahead.
  unfold Game._make_player_move, classify_move. cbn [fst cp_loss label is_blunder].
  set (s := score_cp (Game._analysis g)).
  assert (E : (if Game._player_is_white g then s - - s else - s - s)
              = 2 * (if Game._player_is_white g then s else - s))
    by (destruct (Game._player_is_white g); lia).
  rewrite E. set (ahead := if Game._player_is_white g then s else - s).
  split; [reflexivity|]. split; [|split; [|split; reflexivity]].
  - unfold BLUNDER_THRESHOLD_CP. rewrite Z.geb_le. lia.
  - destruct (classify_cases (Z.max 0 (2 * ahead)))
      as [[H E']|[[H E']|[[H E']|[[H E']|[[H E']|[H E']]]]]];
      rewrite E'; split; intro H'; try discriminate H'; try lia; reflexivity.
Qed.

End ClassifierInvariants.

(** ** The handshake *)

Section HandshakeInvariants.

Local Open Scope string_scope.
Local Open Scope list_scope.
Local Open Scope Z_scope.

Lemma elapsed_nonneg : forall lines, causal lines = true -> 0 <= elapsed lines.
Proof.
  induction lines as [|[dt l] lines IH]; intro H; [cbn; lia|].
  unfold causal in H. cbn [forallb fst] in H.
  apply andb_true_iff in H. destruct H as [Hdt H].
  apply Z.leb_le in Hdt. specialize (IH H).
  change (elapsed ((dt, l) :: lines)) with (dt + elapsed lines). lia.
Qed.

Lemma elapsed_cons :
  forall dt l lines, elapsed ((dt, l) :: lines) = dt + elapsed lines.
Proof. reflexivity. Qed.

Lemma without_line_cons :
  forall expected dt l lines,
    without_line expected ((dt, l) :: lines) = true ->
    (PyStr.strip l =? expected)%string = false
    /\ without_line expected lines = true.
Proof.
  intros expected dt l lines H. unfold without_line in *. cbn [forallb snd] in H.
  apply andb_true_iff in H. destruct H as [Hl H].
  apply negb_true_iff in Hl. split; assumption.
Qed.

Lemma without_line_cons_intro :
  forall expected dt l lines,
    PyStr.strip l <> expected ->
    without_line expected lines = true ->
    without_line expected ((dt, l) :: lines) = true.
Proof.
  intros expected dt l lines Hne H. unfold without_line in *. cbn [forallb snd].
  apply String.eqb_neq in Hne. rewrite Hne, H. reflexivity.
Qed.

Lemma causal_cons :
  forall dt l lines,
    causal ((dt, l) :: lines) = true -> 0 <= dt /\ causal lines = true.
Proof.
  intros dt l lines H. unfold causal in *. cbn [forallb fst] in H.
  apply andb_true_iff in H. destruct H as [Hd H].
  apply Z.leb_le in Hd. split; assumption.
Qed.

(** X7.  A handshake wait finds the expected line when the reads before it
    end before the deadline, however long the read of the line itself takes:
    the clock is looked at before a read, never during it.  The wait ends at
    the time the line arrives and leaves the rest of the output unread. *)
Theorem wait_for_finds_line :
  forall expected deadline before now dt line rest e,
    without_line expected before = true ->
    causal before = true ->
    now + elapsed before < deadline ->
    PyStr.strip line = expected ->
    wait_for expected deadline now (before ++ (dt, line) :: rest) e
    = Found (now + elapsed before + dt) rest.
Proof.
  intros expected deadline before.
  induction before as [|[d l] before IH]; intros now dt line rest e Hno Hc Hlt Hline.
  - cbn in Hlt. cbn [app wait_for]. rewrite (proj2 (Z.ltb_lt _ _)) by lia.
    rewrite Hline, String.eqb_refl. f_equal. cbn. lia.
  - apply without_line_cons in Hno. destruct Hno as [Hl Hno].
    apply causal_cons in Hc. destruct Hc as [Hd Hc].
    pose proof (elapsed_nonneg _ Hc) as Hpos'.
    rewrite elapsed_cons in *.
    cbn [app wait_for]. rewrite (proj2 (Z.ltb_lt _ _)) by lia.
    rewrite Hl. rewrite IH by (assumption || lia). f_equal. lia.
Qed.

Lemma wait_for_finds_line_witness :
  wait_for "uciok" 5000 0
    [(40, "id name Stockfish 16"); (5, "option name Hash type spin");
     (9000, "uciok"); (1, "readyok")] Silent
  = Found 9045 [(1, "readyok")].
Proof.
  apply (wait_for_finds_line "uciok" 5000
           [(40, "id name Stockfish 16"); (5, "option name Hash type spin")]
           0 9000 "uciok" [(1, "readyok")] Silent);
    vm_compute; reflexivity.
Defined.

(** X8.  How a handshake wait can end.  It ends on [Found] only by reading
    the expected line, every line before it read and passed over; it ends on a
    timeout only with the clock at the deadline or past it, with no line read
    that was the expected one. *)
Theorem wait_for_ends :
  forall expected deadline lines now e,
    (forall t rest,
        wait_for expected deadline now lines e = Found t rest ->
        exists before dt line,
          lines = before ++ (dt, line) :: rest
          /\ without_line expected before = true
          /\ PyStr.strip line = expected
          /\ t = now + elapsed before + dt)
    /\ (forall t rest,
           wait_for expected deadline now lines e = TimedOut t rest ->
           deadline <= t
           /\ exists before,
               lines = before ++ rest /\ without_line expected before = true).
Proof.
  intros expected deadline lines.
  induction lines as [|[d l] lines IH]; intros now e; split; intros t rest H;
    cbn [wait_for] in H.
  - destruct (now <? deadline); [destruct e|]; discriminate.
  - destruct (Z.ltb_spec now deadline) as [Hlt|Hge].
    + destruct e; [|discriminate]. inversion H; subst.
      split; [lia|]. exists []. split; reflexivity.
    + inversion H; subst. split; [exact Hge|]. exists []. split; reflexivity.
  - destruct (now <? deadline); [|discriminate].
    destruct (String.eqb_spec (PyStr.strip l) expected) as [Heq|Hne].
    + inversion H; subst. exists [], d, l. repeat split. cbn. lia.
    + destruct (proj1 (IH (now + d) e) _ _ H) as (before & dt & line & E & Hno & Hl & Ht).
      exists ((d, l) :: before), dt, line. subst lines. repeat split.
      * apply without_line_cons_intro; assumption.
      * exact Hl.
      * rewrite elapsed_cons. lia.
  - destruct (Z.ltb_spec now deadline) as [Hlt|Hge].
    + destruct (String.eqb_spec (PyStr.strip l) expected) as [Heq|Hne];
        [discriminate|].
      destruct (proj2 (IH (now + d) e) _ _ H) as (Hd & before & E & Hno).
      split; [exact Hd|]. exists ((d, l) :: before). subst lines. split; [reflexivity|].
      apply without_line_cons_intro; assumption.
    + inversion H; subst. split; [exact Hge|]. exists []. split; reflexivity.
Qed.

Lemma wait_for_ends_witness :
  5000 <= 6020
  /\ exists before,
      [(3000, "info string loading"); (3000, "info string loading");
       (3000, "info string loading")]
      = before ++ [(3000, "info string loading")]
      /\ without_line "readyok" before = true.
Proof.
  apply (proj2 (wait_for_ends "readyok" 5000
                  [(3000, "info string loading"); (3000, "info string loading");
                   (3000, "info string loading")] 20 Eof)).
  vm_compute. reflexivity.
Defined.

Lemma wait_for_stuck :
  forall expected deadline lines now,
    without_line expected lines = true ->
    causal lines = true ->
    now + elapsed lines < deadline ->
    wait_for expected deadline now lines Silent = Stuck.
Proof.
  intros expected deadline lines.
  induction lines as [|[d l] lines IH]; intros now Hno Hc Hlt.
  - cbn in Hlt. cbn [wait_for]. rewrite (proj2 (Z.ltb_lt _ _)) by lia. reflexivity.
  - apply without_line_cons in Hno. destruct Hno as [Hl Hno].
    apply causal_cons in Hc. destruct Hc as [Hd Hc].
    pose proof (elapsed_nonneg _ Hc) as Hpos.
    rewrite elapsed_cons in Hlt.
    cbn [wait_for]. rewrite (proj2 (Z.ltb_lt _ _)) by lia.
    rewrite Hl. apply IH; (assumption || lia).
Qed.

(** X9.  When the wait for [uciok] times out, [start] kills and drops the
    process and returns [False]; it leaves [_available] as it was and starts
    no worker. *)
Theorem start_fails_on_uciok_timeout :
  forall popen now a p t rest,
    popen (_path a) = Ok p ->
    stdin_broken p = false ->
    wait_for "uciok" (now + HANDSHAKE_TIMEOUT) now (stdout p) (stdout_end p)
    = TimedOut t rest ->
    exists a',
      start popen now a = Returns (false, a')
      /\ _process a' = None
      /\ _available a' = _available a
      /\ _running a' = _running a
      /\ _thread a' = _thread a.
Proof.
  intros popen now a p t rest Hpopen Hpipe Huci.
  unfold start. rewrite Hpopen.
  unfold _send. cbn [_process with_process]. rewrite Hpipe.
  unfold await. cbn [_process with_process stdout stdout_end]. rewrite Huci.
  eexists. split; [reflexivity|]. repeat split.
Qed.

Lemma start_fails_on_uciok_timeout_witness :
  exists a',
    start (fun _ => Ok {| stdout := [(2500, "Stockfish 16 by the Stockfish developers");
                                    (2500, "id name Stockfish 16")];
                          stdout_end := Silent; stdin := [];
                          stdin_broken := false |})
      0 (init "stockfish" 18)
    = Returns (false, a')
    /\ _process a' = None
    /\ _available a' = _available (init "stockfish" 18)
    /\ _running a' = _running (init "stockfish" 18)
    /\ _thread a' = _thread (init "stockfish" 18).
Proof.
  apply (start_fails_on_uciok_timeout _ 0 (init "stockfish" 18)
           {| stdout := [(2500, "Stockfish 16 by the Stockfish developers");
                         (2500, "id name Stockfish 16")];
              stdout_end := Silent; stdin := []; stdin_broken := false |}
           5000 []);
    vm_compute; reflexivity.
Defined.

(** X10.  [start] has no way out of a read that does not return: with an
    engine that is alive, has not printed [uciok] and prints nothing more
    before the deadline, [start] never returns. *)
Theorem start_blocks_on_silent_engine :
  forall popen now a p,
    popen (_path a) = Ok p ->
    stdin_broken p = false ->
    stdout_end p = Silent ->
    without_line "uciok" (stdout p) = true ->
    causal (stdout p) = true ->
    elapsed (stdout p) < HANDSHAKE_TIMEOUT ->
    start popen now a = Blocks.
Proof.
  intros popen now a p Hpopen Hpipe Hend Hno Hc Hlt.
  unfold start. rewrite Hpopen.
  unfold _send. cbn [_process with_process]. rewrite Hpipe.
  unfold await. cbn [_process with_process stdout stdout_end]. rewrite Hend.
  rewrite wait_for_stuck by (assumption || lia). reflexivity.
Qed.

Lemma start_blocks_on_silent_engine_witness :
  start (fun _ => Ok {| stdout := [(30, "Stockfish 16 by the Stockfish developers")];
                        stdout_end := Silent; stdin := [];
                        stdin_broken := false |})
    0 (init "stockfish" 18)
  = Blocks.
Proof.
  apply (start_blocks_on_silent_engine _ 0 (init "stockfish" 18)
           {| stdout := [(30, "Stockfish 16 by the Stockfish developers")];
              stdout_end := Silent; stdin := []; stdin_broken := false |});
    vm_compute; reflexivity.
Defined.

(** X11.  With an engine that prints [uciok] and then [readyok], each
    after lines that take less than five seconds to read, [start] returns
    [True]: the analyzer is available, the worker is started, the commands
    written are [uci] and [isready] in that order, and the output after
    [readyok] is left for the worker. *)
Theorem start_succeeds_on_handshake :
  forall popen now a p before1 d1 l1 before2 d2 l2 rest,
    popen (_path a) = Ok p ->
    stdin_broken p = false ->
    stdout p = before1 ++ (d1, l1) :: before2 ++ (d2, l2) :: rest ->
    without_line "uciok" before1 = true ->
    causal before1 = true ->
    elapsed before1 < HANDSHAKE_TIMEOUT ->
    PyStr.strip l1 = "uciok" ->
    without_line "readyok" before2 = true ->
    causal before2 = true ->
    elapsed before2 < HANDSHAKE_TIMEOUT ->
    PyStr.strip l2 = "readyok" ->
    exists a' p',
      start popen now a = Returns (true, a')
      /\ is_available a' = true
      /\ _running a' = true
      /\ _thread a' = true
      /\ _process a' = Some p'
      /\ stdin p' = stdin p ++ ["uci"; "isready"]
      /\ stdout p' = rest.
Proof.
  intros popen now a p before1 d1 l1 before2 d2 l2 rest
    Hpopen Hpipe Hout Hno1 Hc1 Hlt1 Hl1 Hno2 Hc2 Hlt2 Hl2.
  unfold start. rewrite Hpopen.
  unfold _send. cbn [_process with_process]. rewrite Hpipe.
  unfold await. cbn [_process with_process stdout stdout_end]. rewrite Hout.
  rewrite (wait_for_finds_line "uciok" (now + HANDSHAKE_TIMEOUT) before1 now d1 l1)
    by (assumption || lia).
  unfold with_stdout. cbn [_process with_process stdout stdout_end stdin stdin_broken].
  rewrite (wait_for_finds_line "readyok" _ before2 _ d2 l2)
    by (assumption || lia).
  cbn [_process with_process stdout stdout_end stdin stdin_broken].
  eexists. eexists. split; [reflexivity|].
  cbn. repeat split. rewrite <- app_assoc. reflexivity.
Qed.

Lemma start_succeeds_on_handshake_witness :
  exists a' p',
    start (fun _ => Ok {| stdout := [(20, "id name Stockfish 16"); (1, "uciok");
                                    (300, "readyok"); (15, "info string ready")];
                          stdout_end := Silent; stdin := [];
                          stdin_broken := false |})
      0 (init "stockfish" 18)
    = Returns (true, a')
    /\ is_available a' = true
    /\ _running a' = true
    /\ _thread a' = true
    /\ _process a' = Some p'
    /\ stdin p' = [] ++ ["uci"; "isready"]
    /\ stdout p' = [(15, "info string ready")].
Proof.
  apply (start_succeeds_on_handshake _ 0 (init "stockfish" 18)
           {| stdout := [(20, "id name Stockfish 16"); (1, "uciok");
                         (300, "readyok"); (15, "info string ready")];
              stdout_end := Silent; stdin := []; stdin_broken := false |}
           [(20, "id name Stockfish 16")] 1 "uciok" [] 300 "readyok"
           [(15, "info string ready")]);
    vm_compute; reflexivity.
Defined.

End HandshakeInvariants.

(** ** The worker loop *)

Section WorkerInvariants.

Import PyStr Worker WorkerLines.
Local Open Scope nat_scope.
Local Open Scope string_scope.
Local Open Scope list_scope.

(** *** The heap *)

Lemma deref_alloc_new :
  forall r h, deref (snd (alloc r h)) (fst (alloc r h)) = r.
Proof.
  intros r h. unfold alloc, deref. cbn [fst snd].
  rewrite app_nth2 by lia. rewrite Nat.sub_diag. reflexivity.
Qed.

Lemma deref_alloc_old :
  forall r h p, p < List.length h -> deref (snd (alloc r h)) p = deref h p.
Proof.
  intros r h p Hp. unfold alloc, deref. cbn [snd]. apply app_nth1. exact Hp.
Qed.

Lemma assign_best_move_length :
  forall h p m, List.length (assign_best_move p m h) = List.length h.
Proof.
  induction h as [|r h IH]; intros [|p] m; cbn; try reflexivity.
  rewrite IH. reflexivity.
Qed.

Lemma deref_assign_same :
  forall h p m,
    p < List.length h ->
    deref (assign_best_move p m h) p = set_best_move m (deref h p).
Proof.
  induction h as [|r h IH]; intros [|p] m Hp; cbn in Hp; try lia.
  - reflexivity.
  - unfold deref in *. cbn. apply IH. lia.
Qed.

Lemma deref_assign_other :
  forall h p q m, p <> q -> deref (assign_best_move p m h) q = deref h q.
Proof.
  induction h as [|r h IH]; intros [|p] [|q] m Hne; cbn; try reflexivity;
    try congruence.
  unfold deref in *. cbn. apply IH. congruence.
Qed.

(** *** One line of output *)

Lemma kind_cases :
  forall raw,
    let line := strip raw in
    (kind raw = Blank /\ (line =? "") = true)
    \/ (kind raw = Info /\ (line =? "") = false
        /\ String.prefix "info depth" line = true)
    \/ (kind raw = Bestmove /\ (line =? "") = false
        /\ String.prefix "info depth" line = false
        /\ String.prefix "bestmove" line = true)
    \/ (kind raw = Other /\ (line =? "") = false
        /\ String.prefix "info depth" line = false
        /\ String.prefix "bestmove" line = false).
Proof.
  intros raw line. unfold kind. fold line.
  destruct (line =? ""); [left; split; reflexivity|right].
  destruct (String.prefix "info depth" line); [left; repeat split|right].
  destruct (String.prefix "bestmove" line); [left|right]; repeat split.
Qed.

Lemma read_search_skip :
  forall d raw rest result s,
    kind raw = Blank \/ kind raw = Other ->
    read_search ((d, raw) :: rest) result s = read_search rest result s.
Proof.
  intros d raw rest result s Hk. cbn [read_search].
  destruct (kind_cases raw) as [[K E]|[[K (E & E1)]|[[K (E & E1 & E2)]|[K (E & E1 & E2)]]]];
    rewrite K in Hk; destruct Hk as [Hk|Hk]; try discriminate Hk;
    rewrite E; try reflexivity.
  rewrite E1, E2. reflexivity.
Qed.

Lemma read_search_info :
  forall d raw rest result s,
    kind raw = Info ->
    read_search ((d, raw) :: rest) result s
    = match Parser._parse_info (strip raw) with
      | Raise e => Died e (with_analyzer (with_stdout rest (analyzer s)) s)
      | Ok r =>
          read_search rest (fst (alloc r (objects s)))
            (push (fst (alloc r (objects s)))
               (with_objects (snd (alloc r (objects s))) s))
      end.
Proof.
  intros d raw rest result s Hk. cbn [read_search].
  destruct (kind_cases raw) as [[K E]|[[K (E & E1)]|[[K (E & E1 & E2)]|[K (E & E1 & E2)]]]];
    rewrite K in Hk; try discriminate Hk.
  rewrite E, E1. reflexivity.
Qed.

Lemma read_search_bestmove :
  forall d raw rest result s,
    kind raw = Bestmove ->
    read_search ((d, raw) :: rest) result s
    = let tokens := split (strip raw) in
      let s1 :=
        if (2 <=? List.length tokens)%nat
        then with_objects
               (assign_best_move result (nth 1 tokens "") (objects s)) s
        else s in
      Finished (with_analyzer (with_stdout rest (analyzer s1)) (push result s1)).
Proof.
  intros d raw rest result s Hk. cbn [read_search].
  destruct (kind_cases raw) as [[K E]|[[K (E & E1)]|[[K (E & E1 & E2)]|[K (E & E1 & E2)]]]];
    rewrite K in Hk; try discriminate Hk.
  rewrite E, E1, E2. reflexivity.
Qed.

Lemma push_analyzer : forall p s, analyzer (push p s) = analyzer s.
Proof. intros p s. unfold push. destruct (_ <=? _)%nat; reflexivity. Qed.

Lemma push_objects : forall p s, objects (push p s) = objects s.
Proof. intros p s. unfold push. destruct (_ <=? _)%nat; reflexivity. Qed.

Lemma push_queued_room :
  forall p s,
    List.length (queued s) < PyQueue.maxsize ->
    queued (push p s) = queued s ++ [p].
Proof.
  intros p s H. unfold push.
  destruct (Nat.leb_spec PyQueue.maxsize (List.length (queued s))); [lia|reflexivity].
Qed.

Lemma push_queued_length :
  forall p s,
    List.length (queued s) <= List.length (queued (push p s))
    /\ List.length (queued (push p s)) <= S (List.length (queued s))
    /\ (List.length (queued s) <= PyQueue.maxsize ->
        List.length (queued (push p s)) <= PyQueue.maxsize).
Proof.
  intros p s. unfold push.
  destruct (Nat.leb_spec PyQueue.maxsize (List.length (queued s)));
    cbn [queued]; rewrite ?length_app; cbn [List.length]; lia.
Qed.

(** *** A run of lines before the [bestmove] line *)

Lemma readable_cons :
  forall d raw lines,
    readable ((d, raw) :: lines) = true ->
    kind raw <> Bestmove
    /\ (kind raw = Info -> exists r, Parser._parse_info (strip raw) = Ok r)
    /\ readable lines = true.
Proof.
  intros d raw lines H. unfold readable in *. cbn [forallb snd] in H.
  apply andb_true_iff in H. destruct H as [Hk H].
  split; [|split; [|exact H]].
  - intro K. rewrite K in Hk. discriminate.
  - intro K. rewrite K in Hk.
    destruct (Parser._parse_info (strip raw)) as [r|e]; [eauto|discriminate].
Qed.

Lemma count_info_cons :
  forall d raw lines,
    count_info ((d, raw) :: lines)
    = (match kind raw with Info => 1 | _ => 0 end) + count_info lines.
Proof.
  intros d raw lines. unfold count_info. cbn [filter snd].
  destruct (kind raw); reflexivity.
Qed.

(** Reading a readable run: the loop goes on with what follows, [result]
    holding what the last [info depth] line of the run parsed to, and the
    queue longer by at most one address for each such line. *)
Lemma read_search_readable :
  forall before result s,
    readable before = true ->
    result < List.length (objects s) ->
    exists result' s',
      (forall tail,
          read_search (before ++ tail) result s = read_search tail result' s')
      /\ analyzer s' = analyzer s
      /\ result' < List.length (objects s')
      /\ deref (objects s') result'
         = last_info before (deref (objects s) result)
      /\ List.length (queued s') <= List.length (queued s) + count_info before
      /\ List.length (queued s) <= List.length (queued s').
Proof.
  induction before as [|[d raw] before IH]; intros result s Hr Hres.
  - exists result, s. cbn. repeat split; try reflexivity; try assumption; lia.
  - apply readable_cons in Hr. destruct Hr as (Hnb & Hinfo & Hr).
    cbn [app last_info]. rewrite count_info_cons.
    destruct (kind raw) eqn:K.
    + destruct (IH result s Hr Hres) as (result' & s' & H1 & H2 & H3 & H4 & H5 & H6).
      exists result', s'. split.
      { intro tail. rewrite read_search_skip by (left; exact K). apply H1. }
      repeat split; try assumption; try lia.
    + destruct (Hinfo eq_refl) as [r Hparse]. rewrite Hparse.
      set (p := fst (alloc r (objects s))).
      set (s1 := push p (with_objects (snd (alloc r (objects s))) s)).
      assert (Hp : p < List.length (objects s1)).
      { subst s1 p. rewrite push_objects. cbn. rewrite length_app. cbn. lia. }
      destruct (IH p s1 Hr Hp) as (result' & s' & H1 & H2 & H3 & H4 & H5 & H6).
      exists result', s'.
      assert (Hd : deref (objects s1) p = r).
      { subst s1 p. rewrite push_objects. apply deref_alloc_new. }
      assert (Hq := push_queued_length p (with_objects (snd (alloc r (objects s))) s)).
      cbn [queued with_objects] in Hq. fold s1 in Hq.
      split.
      { intro tail. rewrite read_search_info by exact K. rewrite Hparse. apply H1. }
      split.
      { rewrite H2. subst s1. rewrite push_analyzer. reflexivity. }
      split; [exact H3|]. split; [rewrite H4, Hd; reflexivity|].
      split; lia.
    + contradiction Hnb. reflexivity.
    + destruct (IH result s Hr Hres) as (result' & s' & H1 & H2 & H3 & H4 & H5 & H6).
      exists result', s'. split.
      { intro tail. rewrite read_search_skip by (right; exact K). apply H1. }
      repeat split; try assumption; try lia.
Qed.

Lemma last_map_snoc :
  forall (f : nat -> AnalysisResult) l p d, last (map f (l ++ [p])) d = f p.
Proof.
  intros f l p d. rewrite map_app. cbn [map]. apply last_last.
Qed.

(** X12.  When the output of a search is a run of lines without a
    [bestmove] line, whose [info depth] lines all parse, then a line
    [bestmove m ...], and the queue has room, the read loop ends on that line
    and what [get_latest] then returns is what the last [info depth] line
    parsed to (the default result when there was none) with its best move
    set to [m]; the lines after the [bestmove] line stay unread. *)
Theorem search_ends_with_last_info_and_bestmove :
  forall before d raw first m more rest result s,
    readable before = true ->
    kind raw = Bestmove ->
    split (strip raw) = first :: m :: more ->
    result < List.length (objects s) ->
    List.length (queued s) + count_info before < PyQueue.maxsize ->
    exists s',
      read_search (before ++ (d, raw) :: rest) result s = Finished s'
      /\ fst (get_latest (observe s'))
         = set_best_move m (last_info before (deref (objects s) result))
      /\ analyzer s' = with_stdout rest (analyzer s).
Proof.
  intros before d raw first m more rest result s Hr Hk Hsplit Hres Hroom.
  destruct (read_search_readable before result s Hr Hres)
    as (result' & s1 & H1 & H2 & H3 & H4 & H5 & H6).
  rewrite H1, read_search_bestmove by exact Hk.
  rewrite Hsplit. cbn [List.length Nat.leb nth].
  eexists. split; [reflexivity|]. split.
  - unfold observe, get_latest. cbn [fst _queue with_queue analyzer].
    rewrite drain_last. cbn [queued objects with_analyzer].
    rewrite push_queued_room by (cbn [queued with_objects]; lia).
    rewrite push_objects. cbn [queued objects with_objects].
    rewrite last_map_snoc, deref_assign_same by exact H3.
    rewrite H4. reflexivity.
  - cbn [analyzer with_analyzer with_objects]. rewrite H2. reflexivity.
Qed.

Lemma search_ends_with_last_info_and_bestmove_witness :
  exists s',
    read_search
      ([(120%Z, "info depth 9 score cp 30 pv e2e4 e7e5");
        (0%Z, "");
        (140%Z, "info string hash up");
        (160%Z, "info depth 10 score cp 34 pv d2d4 d7d5")]
       ++ (5%Z, "bestmove g1f3 ponder g8f6") :: [(900%Z, "info string idle")])
      0 (with_objects [AnalysisResult_default] (fresh (init "stockfish" 18%Z)))
    = Finished s'
    /\ fst (get_latest (observe s'))
       = set_best_move "g1f3"
           {| depth := 10%Z; score_cp := 34%Z; score_mate := None;
              best_move := "d2d4"; pv := ["d2d4"; "d7d5"];
              nodes := 0%Z; nps := 0%Z; is_mate := false |}.
Proof.
  destruct (search_ends_with_last_info_and_bestmove
              [(120%Z, "info depth 9 score cp 30 pv e2e4 e7e5");
               (0%Z, "");
               (140%Z, "info string hash up");
               (160%Z, "info depth 10 score cp 34 pv d2d4 d7d5")]
              5%Z "bestmove g1f3 ponder g8f6" "bestmove" "g1f3" ["ponder"; "g8f6"]
              [(900%Z, "info string idle")] 0
              (with_objects [AnalysisResult_default] (fresh (init "stockfish" 18%Z))))
    as (s' & H1 & H2 & _);
    try (vm_compute; reflexivity); try (vm_compute; lia).
  exists s'. split; [exact H1|]. rewrite H2. vm_compute. reflexivity.
Defined.

(** X13.  The result an [info depth] line created and the result finalised
    by the [bestmove] line that follows it are one object: the loop queues its
    address a second time, and the best move of the object already queued (or
    already handed out by [get_latest]) changes to the move of the [bestmove]
    line. *)
Theorem bestmove_rewrites_queued_result :
  forall before d1 info r d2 raw first m more result s,
    readable before = true ->
    kind info = Info ->
    Parser._parse_info (strip info) = Ok r ->
    kind raw = Bestmove ->
    split (strip raw) = first :: m :: more ->
    result < List.length (objects s) ->
    List.length (queued s) + count_info before + 1 < PyQueue.maxsize ->
    exists s1 s2 p front,
      read_search (before ++ [(d1, info)]) result s = Starved s1 p
      /\ read_search (before ++ [(d1, info); (d2, raw)]) result s = Finished s2
      /\ queued s1 = front ++ [p]
      /\ queued s2 = front ++ [p; p]
      /\ deref (objects s1) p = r
      /\ deref (objects s2) p = set_best_move m r.
Proof.
  intros before d1 info r d2 raw first m more result s
    Hr Hki Hparse Hkb Hsplit Hres Hroom.
  destruct (read_search_readable before result s Hr Hres)
    as (res1 & sa & H1 & _ & _ & _ & H5 & _).
  rewrite !H1.
  rewrite !read_search_info by exact Hki. rewrite Hparse.
  rewrite read_search_bestmove by exact Hkb. rewrite Hsplit.
  cbn [read_search List.length Nat.leb nth].
  pose (p := fst (alloc r (objects sa))).
  pose (sa1 := push p (with_objects (snd (alloc r (objects sa))) sa)).
  assert (Hq1 : queued sa1 = queued sa ++ [p]).
  { subst sa1. rewrite push_queued_room by (cbn [queued with_objects]; lia).
    reflexivity. }
  assert (Ho1 : objects sa1 = objects sa ++ [r]).
  { subst sa1. rewrite push_objects. reflexivity. }
  assert (Hp : p < List.length (objects sa1)).
  { rewrite Ho1, length_app. subst p. cbn. lia. }
  assert (Hd1 : deref (objects sa1) p = r).
  { subst sa1 p. rewrite push_objects. apply deref_alloc_new. }
  eexists. eexists. exists p, (queued sa).
  split; [reflexivity|]. split; [reflexivity|].
  cbn [queued objects with_analyzer]. fold p. fold sa1.
  split; [exact Hq1|]. split.
  - rewrite push_queued_room
      by (cbn [queued with_objects]; rewrite Hq1, length_app; cbn; lia).
    cbn [queued with_objects]. rewrite Hq1, <- app_assoc. reflexivity.
  - split; [exact Hd1|].
    rewrite push_objects. cbn [objects with_objects].
    rewrite deref_assign_same by exact Hp. rewrite Hd1. reflexivity.
Qed.

Lemma bestmove_rewrites_queued_result_witness :
  exists s1 s2 p front,
    read_search ([] ++ [(160%Z, "info depth 10 score cp 34 pv e2e4 e7e5")]) 0
      (with_objects [AnalysisResult_default] (fresh (init "stockfish" 18%Z)))
    = Starved s1 p
    /\ read_search
         ([] ++ [(160%Z, "info depth 10 score cp 34 pv e2e4 e7e5");
                 (5%Z, "bestmove d2d4 ponder d7d5")]) 0
         (with_objects [AnalysisResult_default] (fresh (init "stockfish" 18%Z)))
       = Finished s2
    /\ queued s1 = front ++ [p]
    /\ queued s2 = front ++ [p; p]
    /\ deref (objects s1) p
       = {| depth := 10%Z; score_cp := 34%Z; score_mate := None;
            best_move := "e2e4"; pv := ["e2e4"; "e7e5"];
            nodes := 0%Z; nps := 0%Z; is_mate := false |}
    /\ deref (objects s2) p
       = set_best_move "d2d4"
           {| depth := 10%Z; score_cp := 34%Z; score_mate := None;
              best_move := "e2e4"; pv := ["e2e4"; "e7e5"];
              nodes := 0%Z; nps := 0%Z; is_mate := false |}.
Proof.
  apply (bestmove_rewrites_queued_result [] 160%Z
           "info depth 10 score cp 34 pv e2e4 e7e5" _ 5%Z
           "bestmove d2d4 ponder d7d5" "bestmove" "d2d4" ["ponder"; "d7d5"] 0
           (with_objects [AnalysisResult_default] (fresh (init "stockfish" 18%Z))));
    try (vm_compute; reflexivity); vm_compute; lia.
Defined.

(** X14.  Nothing catches what the parser raises: an [info depth] line
    with a value that is not an integer ends the read loop, and the worker
    thread with it, on [ValueError]; the lines after it are never read. *)
Theorem malformed_info_line_ends_worker :
  forall before d raw rest result s e,
    readable before = true ->
    kind raw = Info ->
    Parser._parse_info (strip raw) = Raise e ->
    result < List.length (objects s) ->
    exists s',
      read_search (before ++ (d, raw) :: rest) result s = Died e s'
      /\ e = ValueError
      /\ analyzer s' = with_stdout rest (analyzer s)
      /\ List.length (queued s') <= List.length (queued s) + count_info before.
Proof.
  intros before d raw rest result s e Hr Hk Hparse Hres.
  destruct (read_search_readable before result s Hr Hres)
    as (result' & s1 & H1 & H2 & _ & _ & H5 & _).
  rewrite H1, read_search_info by exact Hk. rewrite Hparse.
  eexists. split; [reflexivity|]. split.
  - rewrite ParserFacts.parse_info_tokens in Hparse.
    eapply ParserFacts.parse_tokens_raises. exact Hparse.
  - cbn [analyzer queued with_analyzer]. rewrite H2. split; [reflexivity|exact H5].
Qed.

Lemma malformed_info_line_ends_worker_witness :
  exists s',
    read_search
      ([(100%Z, "info depth 9 score cp 30 pv e2e4")]
       ++ (100%Z, "info depth 10 score cp none") :: [(5%Z, "bestmove e2e4")])
      0 (with_objects [AnalysisResult_default] (fresh (init "stockfish" 18%Z)))
    = Died ValueError s'
    /\ ValueError = ValueError
    /\ analyzer s'
       = with_stdout [(5%Z, "bestmove e2e4")] (init "stockfish" 18%Z)
    /\ List.length (queued s') <= 0 + 1.
Proof.
  apply (malformed_info_line_ends_worker
           [(100%Z, "info depth 9 score cp 30 pv e2e4")] 100%Z
           "info depth 10 score cp none" [(5%Z, "bestmove e2e4")] 0
           (with_objects [AnalysisResult_default] (fresh (init "stockfish" 18%Z)))
           ValueError);
    try (vm_compute; reflexivity); vm_compute; lia.
Defined.

(** X15.  The read loop is left only on a [bestmove] line or on an
    exception: on output without such a line it reads everything and is still
    reading at the end, also when the engine has exited. *)
Theorem search_needs_bestmove :
  forall lines result s,
    no_bestmove lines = true ->
    (exists s' p,
        read_search lines result s = Starved s' p
        /\ analyzer s' = with_stdout [] (analyzer s))
    \/ (exists e s', read_search lines result s = Died e s').
Proof.
  induction lines as [|[d raw] lines IH]; intros result s Hno.
  - left. eexists. eexists. split; reflexivity.
  - unfold no_bestmove in Hno. cbn [forallb snd] in Hno.
    apply andb_true_iff in Hno. destruct Hno as [Hk Hno].
    destruct (kind raw) eqn:K; try discriminate Hk.
    + rewrite read_search_skip by (left; exact K). apply IH. exact Hno.
    + rewrite read_search_info by exact K.
      destruct (Parser._parse_info (strip raw)) as [r|e].
      * destruct (IH (fst (alloc r (objects s)))
                    (push (fst (alloc r (objects s)))
                       (with_objects (snd (alloc r (objects s))) s)) Hno)
          as [(s' & p & H1 & H2)|(e & s' & H1)].
        -- left. exists s', p. split; [exact H1|].
           rewrite H2, push_analyzer. reflexivity.
        -- right. exists e, s'. exact H1.
      * right. eexists. eexists. reflexivity.
    + rewrite read_search_skip by (right; exact K). apply IH. exact Hno.
Qed.

Lemma search_needs_bestmove_witness :
  (exists s' p,
      read_search [(100%Z, "info depth 9 score cp 30 pv e2e4"); (0%Z, "")] 0
        (with_objects [AnalysisResult_default] (fresh (init "stockfish" 18%Z)))
      = Starved s' p
      /\ analyzer s' = with_stdout [] (init "stockfish" 18%Z))
  \/ (exists e s',
         read_search [(100%Z, "info depth 9 score cp 30 pv e2e4"); (0%Z, "")] 0
           (with_objects [AnalysisResult_default] (fresh (init "stockfish" 18%Z)))
         = Died e s').
Proof.
  apply (search_needs_bestmove
           [(100%Z, "info depth 9 score cp 30 pv e2e4"); (0%Z, "")] 0
           (with_objects [AnalysisResult_default] (fresh (init "stockfish" 18%Z)))).
  vm_compute. reflexivity.
Defined.

(** *** One turn of the loop *)

Lemma with_stdout_frame :
  forall rest a,
    written (with_stdout rest a) = written a
    /\ _available (with_stdout rest a) = _available a
    /\ _new_position (with_stdout rest a) = _new_position a
    /\ _current_fen (with_stdout rest a) = _current_fen a
    /\ _running (with_stdout rest a) = _running a.
Proof.
  intros rest a. unfold with_stdout, written.
  destruct (_process a) eqn:E; cbn; rewrite ?E; repeat split.
Qed.

Lemma read_search_frame :
  forall lines result s,
    exists rest,
      analyzer (search_state (read_search lines result s))
      = with_stdout rest (analyzer s).
Proof.
  induction lines as [|[d raw] lines IH]; intros result s.
  - exists []. reflexivity.
  - destruct (kind raw) eqn:K.
    + rewrite read_search_skip by (left; exact K). apply IH.
    + rewrite read_search_info by exact K.
      destruct (Parser._parse_info (strip raw)) as [r|e].
      * destruct (IH (fst (alloc r (objects s)))
                    (push (fst (alloc r (objects s)))
                       (with_objects (snd (alloc r (objects s))) s)))
          as [rest H].
        exists rest. rewrite H, push_analyzer. reflexivity.
      * exists lines. reflexivity.
    + rewrite read_search_bestmove by exact K. exists lines.
      cbn [search_state analyzer with_analyzer].
      destruct (2 <=? _)%nat; reflexivity.
    + rewrite read_search_skip by (right; exact K). apply IH.
Qed.

Lemma send_frame :
  forall command a a',
    _send command a = Ok a' ->
    _available a' = _available a
    /\ _new_position a' = _new_position a
    /\ _current_fen a' = _current_fen a
    /\ _running a' = _running a
    /\ _depth a' = _depth a.
Proof.
  intros command a a' H. unfold _send in H.
  destruct (_process a) as [p|].
  - destruct (stdin_broken p); [discriminate|]. inversion H; subst. repeat split.
  - inversion H; subst. repeat split.
Qed.

(** A turn of the loop with the worker running and the pipe open: the
    three commands are written, a fresh result is created, and the read loop
    runs on the output of the process. *)
Lemma iteration_unfold :
  forall s p d,
    _running (analyzer s) = true ->
    _process (analyzer s) = Some p ->
    stdin_broken p = false ->
    PyFormat.str_int (_depth (analyzer s)) = Some d ->
    analysis_iteration s
    = match read_search (stdout p) (List.length (objects s))
              {| analyzer :=
                   with_process
                     (Some {| stdout := stdout p; stdout_end := stdout_end p;
                              stdin := ((stdin p ++ ["stop"])
                                          ++ [("position fen "
                                                 ++ _current_fen (analyzer s))%string])
                                         ++ [("go depth " ++ d)%string];
                              stdin_broken := false |})
                     (clear_new_position (analyzer s));
                 objects := objects s ++ [AnalysisResult_default];
                 queued := queued s |} with
      | Finished s' => Completed s'
      | Starved s' result' => Reading s' result'
      | Died e s' => Crashed e s'
      end.
Proof.
  intros s p d Hrun Hp Hpipe Hd.
  unfold analysis_iteration. rewrite Hrun. cbn [negb].
  unfold _send.
  cbn [clear_new_position _process with_process _current_fen _depth
       stdin stdout stdout_end stdin_broken].
  rewrite Hp, Hpipe.
  cbn [clear_new_position _process with_process _current_fen _depth
       stdin stdout stdout_end stdin_broken].
  rewrite Hd.
  cbn [clear_new_position _process with_process _current_fen _depth
       stdin stdout stdout_end stdin_broken alloc].
  reflexivity.
Qed.

(** X16.  One turn of the loop writes exactly three commands, [stop],
    [position fen F] and [go depth D], where [F] is the position of the
    latest [set_position]: a position set earlier and not yet read is never
    sent.  The turn leaves the new-position event clear. *)
Theorem iteration_sends_latest_position :
  forall s p d fenA fenB,
    _running (analyzer s) = true ->
    _process (analyzer s) = Some p ->
    stdin_broken p = false ->
    PyFormat.str_int (_depth (analyzer s)) = Some d ->
    let s' :=
      state_of
        (analysis_iteration
           (with_analyzer
              (set_position fenB (set_position fenA (analyzer s))) s)) in
    written (analyzer s')
    = stdin p ++ ["stop"; ("position fen " ++ fenB)%string;
                  ("go depth " ++ d)%string]
    /\ _new_position (analyzer s') = false
    /\ _current_fen (analyzer s') = fenB.
Proof.
  intros s p d fenA fenB Hrun Hp Hpipe Hd s'. subst s'.
  rewrite (iteration_unfold _ p d) by assumption.
  match goal with
  | |- context [read_search ?l ?r ?st] =>
      destruct (read_search_frame l r st) as [rest Hframe];
      destruct (read_search l r st) as [sf|sf pf|ef sf]
  end;
    cbn [search_state state_of] in *; rewrite Hframe;
    match goal with
    | |- context [with_stdout ?rr ?a] =>
        destruct (with_stdout_frame rr a) as (Hw & _ & Hn & Hf & _)
    end;
    rewrite Hw, Hn, Hf; cbn; rewrite <- !app_assoc; repeat split.
Qed.

Lemma iteration_sends_latest_position_witness :
  let s' :=
    state_of
      (analysis_iteration
         (with_analyzer
            (set_position "8/8/8/8/8/5k2/8/5K1R b - - 3 41"
               (set_position "8/8/8/8/8/4k3/8/5K1R w - - 2 41"
                  (with_worker_started
                     (with_process
                        (Some {| stdout := [(300%Z, "bestmove f3g3")];
                                 stdout_end := Silent;
                                 stdin := ["uci"; "isready"];
                                 stdin_broken := false |})
                        (init "stockfish" 18%Z)))))
            (fresh (init "stockfish" 18%Z)))) in
  written (analyzer s')
  = ["uci"; "isready"]
      ++ ["stop"; "position fen 8/8/8/8/8/5k2/8/5K1R b - - 3 41"; "go depth 18"]
  /\ _new_position (analyzer s') = false
  /\ _current_fen (analyzer s') = "8/8/8/8/8/5k2/8/5K1R b - - 3 41".
Proof.
  apply (iteration_sends_latest_position
           (with_analyzer
              (with_worker_started
                 (with_process
                    (Some {| stdout := [(300%Z, "bestmove f3g3")];
                             stdout_end := Silent;
                             stdin := ["uci"; "isready"];
                             stdin_broken := false |})
                    (init "stockfish" 18%Z)))
              (fresh (init "stockfish" 18%Z)))
           {| stdout := [(300%Z, "bestmove f3g3")]; stdout_end := Silent;
              stdin := ["uci"; "isready"]; stdin_broken := false |}
           "18"
           "8/8/8/8/8/4k3/8/5K1R w - - 2 41"
           "8/8/8/8/8/5k2/8/5K1R b - - 3 41");
    vm_compute; reflexivity.
Defined.

(** X17.  Apart from [start], nothing writes [_available]: a position
    update, a poll, a push, a kill, a shutdown that returns and a turn of the
    worker loop, however it ends, all leave it as it was.  An analyzer whose
    engine has died or whose worker has crashed still reports itself
    available. *)
Theorem only_start_writes_available :
  forall a fen r exits_in_time s,
    is_available (set_position fen a) = is_available a
    /\ is_available (snd (get_latest a)) = is_available a
    /\ is_available (push_result r a) = is_available a
    /\ is_available (_kill a) = is_available a
    /\ (forall a', stop exits_in_time a = Ok a' -> is_available a' = is_available a)
    /\ is_available (analyzer (state_of (analysis_iteration s)))
       = is_available (analyzer s).
Proof.
  intros a fen r exits_in_time s.
  split; [reflexivity|]. split; [reflexivity|].
  split; [unfold push_result; destruct (negb _); reflexivity|].
  split; [unfold _kill; destruct (_process a); reflexivity|].
  split.
  - intros a' H. unfold stop in H. cbn [with_stop_signalled _process] in H.
    destruct (_process a) as [p|] eqn:Ep.
    + destruct (_send "quit" (with_stop_signalled a)) as [a1|e] eqn:Es;
        [|discriminate].
      apply send_frame in Es. destruct Es as (Hav & _).
      inversion H; subst. unfold is_available.
      destruct exits_in_time.
      * rewrite Hav. reflexivity.
      * unfold _kill. destruct (_process a1); cbn; rewrite Hav; reflexivity.
    + inversion H; subst. reflexivity.
  - unfold is_available, analysis_iteration.
    destruct (_running (analyzer s)); cbn [negb]; [|reflexivity].
    destruct (_send "stop" (clear_new_position (analyzer s))) as [a1|e] eqn:E1;
      [|reflexivity].
    apply send_frame in E1. destruct E1 as (Hav1 & _ & Hfen1 & _).
    destruct (_send _ a1) as [a2|e] eqn:E2;
      [|cbn; rewrite Hav1; reflexivity].
    apply send_frame in E2. destruct E2 as (Hav2 & _).
    destruct (PyFormat.str_int (_depth a2)) as [d|];
      [|cbn; rewrite Hav2, Hav1; reflexivity].
    destruct (_send _ a2) as [a3|e] eqn:E3;
      [|cbn; rewrite Hav2, Hav1; reflexivity].
    apply send_frame in E3. destruct E3 as (Hav3 & _).
    cbn [alloc].
    destruct (_process a3) as [p3|];
      [|cbn; rewrite Hav3, Hav2, Hav1; reflexivity].
    match goal with
    | |- context [read_search ?l ?r ?st] =>
        destruct (read_search_frame l r st) as [rest Hframe];
        destruct (read_search l r st) as [sf|sf pf|ef sf]
    end;
      cbn [search_state state_of] in *; rewrite Hframe;
      match goal with
      | |- context [with_stdout ?rr ?x] =>
          destruct (with_stdout_frame rr x) as (_ & Hav & _)
      end;
      rewrite Hav; cbn; rewrite Hav3, Hav2, Hav1; reflexivity.
Qed.

Lemma only_start_writes_available_witness :
  exists a',
    stop false (with_worker_started
                  (with_process (Some engine_never_ready) (init "stockfish" 18%Z)))
    = Ok a'
    /\ _process a' = None
    /\ is_available a' = true.
Proof.
  eexists. split; [reflexivity|]. split; [reflexivity|].
  apply (proj1 (proj2 (proj2 (proj2 (proj2
           (only_start_writes_available
              (with_worker_started
                 (with_process (Some engine_never_ready) (init "stockfish" 18%Z)))
              "" AnalysisResult_default false
              (fresh (init "stockfish" 18%Z)))))))).
  reflexivity.
Defined.

End WorkerInvariants.

(** * Properties of the game layer *)

(** ** Player resources *)

Section ResourceInvariants.

Import Resources.
Local Open Scope Z_scope.

Lemma float_limit_regen : float_limit = 8 * 2 ^ 1021.
Proof. vm_compute. reflexivity. Qed.

(** Below [2 ^ 1021] the regeneration is a number that is not negative; from
    there on the product is infinite. *)
Lemma regen_amount_cases :
  forall multiplier,
    0 <= QArith_base.Qnum multiplier ->
    (QArith_base.Qlt multiplier (QArith_base.inject_Z (2 ^ 1021)) ->
     exists regen, regen_amount multiplier = Returned regen /\ 0 <= regen)
    /\ (QArith_base.Qle (QArith_base.inject_Z (2 ^ 1021)) multiplier ->
        regen_amount multiplier = OverflowError).
Proof.
  intros [n d] Hn. cbn [QArith_base.Qnum] in Hn.
  unfold QArith_base.Qlt, QArith_base.Qle, regen_amount, regen_overflows,
    FOCUS_REGEN_PER_TURN.
  cbn [QArith_base.Qnum QArith_base.Qden QArith_base.inject_Z].
  rewrite float_limit_regen.
  remember (2 ^ 1021) as K eqn:HK. clear HK.
  split; intro H.
  - destruct (Z.leb_spec (8 * K * Z.pos d) (Z.abs (8 * n))) as [Hle|Hgt];
      [lia|].
    eexists. split; [reflexivity|]. apply Z.quot_pos; lia.
  - destruct (Z.leb_spec (8 * K * Z.pos d) (Z.abs (8 * n))) as [Hle|Hgt];
      [reflexivity|lia].
Qed.

(** X18.  Every operation on the resources keeps the gauges within their
    bounds, for amounts and multipliers that are not negative: sanity between
    0 and its maximum, that maximum between 20 and 100, soul between 0 and
    its maximum of 100, focus between 0 and its maximum of 100.
    [regen_focus] does so for a multiplier below [2 ^ 1021]; from there on
    the product with 8 is infinite, [int] raises [OverflowError] and nothing
    is written. *)
Theorem resources_stay_within_bounds :
  forall r amount multiplier,
    gauges_in_range r ->
    0 <= amount ->
    0 <= QArith_base.Qnum multiplier ->
    gauges_in_range (drain_sanity amount r)
    /\ gauges_in_range (restore_sanity amount r)
    /\ gauges_in_range (drain_soul amount r)
    /\ gauges_in_range (restore_soul amount r)
    /\ gauges_in_range (apply_limbo_trauma r)
    /\ gauges_in_range (snd (spend_soul_for_rewind r))
    /\ gauges_in_range (snd (spend_focus amount r))
    /\ (QArith_base.Qlt multiplier (QArith_base.inject_Z (2 ^ 1021)) ->
        exists r', regen_focus multiplier r = Returned r' /\ gauges_in_range r')
    /\ (QArith_base.Qle (QArith_base.inject_Z (2 ^ 1021)) multiplier ->
        regen_focus multiplier r = OverflowError)
    /\ gauges_in_range (register_best_move r)
    /\ gauges_in_range (break_streak r).
Proof.
  intros r amount m Hb Ha Hm.
  destruct (regen_amount_cases m Hm) as [Hfinite Hinfinite].
  unfold gauges_in_range, within_bounds in *.
  destruct Hb as ((Hs & Hmax & Hsoul & Hfocus) & Hsmax & Hfmax).
  unfold MAX_SANITY, MAX_SOUL, MAX_FOCUS in *.
  assert (Hplain :
            forall r', soul_max r' = soul_max r -> focus_max r' = focus_max r ->
                       sanity_max r' = sanity_max r ->
                       0 <= sanity r' <= sanity_max r ->
                       0 <= soul r' <= soul_max r ->
                       0 <= focus r' <= focus_max r ->
                       (0 <= sanity r' <= sanity_max r'
                        /\ 20 <= sanity_max r' <= 100
                        /\ 0 <= soul r' <= soul_max r'
                        /\ 0 <= focus r' <= focus_max r')
                       /\ soul_max r' = 100 /\ focus_max r' = 100).
  { intros r' E1 E2 E3 B1 B2 B3. rewrite E1, E2, E3. repeat split; lia. }
  split; [apply Hplain; unfold drain_sanity; cbn; try reflexivity; lia|].
  split; [apply Hplain; unfold restore_sanity; cbn; try reflexivity; lia|].
  split; [apply Hplain; unfold drain_soul; cbn; try reflexivity; lia|].
  split; [apply Hplain; unfold restore_soul; cbn; try reflexivity; lia|].
  split.
  { unfold apply_limbo_trauma, SANITY_COST_LIMBO. cbn. repeat split; lia. }
  split.
  { unfold spend_soul_for_rewind, SOUL_COST_REWIND.
    destruct (Z.geb_spec (soul r) 25); cbn; repeat split; lia. }
  split.
  { unfold spend_focus.
    destruct (Z.geb_spec (focus r) amount); cbn; repeat split; lia. }
  split.
  { intro Hlt. destruct (Hfinite Hlt) as (regen & Hregen & Hpos).
    unfold regen_focus. rewrite Hregen. eexists. split; [reflexivity|].
    apply Hplain; cbn; try reflexivity; lia. }
  split.
  { intro Hge. unfold regen_focus. rewrite (Hinfinite Hge). reflexivity. }
  split.
  { unfold register_best_move.
    match goal with
    | |- context [if ?b then _ else _] => destruct b
    end; cbn; repeat split; lia. }
  unfold break_streak. cbn. repeat split; lia.
Qed.

Lemma resources_stay_within_bounds_witness :
  gauges_in_range fresh
  /\ gauges_in_range (drain_sanity 15 fresh)
  /\ gauges_in_range (apply_limbo_trauma fresh)
  /\ (exists r',
        regen_focus (QArith_base.Qmake 2 1) fresh = Returned r'
        /\ gauges_in_range r')
  /\ regen_focus (QArith_base.inject_Z (2 ^ 1021)) fresh = OverflowError.
Proof.
  assert (H : gauges_in_range fresh).
  { unfold gauges_in_range, within_bounds, fresh, MAX_SANITY, MAX_SOUL,
      MAX_FOCUS. cbn. repeat split; lia. }
  assert (Hlt : QArith_base.Qlt (QArith_base.Qmake 2 1)
                  (QArith_base.inject_Z (2 ^ 1021)))
    by (vm_compute; reflexivity).
  assert (Hge : QArith_base.Qle (QArith_base.inject_Z (2 ^ 1021))
                  (QArith_base.inject_Z (2 ^ 1021)))
    by (vm_compute; discriminate).
  assert (Hpos : 0 <= QArith_base.Qnum (QArith_base.inject_Z (2 ^ 1021)))
    by (vm_compute; discriminate).
  destruct (resources_stay_within_bounds fresh 15 (QArith_base.Qmake 2 1) H)
    as (H1 & _ & _ & _ & H5 & _ & _ & H8 & _); [lia|cbn; lia|].
  destruct (resources_stay_within_bounds fresh 15
              (QArith_base.inject_Z (2 ^ 1021)) H)
    as (_ & _ & _ & _ & _ & _ & _ & _ & H9 & _); [lia|exact Hpos|].
  split; [exact H|]. split; [exact H1|]. split; [exact H5|].
  split; [exact (H8 Hlt)|exact (H9 Hge)].
Defined.

(** X19.  Each Limbo visit takes 20 off the sanity ceiling until it
    reaches its floor of 20, where it stays; sanity is cut down to the
    ceiling, and the trauma and entry counters count the visits. *)
Theorem limbo_trauma_accumulates :
  forall k r,
    20 <= sanity_max r ->
    sanity r <= sanity_max r ->
    let r' := Nat.iter k apply_limbo_trauma r in
    sanity_max r' = Z.max 20 (sanity_max r - 20 * Z.of_nat k)
    /\ sanity r' = Z.min (sanity r) (sanity_max r')
    /\ trauma_stacks r' = trauma_stacks r + Z.of_nat k
    /\ limbo_entries r' = limbo_entries r + Z.of_nat k
    /\ soul r' = soul r /\ focus r' = focus r.
Proof.
  intros k r Hmax Hs. cbn zeta.
  induction k as [|k IH].
  - cbn [Nat.iter nat_rect]. repeat split; lia.
  - cbn [Nat.iter nat_rect]. fold (Nat.iter k apply_limbo_trauma r).
    destruct IH as (I1 & I2 & I3 & I4 & I5 & I6).
    remember (Nat.iter k apply_limbo_trauma r) as rk eqn:Erk. clear Erk.
    rewrite Nat2Z.inj_succ.
    unfold apply_limbo_trauma, SANITY_COST_LIMBO.
    cbn [sanity sanity_max soul focus trauma_stacks limbo_entries
         with_gauges with_limbo_stats].
    rewrite I1, I3, I4, I5, I6. rewrite I2, I1. repeat split; lia.
Qed.

Lemma limbo_trauma_accumulates_witness :
  sanity_max (Nat.iter 5 apply_limbo_trauma fresh) = 20
  /\ sanity (Nat.iter 5 apply_limbo_trauma fresh) = 20
  /\ trauma_stacks (Nat.iter 5 apply_limbo_trauma fresh) = 5.
Proof.
  destruct (limbo_trauma_accumulates 5 fresh) as (H1 & H2 & H3 & _);
    [unfold fresh, MAX_SANITY; cbn; lia|unfold fresh, MAX_SANITY; cbn; lia|].
  rewrite H2, H1, H3. repeat split.
Defined.

(** X20.  Flow state starts with the third best move in a row: after a
    broken streak, [k] best moves in a row, with no timer update between
    them, leave the streak at [k] and flow state on exactly when [k >= 3],
    with its timer set to the full duration. *)
Theorem flow_state_after_streak :
  forall k r,
    let r' := Nat.iter k register_best_move (break_streak r) in
    best_move_streak r' = Z.of_nat k
    /\ flow_state_active r' = (3 <=? Z.of_nat k)
    /\ flow_state_timer r'
       = (if 3 <=? Z.of_nat k then FLOW_STATE_DURATION else float_zero)
    /\ best_moves r' = best_moves r + Z.of_nat k
    /\ total_moves r' = total_moves r + Z.of_nat k.
Proof.
  intros k r. cbn zeta.
  induction k as [|k IH].
  - cbn. repeat split; lia.
  - cbn [Nat.iter nat_rect]. fold (Nat.iter k register_best_move (break_streak r)).
    destruct IH as (I1 & I2 & I3 & I4 & I5).
    remember (Nat.iter k register_best_move (break_streak r)) as rk eqn:Erk.
    clear Erk.
    rewrite Nat2Z.inj_succ.
    unfold register_best_move, FLOW_STATE_STREAK.
    cbn [best_move_streak flow_state_active with_counters with_flow].
    rewrite I1, I2.
    destruct (Z.geb_spec (Z.of_nat k + 1) 3) as [Hge|Hlt];
      destruct (Z.leb_spec 3 (Z.of_nat k)) as [Hk|Hk];
      destruct (Z.leb_spec 3 (Z.succ (Z.of_nat k))) as [Hk'|Hk'];
      try lia;
      cbn [andb negb best_move_streak flow_state_active flow_state_timer
           best_moves total_moves with_counters with_flow];
      rewrite ?I1, ?I3, ?I4, ?I5;
      try (destruct (Z.leb_spec 3 (Z.of_nat k)); try lia);
      repeat split; lia.
Qed.

End ResourceInvariants.

(** ** The state stack *)

Section StackInvariants.

Import StateMachine.
Local Open Scope list_scope.
Local Open Scope nat_scope.

Context {S : Type}.

Lemma top_snoc : forall (stack : list S) s, top (stack ++ [s]) = Some s.
Proof.
  induction stack as [|x stack IH]; intro s; [reflexivity|].
  cbn [app]. destruct (stack ++ [s]) eqn:E.
  - destruct stack; discriminate.
  - rewrite <- E. cbn [top]. rewrite E. rewrite <- E. apply IH.
Qed.

Lemma top_none : forall (stack : list S), top stack = None -> stack = [].
Proof.
  intros stack H. destruct stack as [|x stack] using rev_ind; [reflexivity|].
  rewrite top_snoc in H. discriminate.
Qed.

Lemma top_some :
  forall (stack : list S) t,
    top stack = Some t -> stack = removelast stack ++ [t].
Proof.
  intros stack t H. destruct stack as [|x stack _] using rev_ind; [discriminate|].
  rewrite top_snoc in H. inversion H; subst.
  rewrite removelast_last. reflexivity.
Qed.

(** X21.  A scheduled switch is carried out before anything else and
    alone: the top state, if there is one, is left and removed, the new state
    is entered and becomes the top, and the states below stay as they were,
    so the stack afterwards is the old one without its top, followed by the
    new state; a pop or a push scheduled in the same frame is neither carried
    out nor dropped, it waits for the next frame. *)
Theorem switch_comes_first :
  forall (sm : StateManager S) s,
    _pending_switch sm = Some s ->
    snd (process_pending sm)
    = {| _stack := removelast (_stack sm) ++ [s];
         _pending_push := _pending_push sm;
         _pending_pop := _pending_pop sm;
         _pending_switch := None |}
    /\ current (snd (process_pending sm)) = Some s
    /\ fst (process_pending sm)
       = match current sm with
         | Some t => [Exit t; Enter s]
         | None => [Enter s]
         end
    /\ List.length (_stack (snd (process_pending sm)))
       = Nat.max 1 (List.length (_stack sm))
    /\ _pending_switch (snd (process_pending sm)) = None
    /\ _pending_push (snd (process_pending sm)) = _pending_push sm
    /\ _pending_pop (snd (process_pending sm)) = _pending_pop sm.
Proof.
  intros sm s Hs. unfold process_pending, exit_top, current. rewrite Hs.
  destruct (top (_stack sm)) as [t|] eqn:Et; cbn [fst snd _stack _pending_switch
    _pending_push _pending_pop app].
  - rewrite top_snoc. repeat split.
    apply top_some in Et. rewrite length_app. cbn [List.length].
    rewrite Et at 2. rewrite length_app. cbn [List.length]. lia.
  - rewrite top_snoc. apply top_none in Et. rewrite Et. repeat split.
Qed.

(** X22.  Nothing stays scheduled for more than two frames: one call of
    [process_pending] settles everything unless a switch was scheduled, a
    second call settles what the switch had put off; and on a settled manager
    the call does nothing. *)
Theorem pending_settles_in_two_frames :
  forall (sm : StateManager S),
    settled (snd (process_pending (snd (process_pending sm))))
    /\ (_pending_switch sm = None -> settled (snd (process_pending sm)))
    /\ (settled sm -> process_pending sm = ([], sm)).
Proof.
  intro sm.
  assert (H1 : forall m : StateManager S,
             _pending_switch m = None -> settled (snd (process_pending m))).
  { intros m Hm. unfold process_pending. rewrite Hm.
    destruct (_pending_pop m); destruct (top (_stack m));
      destruct (_pending_push m); cbn; repeat split. }
  split; [|split; [apply H1|]].
  - apply H1. unfold process_pending, exit_top.
    destruct (_pending_switch sm) as [s|].
    + destruct (top (_stack sm)); reflexivity.
    + destruct (_pending_pop sm); destruct (top (_stack sm));
        destruct (_pending_push sm); reflexivity.
  - intros (Hpush & Hpop & Hswitch). unfold process_pending.
    rewrite Hswitch, Hpop, Hpush. destruct sm. cbn in *. subst. reflexivity.
Qed.

(** X23.  A pop leaves the top state and enters the state below it once
    more; with a single state on the stack it leaves that state and empties
    the stack; on an empty stack it does nothing. *)
Theorem pop_reenters_state_below :
  forall (sm : StateManager S),
    _pending_switch sm = None ->
    _pending_pop sm = true ->
    _pending_push sm = None ->
    (forall below u t,
        _stack sm = below ++ [u; t] ->
        process_pending sm
        = ([Exit t; Enter u],
           {| _stack := below ++ [u]; _pending_push := None;
              _pending_pop := false; _pending_switch := None |}))
    /\ (forall t, _stack sm = [t] -> process_pending sm = ([Exit t], empty))
    /\ (_stack sm = [] -> process_pending sm = ([], empty)).
Proof.
  intros sm Hs Hpop Hpush. unfold process_pending. rewrite Hs, Hpop, Hpush.
  repeat split.
  - intros below u t E. rewrite E.
    replace (below ++ [u; t]) with ((below ++ [u]) ++ [t])
      by (rewrite <- app_assoc; reflexivity).
    rewrite top_snoc, removelast_last, top_snoc. reflexivity.
  - intros t E. rewrite E. reflexivity.
  - intro E. rewrite E. reflexivity.
Qed.

(** X24.  An overlay comes and goes without a trace on the manager: on a
    settled manager, pushing a state and processing enters it on top of the
    current one; popping it and processing leaves it, enters the state below
    once more, and gives back the manager as it was.  This is the course of a
    Limbo visit: when it ends, [enter] of the chess state runs a second time. *)
Theorem overlay_round_trip :
  forall (sm : StateManager S) g l,
    settled sm ->
    current sm = Some g ->
    fst (process_pending (push l sm)) = [Enter l]
    /\ current (snd (process_pending (push l sm))) = Some l
    /\ fst (process_pending (pop (snd (process_pending (push l sm)))))
       = [Exit l; Enter g]
    /\ snd (process_pending (pop (snd (process_pending (push l sm))))) = sm.
Proof.
  intros sm g l (Hpush & Hpop & Hswitch) Hg.
  destruct sm as [stack ppush ppop pswitch]. cbn in Hpush, Hpop, Hswitch, Hg.
  subst ppush ppop pswitch. unfold current in *. cbn [_stack] in *.
  unfold process_pending, push, pop.
  cbn [_stack _pending_push _pending_pop _pending_switch fst snd app current].
  rewrite !top_snoc, removelast_last, Hg. repeat split.
Qed.

End StackInvariants.

Section StackWitnesses.

Import StateMachine.
Local Open Scope list_scope.
Local Open Scope nat_scope.

Lemma switch_comes_first_witness :
  current (snd (process_pending (push 7 (switch 9 {| _stack := [1; 2];
                                                     _pending_push := None;
                                                     _pending_pop := false;
                                                     _pending_switch := None |}))))
  = Some 9
  /\ fst (process_pending (push 7 (switch 9 {| _stack := [1; 2];
                                               _pending_push := None;
                                               _pending_pop := false;
                                               _pending_switch := None |})))
     = [Exit 2; Enter 9]
  /\ snd (process_pending (push 7 (switch 9 {| _stack := [1; 2];
                                               _pending_push := None;
                                               _pending_pop := false;
                                               _pending_switch := None |})))
     = {| _stack := [1; 9]; _pending_push := Some 7; _pending_pop := false;
          _pending_switch := None |}.
Proof.
  destruct (switch_comes_first
              (S := nat)
              (push 7 (switch 9 {| _stack := [1; 2]; _pending_push := None;
                                   _pending_pop := false;
                                   _pending_switch := None |})) 9 eq_refl)
    as (H0 & H1 & H2 & _).
  split; [exact H1|]. split; [exact H2|exact H0].
Defined.

Lemma pending_settles_in_two_frames_witness :
  process_pending {| _stack := [1; 2]; _pending_push := None;
                     _pending_pop := false; _pending_switch := None |}
  = ([], {| _stack := [1; 2]; _pending_push := None;
            _pending_pop := false; _pending_switch := None |}).
Proof.
  apply (proj2 (proj2 (pending_settles_in_two_frames (S := nat) _))).
  repeat split.
Defined.

Lemma pop_reenters_state_below_witness :
  process_pending (pop {| _stack := [1; 2; 3]; _pending_push := None;
                          _pending_pop := false; _pending_switch := None |})
  = ([Exit 3; Enter 2],
     {| _stack := [1; 2]; _pending_push := None;
        _pending_pop := false; _pending_switch := None |}).
Proof.
  apply (proj1 (pop_reenters_state_below
                  (S := nat)
                  (pop {| _stack := [1; 2; 3]; _pending_push := None;
                          _pending_pop := false; _pending_switch := None |})
                  eq_refl eq_refl eq_refl) [1] 2 3).
  reflexivity.
Defined.

Lemma overlay_round_trip_witness :
  fst (process_pending
         (pop (snd (process_pending
                      (push 5 {| _stack := [1; 2]; _pending_push := None;
                                 _pending_pop := false;
                                 _pending_switch := None |})))))
  = [Exit 5; Enter 2]
  /\ snd (process_pending
            (pop (snd (process_pending
                         (push 5 {| _stack := [1; 2]; _pending_push := None;
                                    _pending_pop := false;
                                    _pending_switch := None |})))))
     = {| _stack := [1; 2]; _pending_push := None;
          _pending_pop := false; _pending_switch := None |}.
Proof.
  destruct (overlay_round_trip
              (S := nat)
              {| _stack := [1; 2]; _pending_push := None;
                 _pending_pop := false; _pending_switch := None |} 2 5)
    as (_ & _ & H3 & H4); [repeat split|reflexivity|].
  split; [exact H3|exact H4].
Defined.

End StackWitnesses.

(** ** Moves, Limbo and rewind *)

Section GameFlowInvariants.

Import Resources StateMachine GameFlow GameVocabulary.
Local Open Scope string_scope.
Local Open Scope list_scope.
Local Open Scope Z_scope.

(** The label of a classified move, with what it tells about the loss. *)
Lemma classify_move_cases :
  forall b a uci w,
    let c := classify_move b a uci w in
    (label c = "brilliant" /\ is_blunder c = false)
    \/ (label c = "best" /\ is_blunder c = false)
    \/ (label c = "good" /\ is_blunder c = false)
    \/ (label c = "inaccuracy" /\ is_blunder c = false)
    \/ (label c = "mistake" /\ is_blunder c = false)
    \/ (label c = "blunder" /\ is_blunder c = true).
Proof.
  intros b a uci w c. subst c. unfold classify_move. cbn [label is_blunder].
  set (loss := Z.max 0 (if w then b - a else a - b)).
  unfold BLUNDER_THRESHOLD_CP.
  destruct (classify_cases loss) as [[H E]|[[H E]|[[H E]|[[H E]|[[H E]|[H E]]]]]];
    rewrite E;
    [left|right; left|right; right; left|right; right; right; left
     |right; right; right; right; left|right; right; right; right; right];
    (split; [reflexivity|]);
    destruct (Z.geb_spec loss 200); try reflexivity; lia.
Qed.

(** X25.  A classified move sends the game to Limbo exactly when it is a
    blunder: then a Limbo state for the position is scheduled on the state
    stack, the blunder is counted and the streak is broken, and no sanity or
    soul is taken at that point; any other move leaves the state stack
    alone. *)
Theorem limbo_follows_blunder :
  forall eval_before_cp eval_after_cp uci white fen p,
    let c := classify_move eval_before_cp eval_after_cp uci white in
    let p' := _apply_move_classification c fen p in
    _sm p' = (if is_blunder c then push (LimboState fen) (_sm p) else _sm p)
    /\ (is_blunder c = true ->
        blunders (resources p') = blunders (resources p) + 1
        /\ best_move_streak (resources p') = 0
        /\ flow_state_active (resources p') = false
        /\ sanity (resources p') = sanity (resources p)
        /\ soul (resources p') = soul (resources p)).
Proof.
  intros b a uci w fen p c p'. subst p'.
  unfold _apply_move_classification.
  destruct (classify_move_cases b a uci w)
    as [[L B]|[[L B]|[[L B]|[[L B]|[[L B]|[L B]]]]]];
    fold c in L, B; rewrite L, B;
    cbn [String.eqb Ascii.eqb Bool.eqb orb];
    (split; [reflexivity|intro H; try discriminate H]).
  repeat split.
Qed.

Lemma regen_double : regen_amount (QArith_base.Qmake 2 1) = Returned 16.
Proof. vm_compute. reflexivity. Qed.

Lemma regen_single : regen_amount (QArith_base.Qmake 1 1) = Returned 8.
Proof. vm_compute. reflexivity. Qed.

(** The two multipliers of the game layer are far from overflow. *)
Lemma regen_focus_flow :
  forall (flow : bool) r,
    regen_focus
      (if flow then QArith_base.Qmake 2 1 else QArith_base.Qmake 1 1) r
    = Returned
        (with_focus
           (Z.min (focus_max r) (focus r + (if flow then 16 else 8))) r).
Proof.
  intros [|] r; unfold regen_focus;
    rewrite ?regen_double, ?regen_single; reflexivity.
Qed.

Lemma record_player_move_keeps :
  forall b a uci w fen p,
    counted (resources p) ->
    within_bounds (resources p) ->
    exists p',
      record_player_move (classify_move b a uci w) fen p = Returned p'
      /\ counted (resources p')
      /\ within_bounds (resources p').
Proof.
  intros b a uci w fen p (Hc & Hbr) Hb.
  unfold within_bounds, MAX_SANITY in Hb. destruct Hb as (H1 & H2 & H3 & H4).
  unfold record_player_move. rewrite regen_focus_flow.
  eexists. split; [reflexivity|].
  unfold _apply_move_classification.
  destruct (classify_move_cases b a uci w)
    as [[L B]|[[L B]|[[L B]|[[L B]|[[L B]|[L B]]]]]];
    rewrite L; cbn [String.eqb Ascii.eqb Bool.eqb orb];
    unfold counted, within_bounds, MAX_SANITY, _trigger_limbo, with_resources,
      register_best_move, FLOW_STATE_STREAK;
    cbn [resources];
    repeat match goal with
           | |- context [if ?x then _ else _] => destruct x
           end;
    cbn -[Z.mul Z.add Z.sub Z.min Z.max]; repeat split; lia.
Qed.

(** X26.  Over any run of player moves the bookkeeping raises nothing, the
    move counters keep adding up and the gauges stay within their bounds.  A
    move labelled brilliant or best is counted twice in [total_moves], every
    other move once, and [brilliant_moves] is never written, so that
    [total_moves = 2 * best_moves + good_moves + inaccuracies + mistakes
     + blunders]. *)
Theorem move_counters_add_up :
  forall moves p,
    counted (resources p) ->
    within_bounds (resources p) ->
    exists p',
      record_all moves p = Returned p'
      /\ counted (resources p')
      /\ within_bounds (resources p').
Proof.
  induction moves as [|[[[[b a] uci] w] fen] moves IH]; intros p Hc Hb.
  - exists p. split; [reflexivity|]. split; assumption.
  - cbn [record_all record_played].
    destruct (record_player_move_keeps b a uci w fen p Hc Hb)
      as (p1 & Hp1 & Hc1 & Hb1).
    rewrite Hp1. apply IH; assumption.
Qed.

Lemma move_counters_add_up_witness :
  let p0 :=
    {| resources := fresh; _sm := empty; _analyzer := init "stockfish" 18;
       _move_history := []; _move_log := []; _waiting_for_ai := false;
       _game_over := false; _game_result := "" |} in
  let moves :=
    [(0, 0, "e2e4", true, "fen1"); (30, 25, "g1f3", true, "fen2");
     (25, -5, "f1c4", true, "fen3"); (-5, -260, "d1h5", true, "fen4")] in
  exists p',
    record_all moves p0 = Returned p'
    /\ counted (resources p')
    /\ within_bounds (resources p')
    /\ total_moves (resources p') = 6
    /\ best_moves (resources p') = 2.
Proof.
  cbn zeta.
  destruct (move_counters_add_up
              [(0, 0, "e2e4", true, "fen1"); (30, 25, "g1f3", true, "fen2");
               (25, -5, "f1c4", true, "fen3"); (-5, -260, "d1h5", true, "fen4")]
              {| resources := fresh; _sm := empty;
                 _analyzer := init "stockfish" 18;
                 _move_history := []; _move_log := [];
                 _waiting_for_ai := false;
                 _game_over := false; _game_result := "" |})
    as (p' & Hp & H1 & H2).
  - split; reflexivity.
  - unfold within_bounds, fresh, MAX_SANITY, MAX_SOUL, MAX_FOCUS. cbn. lia.
  - exists p'. split; [exact Hp|]. split; [exact H1|]. split; [exact H2|].
    vm_compute in Hp. injection Hp as <-. split; reflexivity.
Defined.

Lemma removelast_twice :
  forall (A : Type) (l : list A),
    removelast (removelast l) = firstn (List.length l - 2) l.
Proof.
  intros A l. rewrite !removelast_firstn_len, length_firstn, firstn_firstn.
  f_equal. lia.
Qed.

(** X27.  A rewind needs two moves on record and 25 soul.  Without them it
    changes nothing; with them it takes the last two moves off the record,
    takes exactly 25 soul, which never goes below zero, lets the player move
    again and, when the analyzer is available, asks for the analysis of the
    position reached.  A rewind paid with the last 25 soul leaves the player
    dead. *)
Theorem rewind_costs_soul :
  forall fen p,
    ((List.length (_move_history p) < 2)%nat \/ soul (resources p) < 25 ->
     _attempt_rewind fen p = p)
    /\ ((2 <= List.length (_move_history p))%nat ->
        25 <= soul (resources p) ->
        soul (resources (_attempt_rewind fen p)) = soul (resources p) - 25
        /\ 0 <= soul (resources (_attempt_rewind fen p))
        /\ _move_history (_attempt_rewind fen p)
           = firstn (List.length (_move_history p) - 2) (_move_history p)
        /\ _waiting_for_ai (_attempt_rewind fen p) = false
        /\ (is_dead (resources (_attempt_rewind fen p)) = true
            <-> soul (resources p) = 25)
        /\ (is_available (_analyzer p) = true ->
            _current_fen (_analyzer (_attempt_rewind fen p)) = fen
            /\ _new_position (_analyzer (_attempt_rewind fen p)) = true)).
Proof.
  intros fen p. unfold _attempt_rewind, spend_soul_for_rewind, SOUL_COST_REWIND.
  split.
  - intros [Hlen|Hsoul].
    + rewrite (proj2 (Nat.ltb_lt _ _) Hlen). reflexivity.
    + destruct (List.length (_move_history p) <? 2)%nat; [reflexivity|].
      destruct (Z.geb_spec (soul (resources p)) 25); [lia|].
      destruct p. reflexivity.
  - intros Hlen Hsoul.
    rewrite (proj2 (Nat.ltb_ge _ _)) by lia.
    destruct (Z.geb_spec (soul (resources p)) 25); [|lia].
    cbn [resources _move_history _waiting_for_ai _analyzer soul with_soul
         with_gauges is_dead].
    split; [reflexivity|]. split; [lia|].
    split; [apply removelast_twice|]. split; [reflexivity|]. split.
    + unfold is_dead. cbn [soul with_soul with_gauges]. rewrite Z.leb_le. lia.
    + intro Hav. rewrite Hav. split; reflexivity.
Qed.

Lemma rewind_costs_soul_witness :
  let p :=
    {| resources := with_soul 25 fresh; _sm := empty (S := Screen);
       _analyzer := with_available true (init "stockfish" 18);
       _move_history := ["e2e4"; "e7e5"; "g1f3"; "b8c6"];
       _move_log := [("1", "e4", "best"); ("1", "e5", "ai");
                     ("2", "Nf3", "best"); ("2", "Nc6", "ai")];
       _waiting_for_ai := false; _game_over := false; _game_result := "" |} in
  soul (resources (_attempt_rewind "fen-after-rewind" p)) = 25 - 25
  /\ _move_history (_attempt_rewind "fen-after-rewind" p) = ["e2e4"; "e7e5"]
  /\ is_dead (resources (_attempt_rewind "fen-after-rewind" p)) = true.
Proof.
  cbn zeta.
  destruct (proj2 (rewind_costs_soul "fen-after-rewind"
              {| resources := with_soul 25 fresh; _sm := empty (S := Screen);
                 _analyzer := with_available true (init "stockfish" 18);
                 _move_history := ["e2e4"; "e7e5"; "g1f3"; "b8c6"];
                 _move_log := [("1", "e4", "best"); ("1", "e5", "ai");
                               ("2", "Nf3", "best"); ("2", "Nc6", "ai")];
                 _waiting_for_ai := false; _game_over := false;
                 _game_result := "" |}))
    as (H1 & _ & H3 & _ & H5 & _).
  - cbn. lia.
  - cbn. lia.
  - split; [exact H1|]. split; [exact H3|]. apply H5. reflexivity.
Defined.

End GameFlowInvariants.
